(** * Appointment scheduling engine of the healthcare voice assistant

    A shallow embedding of [src/scheduling/appointment.py]
    ([AppointmentManager]) and [src/database/db_manager.py]
    ([DatabaseManager]), with the part of Python's [datetime] module the two
    classes rely on, followed by the properties of the engine.  The
    callers of the two classes are embedded as well: the sample data script
    ([src/data/init_db.py]), the database test script
    ([src/data/test_db.py]) and the formatting of slots for speech
    ([src/app.py]).

    Conventions of the model.
    - A Python [str] is a [string] whose characters are code points below 256.
    - A naive [datetime] is the number of microseconds elapsed since
      0001-01-01 00:00:00; the calendar fields are recovered with the
      algorithms of the [datetime] module ([_ymd2ord], [_ord2ymd]).
    - [datetime.now()] is an explicit sequence of clock readings.
    - The SQLite table is the list of its rows in rowid order; a statement
      always executes (an I/O failure of the storage layer, which the code
      turns into a [False] result, is outside the model).
    - A [while] loop whose number of iterations is not a constant of the
      program takes fuel. *)

From Stdlib Require Import ZArith List String Ascii Bool Lia Permutation Sorted.
From Stdlib Require Import DecimalString.
Import ListNotations.
Open Scope string_scope.
Open Scope Z_scope.

(** ** Outcomes: a value, a Python exception, or exhausted fuel *)

Inductive exn : Type := ValueError | OverflowError.

Inductive outcome (A : Type) : Type :=
| Ok (a : A)
| Raise (e : exn)
| OutOfFuel.

Arguments Ok {A} a.
Arguments Raise {A} e.
Arguments OutOfFuel {A}.

Definition bind {A B : Type} (m : outcome A) (k : A -> outcome B) : outcome B :=
  match m with
  | Ok a => k a
  | Raise e => Raise e
  | OutOfFuel => OutOfFuel
  end.

Notation "x <- m ;; k" := (bind m (fun x => k))
  (at level 61, m at next level, right associativity).

(** [try: ... except Exception: return v] *)
Definition except_Exception {A : Type} (m : outcome A) (v : A) : outcome A :=
  match m with
  | Raise _ => Ok v
  | other => other
  end.

(** [try: ... except ValueError: return v] *)
Definition except_ValueError {A : Type} (m : outcome A) (v : A) : outcome A :=
  match m with
  | Raise ValueError => Ok v
  | other => other
  end.

(** ** The calendar of Python's [datetime] module *)

Module Calendar.

Definition MINYEAR : Z := 1.
Definition MAXYEAR : Z := 9999.
Definition MAXORDINAL : Z := 3652059.

Definition is_leap (year : Z) : bool :=
  (year mod 4 =? 0) && (negb (year mod 100 =? 0) || (year mod 400 =? 0)).

Definition days_before_year (year : Z) : Z :=
  let y := year - 1 in
  y * 365 + y / 4 - y / 100 + y / 400.

(** [_DAYS_IN_MONTH], indexed from 1. *)
Definition DAYS_IN_MONTH (month : Z) : Z :=
  match month with
  | 1 => 31 | 2 => 28 | 3 => 31 | 4 => 30 | 5 => 31 | 6 => 30
  | 7 => 31 | 8 => 31 | 9 => 30 | 10 => 31 | 11 => 30 | 12 => 31
  | _ => 0
  end.

(** [_DAYS_BEFORE_MONTH], indexed from 1. *)
Definition DAYS_BEFORE_MONTH (month : Z) : Z :=
  match month with
  | 1 => 0 | 2 => 31 | 3 => 59 | 4 => 90 | 5 => 120 | 6 => 151
  | 7 => 181 | 8 => 212 | 9 => 243 | 10 => 273 | 11 => 304 | 12 => 334
  | _ => 0
  end.

Definition days_in_month (year month : Z) : Z :=
  if (month =? 2) && is_leap year then 29 else DAYS_IN_MONTH month.

Definition days_before_month (year month : Z) : Z :=
  DAYS_BEFORE_MONTH month + (if (2 <? month) && is_leap year then 1 else 0).

Definition ymd2ord (year month day : Z) : Z :=
  days_before_year year + days_before_month year month + day.

Definition DI400Y : Z := 146097.
Definition DI100Y : Z := 36524.
Definition DI4Y : Z := 1461.

Definition ord2ymd (ordinal : Z) : Z * Z * Z :=
  let n := ordinal - 1 in
  let n400 := n / DI400Y in
  let n := n mod DI400Y in
  let year := n400 * 400 + 1 in
  let n100 := n / DI100Y in
  let n := n mod DI100Y in
  let n4 := n / DI4Y in
  let n := n mod DI4Y in
  let n1 := n / 365 in
  let n := n mod 365 in
  let year := year + n100 * 100 + n4 * 4 + n1 in
  if (n1 =? 4) || (n100 =? 4) then (year - 1, 12, 31)
  else
    let leapyear := (n1 =? 3) && (negb (n4 =? 24) || (n100 =? 3)) in
    let month := Z.shiftr (n + 50) 5 in
    let preceding :=
      DAYS_BEFORE_MONTH month + (if (2 <? month) && leapyear then 1 else 0) in
    if n <? preceding then
      let month := month - 1 in
      let preceding :=
        preceding
        - (DAYS_IN_MONTH month + (if (month =? 2) && leapyear then 1 else 0)) in
      (year, month, n - preceding + 1)
    else (year, month, n - preceding + 1).

(** A date the [date] constructor accepts. *)
Definition valid_ymd (year month day : Z) : bool :=
  (MINYEAR <=? year) && (year <=? MAXYEAR)
  && (1 <=? month) && (month <=? 12)
  && (1 <=? day) && (day <=? days_in_month year month).

End Calendar.

(** ** Naive datetimes, timedeltas, [strftime] and [strptime] *)

Module Datetime.
Import Calendar.

(** Microseconds since 0001-01-01 00:00:00. *)
Definition datetime : Type := Z.
(** A duration in microseconds. *)
Definition timedelta : Type := Z.
(** A [date] is its proleptic Gregorian ordinal, 0001-01-01 being day 1. *)
Definition date : Type := Z.
(** A [time] is the number of microseconds since midnight. *)
Definition time : Type := Z.

Definition US_PER_MINUTE : Z := 60000000.
Definition US_PER_HOUR : Z := 3600000000.
Definition US_PER_DAY : Z := 86400000000.

Definition days (n : Z) : timedelta := n * US_PER_DAY.
Definition hours (n : Z) : timedelta := n * US_PER_HOUR.
Definition minutes (n : Z) : timedelta := n * US_PER_MINUTE.

(** First instant after [datetime.max]. *)
Definition MAX_US : Z := MAXORDINAL * US_PER_DAY.

Definition toordinal (dt : datetime) : Z := dt / US_PER_DAY + 1.
Definition time_of (dt : datetime) : time := dt mod US_PER_DAY.
Definition date_of (dt : datetime) : date := toordinal dt.
Definition hour (dt : datetime) : Z := time_of dt / US_PER_HOUR.
Definition minute (dt : datetime) : Z := time_of dt mod US_PER_HOUR / US_PER_MINUTE.
Definition weekday (dt : datetime) : Z := (toordinal dt + 6) mod 7.

(** [datetime.combine(d, t)] *)
Definition combine (d : date) (t : time) : datetime := (d - 1) * US_PER_DAY + t.

(** [datetime(year, month, day, hour, minute)] *)
Definition make_datetime (year month day hh mm : Z) : outcome datetime :=
  if valid_ymd year month day
     && (0 <=? hh) && (hh <=? 23) && (0 <=? mm) && (mm <=? 59)
  then Ok (combine (ymd2ord year month day) (hours hh + minutes mm))
  else Raise ValueError.

(** [dt + delta]: the sum is rebuilt from its ordinal, which has to lie in
    [1 .. MAXORDINAL]. *)
Definition add (dt : datetime) (delta : timedelta) : outcome datetime :=
  let r := dt + delta in
  if (0 <? toordinal r) && (toordinal r <=? MAXORDINAL) then Ok r
  else Raise OverflowError.

(** [d + timedelta(days=n)] on a [date]. *)
Definition date_add_days (d : date) (n : Z) : outcome date :=
  let o := d + n in
  if (0 <? o) && (o <=? MAXORDINAL) then Ok o else Raise OverflowError.

(** *** Formatting *)

Definition digit_char (d : Z) : ascii := ascii_of_N (Z.to_N (48 + d)).

Definition pad2 (n : Z) : string :=
  String (digit_char (n / 10)) (String (digit_char (n mod 10)) "").

Definition pad4 (n : Z) : string :=
  String (digit_char (n / 1000))
    (String (digit_char (n / 100 mod 10))
       (String (digit_char (n / 10 mod 10))
          (String (digit_char (n mod 10)) ""))).

(** [dt.strftime('%Y-%m-%d')], the year written with four digits. *)
Definition strftime_Ymd (dt : datetime) : string :=
  let '(y, m, d) := ord2ymd (toordinal dt) in
  pad4 y ++ "-" ++ pad2 m ++ "-" ++ pad2 d.

(** [dt.strftime('%H:%M')] *)
Definition strftime_HM (dt : datetime) : string :=
  pad2 (hour dt) ++ ":" ++ pad2 (minute dt).

(** [str(n)] for an [int]. *)
Definition str (n : Z) : string := NilZero.string_of_int (Z.to_int n).

(** *** Parsing

    [_strptime] compiles the format to a regular expression, one group per
    directive, and matches it at the start of the input.  Each directive is
    an ordered alternation; since the text that follows a directive in the
    formats used here starts with a character no alternative can absorb, the
    first alternative that matches locally is the one the match keeps. *)

Definition code (c : ascii) : Z := Z.of_N (N_of_ascii c).

(** [\d] *)
Definition is_digit (c : ascii) : bool := (48 <=? code c) && (code c <=? 57).
Definition digit_val (c : ascii) : Z := code c - 48.
Definition in_class (lo hi : Z) (c : ascii) : bool :=
  is_digit c && (lo <=? digit_val c) && (digit_val c <=? hi).

(** [\s] on code points below 256. *)
Definition is_space (c : ascii) : bool :=
  let n := code c in
  ((9 <=? n) && (n <=? 13)) || ((28 <=? n) && (n <=? 32))
  || (n =? 133) || (n =? 160).

Definition parser (A : Type) : Type := string -> option (A * string).

(** [%Y]: [\d\d\d\d] *)
Definition parse_Y : parser Z := fun s =>
  match s with
  | String a (String b (String c (String d rest))) =>
      if is_digit a && is_digit b && is_digit c && is_digit d
      then Some (1000 * digit_val a + 100 * digit_val b
                 + 10 * digit_val c + digit_val d, rest)
      else None
  | _ => None
  end.

(** A two-character alternative [[lo1-hi1][lo2-hi2]]. *)
Definition two_chars (lo1 hi1 lo2 hi2 : Z) : parser Z := fun s =>
  match s with
  | String a (String b rest) =>
      if in_class lo1 hi1 a && in_class lo2 hi2 b
      then Some (10 * digit_val a + digit_val b, rest)
      else None
  | _ => None
  end.

(** A one-character alternative [[lo-hi]]. *)
Definition one_char (lo hi : Z) : parser Z := fun s =>
  match s with
  | String a rest => if in_class lo hi a then Some (digit_val a, rest) else None
  | _ => None
  end.

(** The alternative [ [1-9]] of [%d]: a blank, then a digit. *)
Definition blank_then_digit : parser Z := fun s =>
  match s with
  | String " " (String b rest) =>
      if in_class 1 9 b then Some (digit_val b, rest) else None
  | _ => None
  end.

Definition alt {A : Type} (p q : parser A) : parser A := fun s =>
  match p s with
  | Some r => Some r
  | None => q s
  end.

(** [%m]: [1[0-2]|0[1-9]|[1-9]] *)
Definition parse_m : parser Z :=
  alt (two_chars 1 1 0 2) (alt (two_chars 0 0 1 9) (one_char 1 9)).

(** [%d]: [3[0-1]|[1-2]\d|0[1-9]|[1-9]| [1-9]] *)
Definition parse_d : parser Z :=
  alt (two_chars 3 3 0 1)
    (alt (two_chars 1 2 0 9)
       (alt (two_chars 0 0 1 9) (alt (one_char 1 9) blank_then_digit))).

(** [%H]: [2[0-3]|[0-1]\d|\d] *)
Definition parse_H : parser Z :=
  alt (two_chars 2 2 0 3) (alt (two_chars 0 1 0 9) (one_char 0 9)).

(** [%M]: [[0-5]\d|\d] *)
Definition parse_M : parser Z :=
  alt (two_chars 0 5 0 9) (one_char 0 9).

(** A literal character of the format. *)
Definition literal (c : ascii) : parser unit := fun s =>
  match s with
  | String a rest => if Ascii.eqb a c then Some (tt, rest) else None
  | _ => None
  end.

Fixpoint skip_spaces (s : string) : string :=
  match s with
  | String a rest => if is_space a then skip_spaces rest else s
  | EmptyString => s
  end.

(** A blank of the format: [\s+], greedy. *)
Definition spaces : parser unit := fun s =>
  match s with
  | String a rest => if is_space a then Some (tt, skip_spaces rest) else None
  | _ => None
  end.

Definition pbind {A B : Type} (p : parser A) (k : A -> parser B) : parser B :=
  fun s =>
    match p s with
    | Some (a, rest) => k a rest
    | None => None
    end.

Definition pret {A : Type} (a : A) : parser A := fun s => Some (a, s).

Notation "x <~ p ;; k" := (pbind p (fun x => k))
  (at level 61, p at next level, right associativity).

(** The match has to consume the whole input ("unconverted data remains"
    otherwise); a failed match and an impossible date are [ValueError]s. *)
Definition run_format (p : parser (Z * Z * Z * Z * Z)) (s : string)
  : outcome datetime :=
  match p s with
  | Some ((year, month, day, hh, mm), EmptyString) =>
      make_datetime year month day hh mm
  | _ => Raise ValueError
  end.

(** [datetime.strptime(s, '%Y-%m-%d %H:%M')] *)
Definition strptime_Ymd_HM : string -> outcome datetime :=
  run_format
    (y <~ parse_Y ;; _ <~ literal "-" ;; m <~ parse_m ;; _ <~ literal "-" ;;
     d <~ parse_d ;; _ <~ spaces ;; hh <~ parse_H ;; _ <~ literal ":" ;;
     mm <~ parse_M ;; pret (y, m, d, hh, mm)).

(** [datetime.strptime(s, '%Y-%m-%d')] *)
Definition strptime_Ymd : string -> outcome datetime :=
  run_format
    (y <~ parse_Y ;; _ <~ literal "-" ;; m <~ parse_m ;; _ <~ literal "-" ;;
     d <~ parse_d ;; pret (y, m, d, 0, 0)).

(** [datetime.strptime(s, '%H:%M')]: the date defaults to 1900-01-01. *)
Definition strptime_HM : string -> outcome datetime :=
  run_format
    (hh <~ parse_H ;; _ <~ literal ":" ;; mm <~ parse_M ;;
     pret (1900, 1, 1, hh, mm)).

End Datetime.

(** ** The appointments table ([src/database/db_manager.py]) *)

(** A row of the table [appointments]. *)
Module Row.
Record t : Type := make {
  id : Z;
  date : string;
  time : string;
  doctor : string;
  patient_notes : string;
  status : string;
  created_at : string;
  updated_at : string
}.
End Row.

Module DatabaseManager.

(** The rows in rowid order. *)
Definition table : Type := list Row.t.

(** [WHERE date = ? AND time = ? AND status = 'scheduled'] *)
Definition scheduled_at (date time : string) (r : Row.t) : bool :=
  (Row.date r =? date)%string && (Row.time r =? time)%string
  && (Row.status r =? "scheduled")%string.

(** [INTEGER PRIMARY KEY AUTOINCREMENT]: one more than the largest rowid. *)
Definition next_id (db : table) : Z :=
  1 + fold_right Z.max 0 (map Row.id db).

(** The insert names four columns; [status] takes its default and the two
    timestamps take [CURRENT_TIMESTAMP], here [ts]. *)
Definition add_appointment (db : table) (ts date time doctor notes : string)
  : bool * table :=
  (true,
   (db ++ [Row.make (next_id db) date time doctor notes "scheduled" ts ts])%list).

(** [ORDER BY]: a stable insertion sort. *)
Fixpoint insert_by (le : Row.t -> Row.t -> bool) (r : Row.t) (l : list Row.t)
  : list Row.t :=
  match l with
  | [] => [r]
  | r' :: l' => if le r r' then r :: l else r' :: insert_by le r l'
  end.

Definition order_by (le : Row.t -> Row.t -> bool) (l : list Row.t) : list Row.t :=
  fold_right (insert_by le) [] l.

(** [ORDER BY time] *)
Definition by_time (a b : Row.t) : bool := String.leb (Row.time a) (Row.time b).

(** [ORDER BY date, time] *)
Definition by_date_time (a b : Row.t) : bool :=
  String.ltb (Row.date a) (Row.date b)
  || ((Row.date a =? Row.date b)%string && String.leb (Row.time a) (Row.time b)).

(** [if date:] holds for a string that is neither [None] nor empty.
    [today] is SQLite's [date('now')]. *)
Definition get_appointments (db : table) (today : string) (date : option string)
  : list Row.t :=
  match date with
  | Some (String c s) =>
      let date := String c s in
      order_by by_time
        (filter (fun r => (Row.date r =? date)%string
                          && (Row.status r =? "scheduled")%string) db)
  | _ =>
      order_by by_date_time
        (filter (fun r => String.leb today (Row.date r)
                          && (Row.status r =? "scheduled")%string) db)
  end.

Definition set_cancelled (ts : string) (r : Row.t) : Row.t :=
  Row.make (Row.id r) (Row.date r) (Row.time r) (Row.doctor r)
    (Row.patient_notes r) "cancelled" (Row.created_at r) ts.

Definition set_notes (ts notes : string) (r : Row.t) : Row.t :=
  Row.make (Row.id r) (Row.date r) (Row.time r) (Row.doctor r)
    notes (Row.status r) (Row.created_at r) ts.

(** [cursor.rowcount] of an [UPDATE ... WHERE date = ? AND time = ? AND
    status = 'scheduled'] *)
Definition rowcount (db : table) (date time : string) : Z :=
  Z.of_nat (List.length (filter (scheduled_at date time) db)).

Definition cancel_appointment (db : table) (ts date time : string)
  : bool * table :=
  (0 <? rowcount db date time,
   map (fun r => if scheduled_at date time r then set_cancelled ts r else r) db).

(** The number of rows the [SELECT] counts, then [count == 0]. *)
Definition check_availability (db : table) (date time : string) : bool :=
  Z.of_nat (List.length (filter (scheduled_at date time) db)) =? 0.

Definition update_appointment_notes (db : table) (ts date time notes : string)
  : bool * table :=
  (0 <? rowcount db date time,
   map (fun r => if scheduled_at date time r then set_notes ts notes r else r) db).

End DatabaseManager.

(** ** The scheduling engine ([src/scheduling/appointment.py]) *)

Module AppointmentManager.
Import Datetime.

Definition table : Type := DatabaseManager.table.

Definition WORKING_HOURS_START : Z := 9.
Definition WORKING_HOURS_END : Z := 17.
Definition APPOINTMENT_DURATION : Z := 30.
Definition MIN_SCHEDULE_NOTICE : Z := 1.

(** The successive values of [datetime.now()]: reading number [k] is
    [clk k]. *)
Definition clock : Type := nat -> datetime.

(** A [{'date': ..., 'time': ...}] dictionary. *)
Definition slot : Type := (string * string)%type.

(** [now] is the reading of the clock the function makes once the pair has
    parsed. *)
Definition _is_valid_datetime (now : datetime) (date time : string)
  : outcome bool :=
  except_ValueError
    (appointment_dt <- strptime_Ymd_HM (date ++ " " ++ time) ;;
     limit <- add now (hours MIN_SCHEDULE_NOTICE) ;;
     if appointment_dt <? limit then Ok false
     else
       let hour := hour appointment_dt in
       if (hour <? WORKING_HOURS_START) || (WORKING_HOURS_END <=? hour)
       then Ok false
       else if 5 <=? weekday appointment_dt then Ok false
       else Ok true)
    false.

(** Any exception is answered with [False]. *)
Definition is_available (now : datetime) (db : table) (date time : string)
  : bool :=
  match _is_valid_datetime now date time with
  | Ok valid =>
      if negb valid then false
      else DatabaseManager.check_availability db date time
  | _ => false
  end.

(** The validity test reads the clock ([clk 0]), then [is_available] reads
    it again ([clk 1]). *)
Definition schedule_appointment (clk : clock) (db : table)
    (ts date time doctor notes : string) : (bool * string) * table :=
  match _is_valid_datetime (clk 0%nat) date time with
  | Ok valid =>
      if negb valid then ((false, "Invalid appointment date or time"), db)
      else if negb (is_available (clk 1%nat) db date time)
      then ((false, "This time slot is not available"), db)
      else
        let (success, db') :=
          DatabaseManager.add_appointment db ts date time doctor notes in
        if success then ((true, "Appointment scheduled successfully"), db')
        else ((false, "Failed to schedule appointment"), db')
  | _ => ((false, "An error occurred while scheduling the appointment"), db)
  end.

Definition cancel_appointment (db : table) (ts date time : string)
  : (bool * string) * table :=
  let (success, db') := DatabaseManager.cancel_appointment db ts date time in
  if success then ((true, "Appointment cancelled successfully"), db')
  else ((false, "No appointment found for the specified time"), db').

Definition get_appointments (db : table) (today : string) (date : option string)
  : list Row.t :=
  DatabaseManager.get_appointments db today date.

Definition update_appointment_notes (db : table) (ts date time notes : string)
  : (bool * string) * table :=
  let (success, db') :=
    DatabaseManager.update_appointment_notes db ts date time notes in
  if success then ((true, "Appointment notes updated successfully"), db')
  else ((false, "No appointment found for the specified time"), db').

(** The schedule of one day: the listing of the store for [date]. *)
Definition get_daily_schedule (db : table) (today date : string) : list Row.t :=
  DatabaseManager.get_appointments db today (Some date).

(** *** [get_next_available_slot] *)

(** The [while current_time < end_time] sweep of one day.  [tick] counts the
    readings of the clock made so far; the result carries the new count. *)
Fixpoint sweep_day (fuel : nat) (clk : clock) (tick : nat) (db : table)
    (date_str : string) (current_time end_time : datetime)
  : outcome (option slot) * nat :=
  if current_time <? end_time then
    match fuel with
    | O => (OutOfFuel, tick)
    | S fuel' =>
        let time_str := strftime_HM current_time in
        if is_available (clk tick) db date_str time_str
        then (Ok (Some (date_str, time_str)), S tick)
        else
          match add current_time (minutes APPOINTMENT_DURATION) with
          | Ok current_time =>
              sweep_day fuel' clk (S tick) db date_str current_time end_time
          | Raise e => (Raise e, S tick)
          | OutOfFuel => (OutOfFuel, S tick)
          end
    end
  else (Ok None, tick).

(** The sweep starts at the opening hour and advances by the appointment
    duration: this many iterations are enough for it to reach closing time
    (lemma [sweep_day_fuel] below). *)
Definition SWEEP_FUEL : nat :=
  Z.to_nat ((WORKING_HOURS_END - WORKING_HOURS_START) * 60).

(** [for _ in range(n)] over the days. *)
Fixpoint scan_days (n : nat) (clk : clock) (tick : nat) (db : table)
    (current_date : datetime) : outcome (option slot) * nat :=
  match n with
  | O => (Ok None, tick)
  | S n' =>
      let date_str := strftime_Ymd current_date in
      match strptime_HM (str WORKING_HOURS_START ++ ":00"),
            strptime_HM (str WORKING_HOURS_END ++ ":00") with
      | Ok current_time, Ok end_time =>
          match sweep_day SWEEP_FUEL clk tick db date_str current_time end_time
          with
          | (Ok None, tick') =>
              match add current_date (days 1) with
              | Ok current_date => scan_days n' clk tick' db current_date
              | Raise e => (Raise e, tick')
              | OutOfFuel => (OutOfFuel, tick')
              end
          | found_or_failed => found_or_failed
          end
      | Ok _, Raise e => (Raise e, tick)
      | Raise e, _ => (Raise e, tick)
      | _, _ => (OutOfFuel, tick)
      end
  end.

(** [date] is [None] when the caller gives no starting date; [not date] also
    holds for the empty string.  The first component is the value returned,
    the second the number of clock readings made. *)
Definition get_next_available_slot (clk : clock) (db : table)
    (date : option string) : outcome (option slot) * nat :=
  let (date, tick) :=
    match date with
    | Some (String c s) => (String c s, 0%nat)
    | _ => (strftime_Ymd (clk 0%nat), 1%nat)
    end in
  match strptime_Ymd date with
  | Ok current_date =>
      let (r, tick') := scan_days 30 clk tick db current_date in
      (except_Exception r None, tick')
  | Raise _ => (Ok None, tick)
  | OutOfFuel => (OutOfFuel, tick)
  end.

(** *** [suggest_alternative_slots] *)

(** The [while current_dt.weekday() >= 5] loop. *)
Fixpoint skip_weekend (fuel : nat) (current_dt : datetime) : outcome datetime :=
  if 5 <=? weekday current_dt then
    match fuel with
    | O => OutOfFuel
    | S fuel' =>
        current_dt <- add current_dt (days 1) ;;
        opening <- strptime_HM (str WORKING_HOURS_START ++ ":00") ;;
        skip_weekend fuel' (combine (date_of current_dt) (time_of opening))
    end
  else Ok current_dt.

(** No run of the weekend loop is longer than a week (two iterations are made
    at most, lemma [skip_weekend_spec] below). *)
Definition WEEKEND_FUEL : nat := 7.

(** Lines 260 to 275: the candidate the loop body moves [current_dt] to. *)
Definition next_candidate (current_dt : datetime) : outcome datetime :=
  current_dt <- add current_dt (minutes APPOINTMENT_DURATION) ;;
  current_dt <-
    (if WORKING_HOURS_END <=? hour current_dt then
       tomorrow <- date_add_days (date_of current_dt) 1 ;;
       opening <- strptime_HM (str WORKING_HOURS_START ++ ":00") ;;
       Ok (combine tomorrow (time_of opening))
     else Ok current_dt) ;;
  skip_weekend WEEKEND_FUEL current_dt.

Definition len {A : Type} (l : list A) : Z := Z.of_nat (List.length l).

(** The main [while] loop.  Every candidate is tested with one call of
    [is_available], which reads the clock once: [tick] also counts the
    candidates examined. *)
Fixpoint suggest_loop (fuel : nat) (clk : clock) (tick : nat) (db : table)
    (num_suggestions : Z) (current_dt : datetime) (suggestions : list slot)
  : outcome (list slot) * nat :=
  if (len suggestions <? num_suggestions) && (len suggestions <? 10) then
    match fuel with
    | O => (OutOfFuel, tick)
    | S fuel' =>
        match next_candidate current_dt with
        | Ok current_dt =>
            let current_date := strftime_Ymd current_dt in
            let current_time := strftime_HM current_dt in
            if is_available (clk tick) db current_date current_time
            then suggest_loop fuel' clk (S tick) db num_suggestions current_dt
                   (suggestions ++ [(current_date, current_time)])%list
            else suggest_loop fuel' clk (S tick) db num_suggestions current_dt
                   suggestions
        | Raise e => (Raise e, tick)
        | OutOfFuel => (OutOfFuel, tick)
        end
    end
  else (Ok suggestions, tick).

(** The first component is the list returned, the second the number of
    candidates examined. *)
Definition suggest_alternative_slots (fuel : nat) (clk : clock) (db : table)
    (date time : string) (num_suggestions : Z) : outcome (list slot) * nat :=
  match strptime_Ymd_HM (date ++ " " ++ time) with
  | Ok preferred_dt =>
      let (r, tick) :=
        suggest_loop fuel clk 0 db num_suggestions preferred_dt [] in
      (except_Exception r [], tick)
  | Raise _ => (Ok [], 0%nat)
  | OutOfFuel => (OutOfFuel, 0%nat)
  end.

End AppointmentManager.

(** ** The sample data script ([src/data/init_db.py]) *)

Module InitDb.
Import Datetime.

Definition table : Type := DatabaseManager.table.

(** The list [doctors]. *)
Definition doctors : list string :=
  [ "Dr. Smith (General Physician)"; "Dr. Johnson (Cardiologist)";
    "Dr. Williams (Pediatrician)"; "Dr. Brown (Dermatologist)" ].

(** The list [appointments] built in every iteration: time, doctor, notes. *)
Definition appointments : list (string * string * string) :=
  [ ("09:00", nth 0 doctors "", "Annual checkup");
    ("10:30", nth 1 doctors "", "Heart consultation");
    ("14:00", nth 2 doctors "", "Pediatric checkup");
    ("15:30", nth 3 doctors "", "Skin examination") ].

(** The inner loop: an appointment is added only if its slot is available.
    [ts j] is [CURRENT_TIMESTAMP] at the insert of entry number [j]. *)
Fixpoint add_day (db : table) (ts : nat -> string) (j : nat) (date_str : string)
    (l : list (string * string * string)) : table :=
  match l with
  | [] => db
  | (time, doctor, notes) :: l' =>
      let db' :=
        if DatabaseManager.check_availability db date_str time
        then snd (DatabaseManager.add_appointment db (ts j) date_str time
                    doctor notes)
        else db in
      add_day db' ts (S j) date_str l'
  end.

(** [for i in range(7)], here over the list of the values of [i].  The sum
    [today + timedelta(days=i)] may leave the calendar; the exception is not
    caught, and the rows inserted before it stay in the store: the second
    component is the store the script leaves. *)
Fixpoint add_days (db : table) (ts : nat -> nat -> string) (today : datetime)
    (l : list nat) : outcome unit * table :=
  match l with
  | [] => (Ok tt, db)
  | i :: l' =>
      match add today (days (Z.of_nat i)) with
      | Ok date =>
          let date_str := strftime_Ymd date in
          add_days (add_day db (ts i) 0 date_str appointments) ts today l'
      | Raise e => (Raise e, db)
      | OutOfFuel => (OutOfFuel, db)
      end
  end.

(** [today] is the reading of [datetime.now()]. *)
Definition initialize_database (db : table) (ts : nat -> nat -> string)
    (today : datetime) : outcome unit * table :=
  add_days db ts today (seq 0 7).

End InitDb.

(** ** The database test script ([src/data/test_db.py]) *)

Module TestDb.
Import Datetime.

(** What the five tests compute (the script prints it): the result of the
    insert, the availability read back, the number of appointments listed
    for today, the result of the cancel and the result of the update of the
    notes; then the store the script leaves.  [now] is the reading of
    [datetime.now()], [sql_today] is SQLite's [date('now')] and [ts1], [ts2],
    [ts3] are [CURRENT_TIMESTAMP] at the three writes. *)
Definition test_database_operations (db : DatabaseManager.table)
    (now : datetime) (sql_today ts1 ts2 ts3 : string)
  : (bool * bool * nat * bool * bool) * DatabaseManager.table :=
  let today := strftime_Ymd now in
  let (success, db1) :=
    DatabaseManager.add_appointment db ts1 today "11:00" "Dr. Test"
      "Test appointment" in
  let is_available := DatabaseManager.check_availability db1 today "11:00" in
  let appointments := DatabaseManager.get_appointments db1 sql_today (Some today) in
  let (cancelled, db2) :=
    DatabaseManager.cancel_appointment db1 ts2 today "11:00" in
  let (updated, db3) :=
    DatabaseManager.update_appointment_notes db2 ts3 today "11:00"
      "Updated test notes" in
  ((success, is_available, List.length appointments, cancelled, updated), db3).

End TestDb.

(** ** Formatting for speech ([src/app.py]) *)

Module App.
Import Calendar Datetime.

(** [%A], in the C locale. *)
Definition day_name (weekday : Z) : string :=
  match weekday with
  | 0 => "Monday" | 1 => "Tuesday" | 2 => "Wednesday" | 3 => "Thursday"
  | 4 => "Friday" | 5 => "Saturday" | _ => "Sunday"
  end.

(** [%B], in the C locale. *)
Definition month_name (month : Z) : string :=
  match month with
  | 1 => "January" | 2 => "February" | 3 => "March" | 4 => "April"
  | 5 => "May" | 6 => "June" | 7 => "July" | 8 => "August"
  | 9 => "September" | 10 => "October" | 11 => "November" | _ => "December"
  end.

(** [dt.strftime('%A, %B %d')] *)
Definition strftime_A_B_d (dt : datetime) : string :=
  let '(_, m, d) := ord2ymd (toordinal dt) in
  day_name (weekday dt) ++ ", " ++ month_name m ++ " " ++ pad2 d.

(** [dt.strftime('%I:%M %p')]: the hour on the 12-hour clock. *)
Definition strftime_I_M_p (dt : datetime) : string :=
  let h := hour dt mod 12 in
  pad2 (if h =? 0 then 12 else h) ++ ":" ++ pad2 (minute dt) ++ " "
  ++ (if hour dt <? 12 then "AM" else "PM").

(** A [ValueError] of [strptime] leaves the function. *)
Definition _format_date (date_str : string) : outcome string :=
  date_obj <- strptime_Ymd date_str ;;
  Ok (strftime_A_B_d date_obj).

Definition _format_time (time_str : string) : outcome string :=
  time_obj <- strptime_HM time_str ;;
  Ok (strftime_I_M_p time_obj).

Definition mem (c : ascii) (chars : string) : bool :=
  existsb (Ascii.eqb c) (list_ascii_of_string chars).

(** [s.rstrip(chars)]: the trailing characters that occur in [chars] go. *)
Fixpoint rstrip (chars : string) (s : string) : string :=
  match s with
  | EmptyString => EmptyString
  | String c r =>
      match rstrip chars r with
      | EmptyString => if mem c chars then EmptyString else String c EmptyString
      | r' => String c r'
      end
  end.

(** The loop [for slot in slots: formatted += ...]. *)
Fixpoint format_slots (formatted : string) (slots : list (string * string))
  : outcome string :=
  match slots with
  | [] => Ok formatted
  | slot :: slots' =>
      d <- _format_date (fst slot) ;;
      t <- _format_time (snd slot) ;;
      format_slots (formatted ++ d ++ " at " ++ t ++ ", ") slots'
  end.

Definition _format_alternative_slots (slots : list (string * string))
  : outcome string :=
  formatted <- format_slots "" slots ;;
  Ok (rstrip ", " formatted).

End App.

(** ** Vocabulary of the properties *)

Import Calendar Datetime AppointmentManager.

(** *** The store *)

(** Number of rows with status 'scheduled' at the key. *)
Definition count_scheduled (db : DatabaseManager.table) (date time : string) : nat :=
  List.length (filter (DatabaseManager.scheduled_at date time) db).

(** At most one scheduled appointment per (date, time). *)
Definition slot_unique (db : DatabaseManager.table) : Prop :=
  forall date time, (count_scheduled db date time <= 1)%nat.

(** A scheduled appointment exists at the key. *)
Definition has_scheduled (db : DatabaseManager.table) (date time : string) : Prop :=
  exists r, In r db /\ DatabaseManager.scheduled_at date time r = true.

(** The row a cancel made at [ts] leaves in place of [r]. *)
Definition cancelled_row (ts date time : string) (r r' : Row.t) : Prop :=
  if DatabaseManager.scheduled_at date time r
  then Row.status r' = "cancelled" /\ Row.id r' = Row.id r
       /\ Row.date r' = Row.date r /\ Row.time r' = Row.time r
       /\ Row.doctor r' = Row.doctor r
       /\ Row.patient_notes r' = Row.patient_notes r
       /\ Row.created_at r' = Row.created_at r
       /\ Row.updated_at r' = ts
  else r' = r.

(** *** Slots *)

(** Inside working hours, on a working day. *)
Definition bookable (dt : datetime) : bool :=
  (WORKING_HOURS_START <=? hour dt) && (hour dt <? WORKING_HOURS_END)
  && (weekday dt <? 5).

(** The instant a slot denotes. *)
Definition slot_instant (s : slot) : outcome datetime :=
  strptime_Ymd_HM (fst s ++ " " ++ snd s).

(** Chronological order on slots. *)
Definition chrono_lt (a b : slot) : Prop :=
  exists x y, slot_instant a = Ok x /\ slot_instant b = Ok y /\ x < y.

(** The slots of [l] denote bookable instants, the first at least one
    appointment duration after [lo] and each at least one appointment
    duration after the one before. *)
Fixpoint increasing_after (lo : datetime) (l : list slot) : Prop :=
  match l with
  | [] => True
  | s :: l' =>
      exists dt, slot_instant s = Ok dt
                 /\ lo + minutes APPOINTMENT_DURATION <= dt
                 /\ bookable dt = true /\ increasing_after dt l'
  end.

(** *** The forward scan, in the words of the specification *)

(** The times of day swept: the opening hour, then every step of the
    appointment duration that still starts before the closing hour. *)
Definition day_times : list string :=
  map (fun k =>
         let m := WORKING_HOURS_START * 60 + Z.of_nat k * APPOINTMENT_DURATION in
         pad2 (m / 60) ++ ":" ++ pad2 (m mod 60))
    (seq 0 (Z.to_nat (((WORKING_HOURS_END - WORKING_HOURS_START) * 60
                       + APPOINTMENT_DURATION - 1) / APPOINTMENT_DURATION))).

(** Up to [n] calendar days from [d] on, as far as the calendar goes. *)
Fixpoint calendar_days (n : nat) (d : datetime) : list datetime :=
  match n with
  | O => []
  | S n' =>
      d :: (if d + days 1 <? MAX_US then calendar_days n' (d + days 1) else [])
  end.

(** The slots in the order of the scan: day after day, and within a day
    time after time. *)
Definition scan_order (n : nat) (d0 : datetime) : list slot :=
  flat_map (fun d => map (fun t => (strftime_Ymd d, t)) day_times)
    (calendar_days n d0).

(** The first slot of [l] that [is_available] accepts, the slot at position
    [k] being tested at clock reading [tick + k]. *)
Fixpoint first_available (clk : clock) (tick : nat) (db : table) (l : list slot)
  : option slot :=
  match l with
  | [] => None
  | (d, t) :: l' =>
      if is_available (clk tick) db d t then Some (d, t)
      else first_available clk (S tick) db l'
  end.

(** Midnight of the day of [now]. *)
Definition midnight (now : datetime) : datetime := combine (date_of now) 0.

(** *** Fuel of the search for alternatives *)

(** Fuel that lets the search from (date, time) run to its end: one unit
    for every step of the appointment duration up to the end of the
    calendar. *)
Definition suggest_fuel (date time : string) : nat :=
  match strptime_Ymd_HM (date ++ " " ++ time) with
  | Ok preferred_dt =>
      S (Z.to_nat ((MAX_US - preferred_dt) / minutes APPOINTMENT_DURATION))
  | _ => O
  end.

(** *** Sample data *)

(** The instant written as "YYYY-MM-DD HH:MM". *)
Definition instant (s : string) : datetime :=
  match strptime_Ymd_HM s with
  | Ok dt => dt
  | _ => 0
  end.

(** A scheduled appointment with Dr. Smith. *)
Definition booked (id : Z) (date time : string) : Row.t :=
  Row.make id date time "Dr. Smith" "" "scheduled"
    "2025-01-02 10:00:00" "2025-01-02 10:00:00".

(** Monday 2025-01-06 at 09:00. *)
Definition monday_9am : Row.t := booked 1 "2025-01-06" "09:00".

(** Monday 2025-01-06 booked from 09:30 to 14:30. *)
Definition busy_monday : table :=
  [ booked 1 "2025-01-06" "09:30"; booked 2 "2025-01-06" "10:00";
    booked 3 "2025-01-06" "10:30"; booked 4 "2025-01-06" "11:00";
    booked 5 "2025-01-06" "11:30"; booked 6 "2025-01-06" "12:00";
    booked 7 "2025-01-06" "12:30"; booked 8 "2025-01-06" "13:00";
    booked 9 "2025-01-06" "13:30"; booked 10 "2025-01-06" "14:00";
    booked 11 "2025-01-06" "14:30" ].

(** A clock stopped on Friday 2025-01-03 at noon. *)
Definition friday_noon : clock := fun _ => instant "2025-01-03 12:00".

(** *** Devices of the calendar proofs *)

(** [f] holds of 0, ..., n - 1. *)
Fixpoint forall_below (n : nat) (f : Z -> bool) : bool :=
  match n with
  | O => true
  | S k => f (Z.of_nat k) && forall_below k f
  end.

(** [P] holds of 0, ..., n - 1. *)
Fixpoint All_below (n : nat) (P : Z -> Prop) : Prop :=
  match n with
  | O => True
  | S k => P (Z.of_nat k) /\ All_below k P
  end.

(** The month and day part of [ord2ymd], for day [n] (from 0) of a year. *)
Definition month_day (n : Z) (leapyear : bool) : Z * Z :=
  let month := Z.shiftr (n + 50) 5 in
  let preceding :=
    DAYS_BEFORE_MONTH month + (if (2 <? month) && leapyear then 1 else 0) in
  if n <? preceding then
    let month := month - 1 in
    let preceding :=
      preceding
      - (DAYS_IN_MONTH month + (if (month =? 2) && leapyear then 1 else 0)) in
    (month, n - preceding + 1)
  else (month, n - preceding + 1).

(** [month_day] returns a month and a day of that month, [n] days after the
    first of January. *)
Definition month_day_ok (leapyear : bool) (n : Z) : bool :=
  let '(m, d) := month_day n leapyear in
  (1 <=? m) && (m <=? 12) && (1 <=? d)
  && (d <=? (if (m =? 2) && leapyear then 29 else DAYS_IN_MONTH m))
  && (DAYS_BEFORE_MONTH m + (if (2 <? m) && leapyear then 1 else 0) + d =? n + 1).

(** [ymd] is the date of ordinal [n]. *)
Definition ymd_ok (n : Z) (ymd : Z * Z * Z) : Prop :=
  let '(y, m, d) := ymd in valid_ymd y m d = true /\ ymd2ord y m d = n.

(** *** Vocabulary of the further properties *)

(** The row an update of the notes made at [ts] leaves in place of [r]. *)
Definition noted_row (ts date time notes : string) (r r' : Row.t) : Prop :=
  if DatabaseManager.scheduled_at date time r
  then Row.patient_notes r' = notes /\ Row.updated_at r' = ts
       /\ Row.id r' = Row.id r /\ Row.date r' = Row.date r
       /\ Row.time r' = Row.time r /\ Row.doctor r' = Row.doctor r
       /\ Row.status r' = Row.status r
       /\ Row.created_at r' = Row.created_at r
  else r' = r.


(** [ORDER BY date, time] as a relation. *)
Definition date_time_le (a b : Row.t) : Prop :=
  String.ltb (Row.date a) (Row.date b) = true
  \/ (Row.date a = Row.date b
      /\ String.leb (Row.time a) (Row.time b) = true).

(** The row a booking made at [ts] appends to [db]. *)
Definition new_row (db : DatabaseManager.table)
    (ts date time doctor notes : string) : Row.t :=
  Row.make (DatabaseManager.next_id db) date time doctor notes "scheduled" ts ts.

(** The slot a datetime is rendered to. *)
Definition slot_of (dt : datetime) : slot := (strftime_Ymd dt, strftime_HM dt).

(** The first [n] candidates after [current_dt], as far as the calendar
    goes. *)
Fixpoint candidates (n : nat) (current_dt : datetime) : list datetime :=
  match n with
  | O => []
  | S n' =>
      match next_candidate current_dt with
      | Ok c => c :: candidates n' c
      | _ => []
      end
  end.

(** The candidates of [cs] that [is_available] accepts, in their order, the
    candidate at position [k] being tested at clock reading [tick + k]. *)
Fixpoint available_among (clk : clock) (tick : nat) (db : table)
    (cs : list datetime) : list slot :=
  match cs with
  | [] => []
  | c :: cs' =>
      if is_available (clk tick) db (strftime_Ymd c) (strftime_HM c)
      then slot_of c :: available_among clk (S tick) db cs'
      else available_among clk (S tick) db cs'
  end.

(** The dates the sample data script fills: today and the six days after. *)
Definition sample_dates (today : datetime) : list string :=
  map (fun i => strftime_Ymd (today + days (Z.of_nat i))) (seq 0 7).

(** The times of day the sample data script fills. *)
Definition sample_times : list string := map (fun a => fst (fst a)) InitDb.appointments.

(** * Properties *)

(** ** The calendar *)

Lemma forall_below_spec (n : nat) (f : Z -> bool) :
  forall_below n f = true -> forall z, 0 <= z < Z.of_nat n -> f z = true.
Proof.
  induction n as [|k IH]; intros H z Hz.
  - lia.
  - cbn [forall_below] in H. apply andb_true_iff in H. destruct H as [Hk Hr].
    destruct (Z.eq_dec z (Z.of_nat k)) as [->|Hne]; [exact Hk|].
    apply IH; [exact Hr|lia].
Qed.

Lemma month_day_spec (leapyear : bool) (n : Z) :
  0 <= n < 365 + (if leapyear then 1 else 0) ->
  month_day_ok leapyear n = true.
Proof.
  intros Hn. destruct leapyear.
  - apply (forall_below_spec 366); [vm_compute; reflexivity | lia].
  - apply (forall_below_spec 365); [vm_compute; reflexivity | lia].
Qed.

Lemma ord2ymd_unfold (ordinal : Z) :
  ord2ymd ordinal =
  let n0 := ordinal - 1 in
  let n400 := n0 / DI400Y in
  let r400 := n0 mod DI400Y in
  let n100 := r400 / DI100Y in
  let r100 := r400 mod DI100Y in
  let n4 := r100 / DI4Y in
  let r4 := r100 mod DI4Y in
  let n1 := r4 / 365 in
  let n := r4 mod 365 in
  let year := n400 * 400 + 1 + n100 * 100 + n4 * 4 + n1 in
  if (n1 =? 4) || (n100 =? 4) then (year - 1, 12, 31)
  else
    let leapyear := (n1 =? 3) && (negb (n4 =? 24) || (n100 =? 3)) in
    let '(m, d) := month_day n leapyear in (year, m, d).
Proof.
  unfold ord2ymd, month_day. cbv zeta.
  destruct (_ || _); [reflexivity|].
  destruct (_ <? _); reflexivity.
Qed.

Lemma is_leap_decomposed (n400 n100 n4 n1 : Z) :
  0 <= n400 -> 0 <= n100 <= 3 -> 0 <= n4 <= 24 -> 0 <= n1 <= 3 ->
  is_leap (n400 * 400 + 1 + n100 * 100 + n4 * 4 + n1)
  = (n1 =? 3) && (negb (n4 =? 24) || (n100 =? 3)).
Proof.
  intros H400 H100 H4 H1. unfold is_leap.
  set (y := n400 * 400 + 1 + n100 * 100 + n4 * 4 + n1).
  assert (E4 : y mod 4 = (n1 + 1) mod 4).
  { unfold y. replace (n400 * 400 + 1 + n100 * 100 + n4 * 4 + n1)
      with ((n1 + 1) + (n400 * 100 + n100 * 25 + n4) * 4) by ring.
    apply Z_mod_plus_full. }
  assert (E100 : y mod 100 = (n4 * 4 + n1 + 1) mod 100).
  { unfold y. replace (n400 * 400 + 1 + n100 * 100 + n4 * 4 + n1)
      with ((n4 * 4 + n1 + 1) + (n400 * 4 + n100) * 100) by ring.
    apply Z_mod_plus_full. }
  assert (E400 : y mod 400 = (n100 * 100 + n4 * 4 + n1 + 1) mod 400).
  { unfold y. replace (n400 * 400 + 1 + n100 * 100 + n4 * 4 + n1)
      with ((n100 * 100 + n4 * 4 + n1 + 1) + n400 * 400) by ring.
    apply Z_mod_plus_full. }
  rewrite E4, E100, E400.
  destruct (Z.eqb_spec n1 3) as [->|N1].
  - rewrite Z.mod_same by lia. cbn [Z.eqb andb].
    destruct (Z.eqb_spec n4 24) as [->|N4].
    + cbn [negb orb]. rewrite Z.mod_same by lia. cbn [Z.eqb negb orb].
      destruct (Z.eqb_spec n100 3) as [->|N100].
      * reflexivity.
      * rewrite Z.mod_small by lia. apply Z.eqb_neq. lia.
    + cbn [negb orb]. rewrite (Z.mod_small (n4 * 4 + 3 + 1)) by lia.
      replace (n4 * 4 + 3 + 1 =? 0) with false by (symmetry; apply Z.eqb_neq; lia).
      reflexivity.
  - rewrite Z.mod_small by lia.
    replace (n1 + 1 =? 0) with false by (symmetry; apply Z.eqb_neq; lia).
    reflexivity.
Qed.

Lemma days_before_year_decomposed (n400 n100 n4 n1 : Z) :
  0 <= n400 -> 0 <= n100 <= 3 -> 0 <= n4 <= 24 -> 0 <= n1 <= 3 ->
  days_before_year (n400 * 400 + 1 + n100 * 100 + n4 * 4 + n1)
  = n400 * DI400Y + n100 * DI100Y + n4 * DI4Y + n1 * 365.
Proof.
  intros H400 H100 H4 H1. unfold days_before_year, DI400Y, DI100Y, DI4Y.
  cbv zeta.
  replace (n400 * 400 + 1 + n100 * 100 + n4 * 4 + n1 - 1)
    with (n400 * 400 + n100 * 100 + n4 * 4 + n1) by ring.
  assert (Q4 : (n400 * 400 + n100 * 100 + n4 * 4 + n1) / 4
               = n400 * 100 + n100 * 25 + n4).
  { symmetry. apply (Z.div_unique _ _ _ n1); lia. }
  assert (Q100 : (n400 * 400 + n100 * 100 + n4 * 4 + n1) / 100
                 = n400 * 4 + n100).
  { symmetry. apply (Z.div_unique _ _ _ (n4 * 4 + n1)); lia. }
  assert (Q400 : (n400 * 400 + n100 * 100 + n4 * 4 + n1) / 400 = n400).
  { symmetry. apply (Z.div_unique _ _ _ (n100 * 100 + n4 * 4 + n1)); lia. }
  rewrite Q4, Q100, Q400. ring.
Qed.

Lemma ord2ymd_spec (n : Z) :
  1 <= n <= MAXORDINAL -> ymd_ok n (ord2ymd n).
Proof.
  intros Hn. rewrite ord2ymd_unfold. cbv zeta.
  unfold MAXORDINAL in Hn.
  pose proof (Z.div_mod (n - 1) DI400Y ltac:(discriminate)) as E400.
  pose proof (Z.mod_pos_bound (n - 1) DI400Y ltac:(reflexivity)) as B400.
  set (n400 := (n - 1) / DI400Y) in *. set (r400 := (n - 1) mod DI400Y) in *.
  pose proof (Z.div_mod r400 DI100Y ltac:(discriminate)) as E100.
  pose proof (Z.mod_pos_bound r400 DI100Y ltac:(reflexivity)) as B100.
  set (n100 := r400 / DI100Y) in *. set (r100 := r400 mod DI100Y) in *.
  pose proof (Z.div_mod r100 DI4Y ltac:(discriminate)) as E4.
  pose proof (Z.mod_pos_bound r100 DI4Y ltac:(reflexivity)) as B4.
  set (n4 := r100 / DI4Y) in *. set (r4 := r100 mod DI4Y) in *.
  pose proof (Z.div_mod r4 365 ltac:(discriminate)) as E1.
  pose proof (Z.mod_pos_bound r4 365 ltac:(reflexivity)) as B1.
  set (n1 := r4 / 365) in *. set (r := r4 mod 365) in *.
  clearbody n400 r400 n100 r100 n4 r4 n1 r.
  unfold DI400Y, DI100Y, DI4Y in *.
  assert (R400 : 0 <= n400 <= 24) by lia.
  assert (R100 : 0 <= n100 <= 4) by lia.
  assert (R4 : 0 <= n4 <= 24) by lia.
  assert (R1 : 0 <= n1 <= 4) by lia.
  destruct ((n1 =? 4) || (n100 =? 4)) eqn:Especial.
  - (* the last day of a leap year *)
    unfold ymd_ok.
    apply orb_true_iff in Especial.
    assert (Hy : exists m100 m4,
               0 <= m100 <= 3 /\ 0 <= m4 <= 24 /\ (m4 <> 24 \/ m100 = 3) /\
               n400 * 400 + 1 + n100 * 100 + n4 * 4 + n1 - 1
               = n400 * 400 + 1 + m100 * 100 + m4 * 4 + 3 /\
               n = n400 * 146097 + m100 * 36524 + m4 * 1461 + 3 * 365 + 366).
    { destruct (Z.eq_dec n100 4) as [H4|H4].
      - exists 3, 24. lia.
      - destruct Especial as [H|H]; [apply Z.eqb_eq in H | apply Z.eqb_eq in H; lia].
        exists n100, n4. lia. }
    destruct Hy as (m100 & m4 & M100 & M4 & Hleap & -> & ->).
    assert (L : is_leap (n400 * 400 + 1 + m100 * 100 + m4 * 4 + 3) = true).
    { rewrite is_leap_decomposed by lia. cbn [Z.eqb Pos.eqb andb].
      destruct Hleap as [H|H].
      - replace (m4 =? 24) with false by (symmetry; apply Z.eqb_neq; lia). reflexivity.
      - subst m100. apply orb_true_r. }
    split.
    + unfold valid_ymd, days_in_month, MINYEAR, MAXYEAR. rewrite L. cbn.
      rewrite !andb_true_r. apply andb_true_iff. split; apply Z.leb_le; lia.
    + unfold ymd2ord, days_before_month. rewrite L.
      rewrite days_before_year_decomposed by lia.
      unfold DI400Y, DI100Y, DI4Y. cbn. lia.
  - apply orb_false_iff in Especial. destruct Especial as [S1 S100].
    apply Z.eqb_neq in S1. apply Z.eqb_neq in S100.
    pose proof (is_leap_decomposed n400 n100 n4 n1 ltac:(lia) ltac:(lia) ltac:(lia) ltac:(lia)) as L.
    pose proof (days_before_year_decomposed n400 n100 n4 n1 ltac:(lia) ltac:(lia) ltac:(lia) ltac:(lia)) as D.
    rewrite <- L.
    set (y := n400 * 400 + 1 + n100 * 100 + n4 * 4 + n1) in *.
    pose proof (month_day_spec (is_leap y) r) as MD.
    unfold month_day_ok in MD.
    destruct (month_day r (is_leap y)) as [m d]. unfold ymd_ok.
    assert (Hr : 0 <= r < 365 + (if is_leap y then 1 else 0)) by (destruct (is_leap y); lia).
    specialize (MD Hr).
    repeat (apply andb_true_iff in MD; destruct MD as [MD ?]).
    split.
    + unfold valid_ymd, days_in_month, MINYEAR, MAXYEAR.
      repeat (apply andb_true_iff; split); try assumption; apply Z.leb_le; unfold y; lia.
    + unfold ymd2ord, days_before_month. rewrite D.
      unfold DI400Y, DI100Y, DI4Y.
      match goal with H : (_ =? r + 1) = true |- _ => apply Z.eqb_eq in H end. lia.
Qed.

(** The ordinal of a date the constructor accepts lies in [1 .. MAXORDINAL]. *)
Lemma ymd2ord_range (y m d : Z) :
  valid_ymd y m d = true -> 1 <= ymd2ord y m d <= MAXORDINAL.
Proof.
  unfold valid_ymd, MINYEAR, MAXYEAR. intros H.
  repeat (apply andb_true_iff in H; destruct H as [H ?]).
  repeat match goal with H : (_ <=? _) = true |- _ => apply Z.leb_le in H end.
  unfold ymd2ord, days_before_year, days_before_month, days_in_month, MAXORDINAL in *.
  cbv zeta.
  assert (Hm : m = 1 \/ m = 2 \/ m = 3 \/ m = 4 \/ m = 5 \/ m = 6 \/ m = 7
               \/ m = 8 \/ m = 9 \/ m = 10 \/ m = 11 \/ m = 12) by lia.
  assert (L : is_leap y = true -> y mod 4 = 0).
  { unfold is_leap. intros L. apply andb_true_iff in L. destruct L as [L _].
    apply Z.eqb_eq in L. exact L. }
  destruct (is_leap y); [specialize (L eq_refl) | clear L];
    repeat (destruct Hm as [->|Hm] || subst m); cbn in *;
    Z.div_mod_to_equations; lia.
Qed.

(** ** Reading back what [strftime] writes *)

Lemma All_below_spec (n : nat) (P : Z -> Prop) :
  All_below n P -> forall z, 0 <= z < Z.of_nat n -> P z.
Proof.
  induction n as [|k IH]; intros H z Hz.
  - lia.
  - destruct H as [Hk Hr].
    destruct (Z.eq_dec z (Z.of_nat k)) as [->|Hne]; [exact Hk|].
    apply IH; [exact Hr|lia].
Qed.

Ltac all_below n P :=
  let A := fresh "A" in
  enough (A : All_below n P)
    by (intros z Hz; apply (All_below_spec _ _ A z); lia);
  cbn [All_below]; repeat split; intros; first [reflexivity | lia].

Lemma digit_char_digit (d : Z) :
  0 <= d <= 9 ->
  is_digit (digit_char d) = true /\ digit_val (digit_char d) = d
  /\ is_space (digit_char d) = false.
Proof.
  revert d.
  all_below 10%nat
    (fun d => is_digit (digit_char d) = true /\ digit_val (digit_char d) = d
              /\ is_space (digit_char d) = false).
Qed.

Lemma parse_Y_pad4 (y : Z) (rest : string) :
  0 <= y <= 9999 ->
  parse_Y (String (digit_char (y / 1000)) (String (digit_char (y / 100 mod 10))
             (String (digit_char (y / 10 mod 10))
                (String (digit_char (y mod 10)) rest))))
  = Some (y, rest).
Proof.
  intros Hy. unfold parse_Y.
  destruct (digit_char_digit (y / 1000)) as (-> & -> & _);
    [Z.div_mod_to_equations; lia|].
  destruct (digit_char_digit (y / 100 mod 10)) as (-> & -> & _);
    [Z.div_mod_to_equations; lia|].
  destruct (digit_char_digit (y / 10 mod 10)) as (-> & -> & _);
    [Z.div_mod_to_equations; lia|].
  destruct (digit_char_digit (y mod 10)) as (-> & -> & _);
    [Z.div_mod_to_equations; lia|].
  cbn [andb]. f_equal. f_equal. Z.div_mod_to_equations. lia.
Qed.

Lemma parse_m_pad2 (m : Z) :
  1 <= m <= 12 -> forall rest,
  parse_m (String (digit_char (m / 10)) (String (digit_char (m mod 10)) rest))
  = Some (m, rest).
Proof.
  revert m.
  all_below 13%nat
    (fun m => 1 <= m -> forall rest,
       parse_m (String (digit_char (m / 10)) (String (digit_char (m mod 10)) rest))
       = Some (m, rest)).
Qed.

Lemma parse_d_pad2 (d : Z) :
  1 <= d <= 31 -> forall rest,
  parse_d (String (digit_char (d / 10)) (String (digit_char (d mod 10)) rest))
  = Some (d, rest).
Proof.
  revert d.
  all_below 32%nat
    (fun d => 1 <= d -> forall rest,
       parse_d (String (digit_char (d / 10)) (String (digit_char (d mod 10)) rest))
       = Some (d, rest)).
Qed.

Lemma parse_H_pad2 (h : Z) :
  0 <= h <= 23 -> forall rest,
  parse_H (String (digit_char (h / 10)) (String (digit_char (h mod 10)) rest))
  = Some (h, rest).
Proof.
  revert h.
  all_below 24%nat
    (fun h => 0 <= h -> forall rest,
       parse_H (String (digit_char (h / 10)) (String (digit_char (h mod 10)) rest))
       = Some (h, rest)).
Qed.

Lemma parse_M_pad2 (m : Z) :
  0 <= m <= 59 -> forall rest,
  parse_M (String (digit_char (m / 10)) (String (digit_char (m mod 10)) rest))
  = Some (m, rest).
Proof.
  revert m.
  all_below 60%nat
    (fun m => 0 <= m -> forall rest,
       parse_M (String (digit_char (m / 10)) (String (digit_char (m mod 10)) rest))
       = Some (m, rest)).
Qed.

Lemma skip_spaces_digit (d : Z) (rest : string) :
  0 <= d <= 9 ->
  skip_spaces (String (digit_char d) rest) = String (digit_char d) rest.
Proof.
  intros Hd. cbn [skip_spaces].
  destruct (digit_char_digit d Hd) as (_ & _ & ->). reflexivity.
Qed.

Lemma strptime_Ymd_HM_pad (y m d hh mm : Z) :
  0 <= y <= 9999 -> 1 <= m <= 12 -> 1 <= d <= 31 ->
  0 <= hh <= 23 -> 0 <= mm <= 59 ->
  strptime_Ymd_HM ((pad4 y ++ "-" ++ pad2 m ++ "-" ++ pad2 d) ++ " "
                   ++ (pad2 hh ++ ":" ++ pad2 mm))
  = make_datetime y m d hh mm.
Proof.
  intros Hy Hm Hd Hhh Hmm.
  unfold strptime_Ymd_HM, run_format, pad4, pad2. cbn [append].
  unfold pbind at 1. rewrite parse_Y_pad4 by assumption.
  unfold pbind at 1. cbn [literal Ascii.eqb Bool.eqb].
  unfold pbind at 1. rewrite parse_m_pad2 by assumption.
  unfold pbind at 1. cbn [literal Ascii.eqb Bool.eqb].
  unfold pbind at 1. rewrite parse_d_pad2 by assumption.
  unfold pbind at 1. unfold spaces.
  replace (is_space " ") with true by reflexivity.
  rewrite skip_spaces_digit by (Z.div_mod_to_equations; lia).
  unfold pbind at 1. rewrite parse_H_pad2 by assumption.
  unfold pbind at 1. cbn [literal Ascii.eqb Bool.eqb].
  unfold pbind at 1. rewrite parse_M_pad2 by assumption.
  reflexivity.
Qed.

Lemma strptime_Ymd_pad (y m d : Z) :
  0 <= y <= 9999 -> 1 <= m <= 12 -> 1 <= d <= 31 ->
  strptime_Ymd (pad4 y ++ "-" ++ pad2 m ++ "-" ++ pad2 d)
  = make_datetime y m d 0 0.
Proof.
  intros Hy Hm Hd.
  unfold strptime_Ymd, run_format, pad4, pad2. cbn [append].
  unfold pbind at 1. rewrite parse_Y_pad4 by assumption.
  unfold pbind at 1. cbn [literal Ascii.eqb Bool.eqb].
  unfold pbind at 1. rewrite parse_m_pad2 by assumption.
  unfold pbind at 1. cbn [literal Ascii.eqb Bool.eqb].
  unfold pbind at 1. rewrite parse_d_pad2 by assumption.
  reflexivity.
Qed.

Lemma valid_ymd_bounds (y m d : Z) :
  valid_ymd y m d = true ->
  0 <= y <= 9999 /\ 1 <= m <= 12 /\ 1 <= d <= 31.
Proof.
  unfold valid_ymd, MINYEAR, MAXYEAR, days_in_month. intros H.
  repeat (apply andb_true_iff in H; destruct H as [H ?]).
  repeat match goal with H : (_ <=? _) = true |- _ => apply Z.leb_le in H end.
  assert (Hm : m = 1 \/ m = 2 \/ m = 3 \/ m = 4 \/ m = 5 \/ m = 6 \/ m = 7
               \/ m = 8 \/ m = 9 \/ m = 10 \/ m = 11 \/ m = 12) by lia.
  destruct (is_leap y);
    repeat (destruct Hm as [->|Hm] || subst m); cbn in *; lia.
Qed.

(** Reading back the date of [d] and the time of day of [t]. *)
Lemma strptime_strftime_pair (d t : datetime) :
  0 <= d < MAX_US -> 0 <= t ->
  strptime_Ymd_HM (strftime_Ymd d ++ " " ++ strftime_HM t)
  = Ok (combine (date_of d) (hours (hour t) + minutes (minute t))).
Proof.
  intros Hd Ht. unfold strftime_Ymd, strftime_HM.
  assert (Ho : 1 <= toordinal d <= MAXORDINAL).
  { unfold toordinal, MAX_US, US_PER_DAY, MAXORDINAL in *.
    Z.div_mod_to_equations. lia. }
  pose proof (ord2ymd_spec _ Ho) as Hs. unfold ymd_ok in Hs.
  destruct (ord2ymd (toordinal d)) as [[y m] dd]. destruct Hs as [Hv He].
  pose proof (valid_ymd_bounds _ _ _ Hv) as (By & Bm & Bd).
  assert (Bh : 0 <= hour t <= 23).
  { unfold hour, time_of, US_PER_DAY, US_PER_HOUR. Z.div_mod_to_equations. lia. }
  assert (Bmi : 0 <= minute t <= 59).
  { unfold minute, time_of, US_PER_DAY, US_PER_HOUR, US_PER_MINUTE.
    Z.div_mod_to_equations. lia. }
  rewrite strptime_Ymd_HM_pad by assumption.
  unfold make_datetime. rewrite Hv, He.
  replace (0 <=? hour t) with true by (symmetry; apply Z.leb_le; lia).
  replace (hour t <=? 23) with true by (symmetry; apply Z.leb_le; lia).
  replace (0 <=? minute t) with true by (symmetry; apply Z.leb_le; lia).
  replace (minute t <=? 59) with true by (symmetry; apply Z.leb_le; lia).
  reflexivity.
Qed.

(** A datetime on a whole minute is read back from its two renderings. *)
Lemma strptime_strftime (dt : datetime) :
  0 <= dt < MAX_US -> dt mod US_PER_MINUTE = 0 ->
  strptime_Ymd_HM (strftime_Ymd dt ++ " " ++ strftime_HM dt) = Ok dt.
Proof.
  intros Hd Hm. rewrite strptime_strftime_pair by lia. f_equal.
  unfold combine, date_of, toordinal, hours, minutes, hour, minute, time_of,
    US_PER_DAY, US_PER_HOUR, US_PER_MINUTE in *.
  Z.div_mod_to_equations. lia.
Qed.

(** What [strptime] returns is a datetime on a whole minute, in range. *)
Lemma make_datetime_Ok (y m d hh mm : Z) (dt : datetime) :
  make_datetime y m d hh mm = Ok dt ->
  0 <= dt < MAX_US /\ dt mod US_PER_MINUTE = 0
  /\ hour dt = hh /\ minute dt = mm /\ toordinal dt = ymd2ord y m d.
Proof.
  unfold make_datetime. destruct (valid_ymd y m d) eqn:Hv; [|discriminate].
  cbn [andb].
  destruct (0 <=? hh) eqn:H1; [|discriminate].
  destruct (hh <=? 23) eqn:H2; [|discriminate].
  destruct (0 <=? mm) eqn:H3; [|discriminate].
  destruct (mm <=? 59) eqn:H4; [|discriminate].
  cbn [andb]. intros E. injection E as <-.
  apply Z.leb_le in H1, H2, H3, H4.
  pose proof (ymd2ord_range _ _ _ Hv) as Hr.
  unfold combine, hours, minutes, hour, minute, time_of, toordinal, MAX_US,
    US_PER_DAY, US_PER_HOUR, US_PER_MINUTE, MAXORDINAL in *.
  repeat split; Z.div_mod_to_equations; lia.
Qed.

Lemma run_format_Ok (p : parser (Z * Z * Z * Z * Z)) (s : string) (dt : datetime) :
  run_format p s = Ok dt ->
  0 <= dt < MAX_US /\ dt mod US_PER_MINUTE = 0.
Proof.
  unfold run_format. destruct (p s) as [[[[[[y m] d] hh] mm] [|c r]]|];
    try discriminate.
  intros H. apply make_datetime_Ok in H. tauto.
Qed.

Lemma strptime_Ymd_HM_Ok (s : string) (dt : datetime) :
  strptime_Ymd_HM s = Ok dt -> 0 <= dt < MAX_US /\ dt mod US_PER_MINUTE = 0.
Proof. apply run_format_Ok. Qed.

Lemma run_format_returns (p : parser (Z * Z * Z * Z * Z)) (s : string) :
  run_format p s <> OutOfFuel.
Proof.
  unfold run_format, make_datetime.
  destruct (p s) as [[[[[[y m] d] hh] mm] [|c r]]|]; try discriminate.
  destruct (_ && _); discriminate.
Qed.

(** ** The store *)

Section Store.
Import DatabaseManager.

Lemma scheduled_at_iff (date time : string) (r : Row.t) :
  scheduled_at date time r = true <->
  Row.date r = date /\ Row.time r = time /\ Row.status r = "scheduled".
Proof.
  unfold scheduled_at. rewrite !andb_true_iff, !String.eqb_eq. tauto.
Qed.

Lemma count_scheduled_app (db1 db2 : table) (date time : string) :
  count_scheduled (db1 ++ db2)%list date time
  = (count_scheduled db1 date time + count_scheduled db2 date time)%nat.
Proof.
  unfold count_scheduled. rewrite filter_app, length_app. reflexivity.
Qed.

Lemma check_availability_count (db : table) (date time : string) :
  check_availability db date time = true <-> count_scheduled db date time = 0%nat.
Proof.
  unfold check_availability, count_scheduled. rewrite Z.eqb_eq. lia.
Qed.

Lemma count_scheduled_map_le (f : Row.t -> Row.t) (db : table) (date time : string) :
  (forall r, scheduled_at date time (f r) = true -> scheduled_at date time r = true) ->
  (count_scheduled (map f db) date time <= count_scheduled db date time)%nat.
Proof.
  intros Hf. unfold count_scheduled.
  induction db as [|r db IH]; cbn [map filter]; [lia|].
  destruct (scheduled_at date time (f r)) eqn:E.
  - rewrite (Hf r E). cbn [List.length]. lia.
  - destruct (scheduled_at date time r); cbn [List.length]; lia.
Qed.

Lemma add_appointment_count (db : table) (ts date time doctor notes d t : string) :
  count_scheduled (snd (add_appointment db ts date time doctor notes)) d t
  = (count_scheduled db d t
     + (if (date =? d)%string && (time =? t)%string then 1 else 0))%nat.
Proof.
  unfold add_appointment. cbn [snd]. rewrite count_scheduled_app. f_equal.
  unfold count_scheduled, scheduled_at. cbn [filter Row.date Row.time Row.status].
  replace ("scheduled" =? "scheduled")%string with true by reflexivity.
  rewrite andb_true_r.
  destruct ((date =? d)%string && (time =? t)%string); reflexivity.
Qed.

Lemma add_appointment_unique (db : table) (ts date time doctor notes : string) :
  slot_unique db -> check_availability db date time = true ->
  slot_unique (snd (add_appointment db ts date time doctor notes)).
Proof.
  intros Hu Hfree d t. rewrite add_appointment_count.
  destruct ((date =? d)%string && (time =? t)%string) eqn:E.
  - apply andb_true_iff in E. destruct E as [E1 E2].
    apply String.eqb_eq in E1, E2. subst d t.
    apply check_availability_count in Hfree. lia.
  - specialize (Hu d t). lia.
Qed.

Lemma cancel_appointment_unique (db : table) (ts date time : string) :
  slot_unique db -> slot_unique (snd (cancel_appointment db ts date time)).
Proof.
  intros Hu d t. unfold cancel_appointment. cbn [snd].
  etransitivity; [apply count_scheduled_map_le | apply Hu].
  intros r. destruct (scheduled_at date time r); [|tauto].
  unfold scheduled_at, set_cancelled. cbn [Row.date Row.time Row.status].
  replace ("cancelled" =? "scheduled")%string with false by reflexivity.
  rewrite andb_false_r. discriminate.
Qed.

Lemma update_appointment_notes_unique (db : table) (ts date time notes : string) :
  slot_unique db ->
  slot_unique (snd (update_appointment_notes db ts date time notes)).
Proof.
  intros Hu d t. unfold update_appointment_notes. cbn [snd].
  etransitivity; [apply count_scheduled_map_le | apply Hu].
  intros r. destruct (scheduled_at date time r); [|tauto].
  unfold scheduled_at, set_notes. cbn [Row.date Row.time Row.status]. tauto.
Qed.

End Store.

Lemma schedule_appointment_cases (clk : clock) (db : table)
    (ts date time doctor notes : string) :
  snd (schedule_appointment clk db ts date time doctor notes) = db
  \/ (DatabaseManager.check_availability db date time = true
      /\ _is_valid_datetime (clk 0%nat) date time = Ok true
      /\ is_available (clk 1%nat) db date time = true
      /\ schedule_appointment clk db ts date time doctor notes
         = ((true, "Appointment scheduled successfully"),
            snd (DatabaseManager.add_appointment db ts date time doctor notes))).
Proof.
  unfold schedule_appointment.
  destruct (_is_valid_datetime (clk 0%nat) date time) as [[|]| |];
    cbn [negb snd]; try (left; reflexivity).
  destruct (is_available (clk 1%nat) db date time) eqn:Ha;
    cbn [negb snd]; try (left; reflexivity).
  right. repeat split; try reflexivity.
  unfold is_available in Ha.
  destruct (_is_valid_datetime (clk 1%nat) date time) as [[|]| |];
    cbn [negb] in Ha; try discriminate. exact Ha.
Qed.

(** Claim C1: every engine operation that writes to the store (schedule, cancel,
    update_notes) takes a store with at most one 'scheduled' appointment per
    (date, time) to a store with the same property; and whenever schedule
    changes the store, the occupancy check reported the slot free on the
    store it was given. *)
Theorem engine_preserves_slot_unique (db : table) :
  slot_unique db ->
  (forall clk ts date time doctor notes,
      slot_unique (snd (schedule_appointment clk db ts date time doctor notes)))
  /\ (forall ts date time,
      slot_unique (snd (cancel_appointment db ts date time)))
  /\ (forall ts date time notes,
      slot_unique (snd (update_appointment_notes db ts date time notes)))
  /\ (forall clk ts date time doctor notes,
      snd (schedule_appointment clk db ts date time doctor notes) <> db ->
      DatabaseManager.check_availability db date time = true
      /\ snd (schedule_appointment clk db ts date time doctor notes)
         = snd (DatabaseManager.add_appointment db ts date time doctor notes)).
Proof.
  intros Hu. split; [|split; [|split]].
  - intros clk ts date time doctor notes.
    destruct (schedule_appointment_cases clk db ts date time doctor notes)
      as [->|(Hfree & _ & _ & ->)]; [exact Hu|].
    cbn [snd]. apply add_appointment_unique; assumption.
  - intros ts date time. unfold cancel_appointment.
    pose proof (cancel_appointment_unique db ts date time Hu) as H.
    destruct (DatabaseManager.cancel_appointment db ts date time) as [[|] db'];
      exact H.
  - intros ts date time notes. unfold update_appointment_notes.
    pose proof (update_appointment_notes_unique db ts date time notes Hu) as H.
    destruct (DatabaseManager.update_appointment_notes db ts date time notes)
      as [[|] db']; exact H.
  - intros clk ts date time doctor notes Hne.
    destruct (schedule_appointment_cases clk db ts date time doctor notes)
      as [E|(Hfree & _ & _ & E)]; [contradiction|].
    split; [exact Hfree | rewrite E; reflexivity].
Qed.

Lemma engine_preserves_slot_unique_witness :
  slot_unique [monday_9am]
  /\ slot_unique
       (snd (schedule_appointment friday_noon [monday_9am]
               "2025-01-02 11:00:00" "2025-01-06" "09:30" "Dr. Jones" "")).
Proof.
  assert (H : slot_unique [monday_9am]).
  { intros d t. unfold count_scheduled. cbn [filter].
    destruct (DatabaseManager.scheduled_at d t monday_9am);
      cbn [List.length]; lia. }
  split; [exact H|].
  exact (proj1 (engine_preserves_slot_unique [monday_9am] H) friday_noon
           "2025-01-02 11:00:00" "2025-01-06" "09:30" "Dr. Jones" "").
Defined.

(** Claim C2, as stated, fails: with a scheduled record at 2025-01-06 09:00 in the
    store, the insert for the same key reports success and the store then
    holds two scheduled records for it. *)
Lemma add_appointment_duplicate_accepted :
  let db := [monday_9am] in
  let r := DatabaseManager.add_appointment db "2025-01-02 11:00:00"
             "2025-01-06" "09:00" "Dr. Jones" "" in
  count_scheduled db "2025-01-06" "09:00" = 1%nat
  /\ fst r = true
  /\ count_scheduled (snd r) "2025-01-06" "09:00" = 2%nat.
Proof. repeat split. Qed.

(** Claim C2, amended: the insert never refuses: whatever the store holds, it
    reports success, keeps the rows already there and appends one row with
    status 'scheduled' for the key, so that the number of scheduled records
    at the key grows by one. *)
Theorem add_appointment_unconditional
    (db : DatabaseManager.table) (ts date time doctor notes : string) :
  let r := DatabaseManager.add_appointment db ts date time doctor notes in
  fst r = true
  /\ (exists row, snd r = (db ++ [row])%list
        /\ Row.date row = date /\ Row.time row = time
        /\ Row.doctor row = doctor /\ Row.patient_notes row = notes
        /\ Row.status row = "scheduled")
  /\ count_scheduled (snd r) date time = S (count_scheduled db date time).
Proof.
  cbv zeta. split; [reflexivity|]. split.
  - eexists. cbn [snd DatabaseManager.add_appointment]. split; [reflexivity|].
    repeat split.
  - rewrite add_appointment_count, !String.eqb_refl. cbn [andb]. lia.
Qed.

Lemma has_scheduled_count (db : DatabaseManager.table) (date time : string) :
  has_scheduled db date time <-> (0 < count_scheduled db date time)%nat.
Proof.
  unfold has_scheduled, count_scheduled. split.
  - intros (r & Hin & Hs).
    assert (Hf : In r (filter (DatabaseManager.scheduled_at date time) db))
      by (apply filter_In; split; assumption).
    destruct (filter _ db); [destruct Hf | cbn; lia].
  - intros H.
    destruct (filter (DatabaseManager.scheduled_at date time) db) as [|r l] eqn:E;
      [cbn in H; lia|].
    exists r. apply filter_In. rewrite E. left. reflexivity.
Qed.

Lemma count_scheduled_cancelled (db : DatabaseManager.table) (ts date time : string) :
  count_scheduled (snd (DatabaseManager.cancel_appointment db ts date time))
    date time = 0%nat.
Proof.
  unfold DatabaseManager.cancel_appointment, count_scheduled. cbn [snd].
  induction db as [|r db IH]; [reflexivity|]. cbn [map filter].
  destruct (DatabaseManager.scheduled_at date time r) eqn:E.
  - unfold DatabaseManager.scheduled_at at 1, DatabaseManager.set_cancelled.
    cbn [Row.date Row.time Row.status].
    replace ("cancelled" =? "scheduled")%string with false by reflexivity.
    rewrite andb_false_r. exact IH.
  - rewrite E. exact IH.
Qed.

Lemma cancel_appointment_no_match (db : DatabaseManager.table) (ts date time : string) :
  count_scheduled db date time = 0%nat ->
  snd (DatabaseManager.cancel_appointment db ts date time) = db.
Proof.
  unfold DatabaseManager.cancel_appointment, count_scheduled. cbn [snd].
  induction db as [|r db IH]; [reflexivity|]. cbn [map filter].
  destruct (DatabaseManager.scheduled_at date time r) eqn:E.
  - cbn [List.length]. discriminate.
  - intros H. rewrite (IH H). reflexivity.
Qed.

Lemma cancel_appointment_rows (db : DatabaseManager.table) (ts date time : string) :
  Forall2 (cancelled_row ts date time) db
    (snd (DatabaseManager.cancel_appointment db ts date time)).
Proof.
  unfold DatabaseManager.cancel_appointment. cbn [snd].
  induction db as [|r db IH]; cbn [map]; constructor; [|exact IH].
  unfold cancelled_row. destruct (DatabaseManager.scheduled_at date time r).
  - repeat split.
  - reflexivity.
Qed.

(** Claim C8: cancel at a key where a scheduled appointment exists succeeds,
    keeps every row in place (same length, same ids) and turns the scheduled
    rows at the key to 'cancelled'; cancel at a key with no scheduled
    appointment fails with the not-found message and leaves the store as it
    was; after a successful cancel a second cancel of the same slot fails. *)
Theorem cancel_appointment_spec
    (db : AppointmentManager.table) (ts ts' date time : string) :
  let r := AppointmentManager.cancel_appointment db ts date time in
  (has_scheduled db date time ->
     fst r = (true, "Appointment cancelled successfully")
     /\ Forall2 (cancelled_row ts date time) db (snd r)
     /\ List.length (snd r) = List.length db
     /\ map Row.id (snd r) = map Row.id db
     /\ ~ has_scheduled (snd r) date time
     /\ AppointmentManager.cancel_appointment (snd r) ts' date time
        = ((false, "No appointment found for the specified time"), snd r))
  /\ (~ has_scheduled db date time ->
     r = ((false, "No appointment found for the specified time"), db)).
Proof.
  cbv zeta.
  assert (Hno : forall db0 ts0, ~ has_scheduled db0 date time ->
            AppointmentManager.cancel_appointment db0 ts0 date time
            = ((false, "No appointment found for the specified time"), db0)).
  { intros db0 ts0 H. rewrite has_scheduled_count in H.
    assert (H0 : count_scheduled db0 date time = 0%nat) by lia.
    pose proof (cancel_appointment_no_match db0 ts0 date time H0) as Hs.
    unfold AppointmentManager.cancel_appointment.
    unfold DatabaseManager.cancel_appointment in *. cbn [snd] in Hs.
    rewrite Hs. unfold DatabaseManager.rowcount.
    unfold count_scheduled in H0. rewrite H0. reflexivity. }
  split; [|apply Hno].
  intros Hs.
  pose proof (cancel_appointment_rows db ts date time) as Hrows.
  pose proof (count_scheduled_cancelled db ts date time) as Hzero.
  assert (Hr : AppointmentManager.cancel_appointment db ts date time
               = ((true, "Appointment cancelled successfully"),
                  snd (DatabaseManager.cancel_appointment db ts date time))).
  { apply has_scheduled_count in Hs.
    unfold AppointmentManager.cancel_appointment,
      DatabaseManager.cancel_appointment, DatabaseManager.rowcount.
    unfold count_scheduled in Hs.
    replace (0 <? Z.of_nat _) with true by (symmetry; apply Z.ltb_lt; lia).
    reflexivity. }
  rewrite Hr. cbn [fst snd].
  assert (Hnone : ~ has_scheduled
            (snd (DatabaseManager.cancel_appointment db ts date time)) date time).
  { rewrite has_scheduled_count, Hzero. lia. }
  repeat split.
  - exact Hrows.
  - unfold DatabaseManager.cancel_appointment. cbn [snd]. apply length_map.
  - unfold DatabaseManager.cancel_appointment. cbn [snd]. rewrite map_map.
    apply map_ext. intros r.
    destruct (DatabaseManager.scheduled_at date time r); reflexivity.
  - exact Hnone.
  - apply Hno. exact Hnone.
Qed.

Lemma cancel_appointment_spec_witness :
  has_scheduled [monday_9am] "2025-01-06" "09:00"
  /\ fst (cancel_appointment [monday_9am] "2025-01-05 08:00:00"
            "2025-01-06" "09:00")
     = (true, "Appointment cancelled successfully").
Proof.
  assert (H : has_scheduled [monday_9am] "2025-01-06" "09:00").
  { exists monday_9am. split; [left; reflexivity | reflexivity]. }
  split; [exact H|].
  exact (proj1 (proj1 (cancel_appointment_spec [monday_9am]
                         "2025-01-05 08:00:00" "2025-01-05 09:00:00"
                         "2025-01-06" "09:00") H)).
Defined.

(** ** Listing *)

Section OrderBy.
Import DatabaseManager.
Variable le : Row.t -> Row.t -> bool.
Hypothesis le_total : forall a b, le a b = true \/ le b a = true.

Lemma insert_by_perm (r : Row.t) (l : list Row.t) :
  Permutation (r :: l) (insert_by le r l).
Proof.
  induction l as [|r' l IH]; cbn [insert_by]; [reflexivity|].
  destruct (le r r'); [reflexivity|].
  rewrite perm_swap. constructor. exact IH.
Qed.

Lemma order_by_perm (l : list Row.t) : Permutation l (order_by le l).
Proof.
  unfold order_by. induction l as [|r l IH]; cbn [fold_right]; [reflexivity|].
  rewrite <- insert_by_perm. constructor. exact IH.
Qed.

Lemma insert_by_sorted (r : Row.t) (l : list Row.t) :
  Sorted (fun a b => le a b = true) l ->
  Sorted (fun a b => le a b = true) (insert_by le r l).
Proof.
  induction l as [|r' l IH]; intros Hs; cbn [insert_by].
  - repeat constructor.
  - destruct (le r r') eqn:E.
    + constructor; [exact Hs | constructor; exact E].
    + inversion Hs as [|? ? Hs' Hhd]; subst.
      constructor; [apply IH; exact Hs'|].
      assert (Hr : le r' r = true)
        by (destruct (le_total r r'); [congruence|assumption]).
      destruct l as [|r'' l]; cbn [insert_by].
      * constructor. exact Hr.
      * destruct (le r r''); constructor; [exact Hr|].
        inversion Hhd; assumption.
Qed.

Lemma order_by_sorted (l : list Row.t) :
  Sorted (fun a b => le a b = true) (order_by le l).
Proof.
  unfold order_by. induction l as [|r l IH]; cbn [fold_right].
  - constructor.
  - apply insert_by_sorted. exact IH.
Qed.

End OrderBy.

(** Claim C9: for a date (a non-empty string: Python takes the empty string for
    no date at all), the listing is a rearrangement of the rows stored for
    that date with status 'scheduled', in ascending order of time; no row
    with status 'cancelled' is in it. *)
Theorem get_appointments_by_date
    (db : AppointmentManager.table) (today date : string) :
  date <> "" ->
  let l := AppointmentManager.get_appointments db today (Some date) in
  Permutation l
    (filter (fun r => (Row.date r =? date)%string
                      && (Row.status r =? "scheduled")%string) db)
  /\ Sorted (fun a b => String.leb (Row.time a) (Row.time b) = true) l
  /\ Forall (fun r => Row.date r = date /\ Row.status r = "scheduled"
                      /\ Row.status r <> "cancelled" /\ In r db) l.
Proof.
  intros Hne. cbv zeta.
  unfold AppointmentManager.get_appointments, DatabaseManager.get_appointments.
  destruct date as [|c s]; [contradiction|].
  set (keep := fun r : Row.t => _).
  split; [|split].
  - symmetry. apply order_by_perm.
  - apply (order_by_sorted DatabaseManager.by_time).
    intros a b. apply String.leb_total.
  - apply Forall_forall. intros r Hin.
    apply (Permutation_in r (Permutation_sym (order_by_perm _ _))) in Hin.
    apply filter_In in Hin. destruct Hin as [Hin Hk]. unfold keep in Hk.
    apply andb_true_iff in Hk. destruct Hk as [Hd Hs].
    apply String.eqb_eq in Hd, Hs. repeat split; try assumption.
    rewrite Hs. discriminate.
Qed.

Lemma get_appointments_by_date_witness :
  Sorted (fun a b => String.leb (Row.time a) (Row.time b) = true)
    (get_appointments [monday_9am; booked 2 "2025-01-06" "08:00"]
       "2025-01-01" (Some "2025-01-06")).
Proof.
  apply (get_appointments_by_date [monday_9am; booked 2 "2025-01-06" "08:00"]
           "2025-01-01" "2025-01-06").
  discriminate.
Defined.

(** ** The validator *)

Lemma strptime_Ymd_HM_cases (s : string) :
  (exists dt, strptime_Ymd_HM s = Ok dt) \/ strptime_Ymd_HM s = Raise ValueError.
Proof.
  unfold strptime_Ymd_HM, run_format, make_datetime.
  match goal with |- context [match ?p with _ => _ end] => destruct p as [[[[[[y m] d] hh] mm] [|c r]]|] end;
    try (right; reflexivity).
  destruct (_ && _); [left; eexists; reflexivity | right; reflexivity].
Qed.

(** The validator on an input that parses, when [now + notice] exists. *)
Lemma valid_datetime_parsed (now : datetime) (date time : string)
    (dt limit : datetime) :
  strptime_Ymd_HM (date ++ " " ++ time) = Ok dt ->
  add now (hours MIN_SCHEDULE_NOTICE) = Ok limit ->
  _is_valid_datetime now date time = Ok (negb (dt <? limit) && bookable dt).
Proof.
  intros Hp Hl. unfold _is_valid_datetime. rewrite Hp. cbn [bind]. rewrite Hl.
  cbn [bind]. unfold bookable.
  destruct (dt <? limit); [reflexivity|]. cbn [negb andb].
  destruct (Z.ltb_spec (hour dt) WORKING_HOURS_START);
    destruct (Z.leb_spec WORKING_HOURS_END (hour dt));
    destruct (Z.leb_spec WORKING_HOURS_START (hour dt));
    destruct (Z.ltb_spec (hour dt) WORKING_HOURS_END);
    destruct (Z.leb_spec 5 (weekday dt));
    destruct (Z.ltb_spec (weekday dt) 5);
    cbn [orb andb]; first [reflexivity | lia].
Qed.

Lemma valid_datetime_true (now : datetime) (date time : string) :
  _is_valid_datetime now date time = Ok true ->
  exists dt limit,
    strptime_Ymd_HM (date ++ " " ++ time) = Ok dt
    /\ add now (hours MIN_SCHEDULE_NOTICE) = Ok limit
    /\ limit <= dt /\ bookable dt = true.
Proof.
  intros H.
  destruct (strptime_Ymd_HM_cases (date ++ " " ++ time)) as [[dt Hp]|Hp].
  - destruct (add now (hours MIN_SCHEDULE_NOTICE)) as [limit| |] eqn:Hl.
    + rewrite (valid_datetime_parsed _ _ _ _ _ Hp Hl) in H.
      injection H as H. apply andb_true_iff in H. destruct H as [H1 H2].
      exists dt, limit. repeat split; try assumption.
      apply negb_true_iff, Z.ltb_ge in H1. exact H1.
    + unfold _is_valid_datetime in H. rewrite Hp in H. cbn [bind] in H.
      rewrite Hl in H. cbn in H. unfold add in Hl.
      destruct (_ && _) in Hl; [discriminate|]. injection Hl as <-. discriminate.
    + unfold add in Hl. destruct (_ && _) in Hl; discriminate.
  - unfold _is_valid_datetime in H. rewrite Hp in H. discriminate.
Qed.

(** Claim C3, as stated, fails at the boundary: at 09:00 on Monday 2025-01-06 a
    request for 10:00 the same day lies exactly at [now + 1 hour], and the
    validator accepts it. *)
Lemma notice_boundary_accepted :
  exists now dt,
    strptime_Ymd_HM ("2025-01-06" ++ " " ++ "09:00") = Ok now
    /\ strptime_Ymd_HM ("2025-01-06" ++ " " ++ "10:00") = Ok dt
    /\ add now (hours MIN_SCHEDULE_NOTICE) = Ok dt
    /\ _is_valid_datetime now "2025-01-06" "10:00" = Ok true.
Proof. do 2 eexists. repeat split; vm_compute; reflexivity. Qed.

(** Claim C3, amended: when the pair parses to the instant [dt] and
    [limit = now + notice], the validator returns false whenever
    [dt < limit]; a request exactly at the boundary ([dt = limit]) is not
    refused for lack of notice: it is valid as soon as it lies inside working
    hours on a working day. *)
Theorem notice_rule (now : datetime) (date time : string) (dt limit : datetime) :
  strptime_Ymd_HM (date ++ " " ++ time) = Ok dt ->
  add now (hours MIN_SCHEDULE_NOTICE) = Ok limit ->
  (dt < limit -> _is_valid_datetime now date time = Ok false)
  /\ (dt = limit -> _is_valid_datetime now date time = Ok (bookable dt)).
Proof.
  intros Hp Hl. rewrite (valid_datetime_parsed _ _ _ _ _ Hp Hl). split.
  - intros H. apply Z.ltb_lt in H. rewrite H. reflexivity.
  - intros ->. rewrite Z.ltb_irrefl. reflexivity.
Qed.

Lemma notice_rule_witness :
  strptime_Ymd_HM ("2025-01-06" ++ " " ++ "10:00") = Ok 63871754400000000
  /\ add 63871752600000000 (hours MIN_SCHEDULE_NOTICE) = Ok 63871756200000000
  /\ _is_valid_datetime 63871752600000000 "2025-01-06" "10:00" = Ok false.
Proof.
  split; [reflexivity|]. split; [reflexivity|].
  apply (proj1 (notice_rule 63871752600000000 "2025-01-06" "10:00"
                  63871754400000000 63871756200000000 eq_refl eq_refl)).
  reflexivity.
Defined.

(** Claim C5: the validator answers with a boolean: false when the pair does not
    parse (no exception leaves the function); and, the clock being such that
    [now + notice] exists, false when the hour of the parsed instant is
    below the opening hour or at or above the closing hour, false on a
    Saturday or Sunday, and true when the instant is not earlier than
    [now + notice], inside working hours and on a working day. *)
Theorem valid_datetime_spec (now : datetime) (date time : string) :
  ((forall dt, strptime_Ymd_HM (date ++ " " ++ time) <> Ok dt) ->
     _is_valid_datetime now date time = Ok false)
  /\ (forall dt limit,
        strptime_Ymd_HM (date ++ " " ++ time) = Ok dt ->
        add now (hours MIN_SCHEDULE_NOTICE) = Ok limit ->
        (hour dt < WORKING_HOURS_START \/ WORKING_HOURS_END <= hour dt ->
           _is_valid_datetime now date time = Ok false)
        /\ (weekday dt = 5 \/ weekday dt = 6 ->
           _is_valid_datetime now date time = Ok false)
        /\ (limit <= dt ->
            WORKING_HOURS_START <= hour dt < WORKING_HOURS_END ->
            0 <= weekday dt <= 4 ->
            _is_valid_datetime now date time = Ok true)).
Proof.
  split.
  - intros Hno.
    destruct (strptime_Ymd_HM_cases (date ++ " " ++ time)) as [[dt Hp]|Hp].
    + destruct (Hno dt Hp).
    + unfold _is_valid_datetime. rewrite Hp. reflexivity.
  - intros dt limit Hp Hl.
    rewrite (valid_datetime_parsed _ _ _ _ _ Hp Hl). unfold bookable.
    split; [|split].
    + intros [H|H]; f_equal.
      * replace (WORKING_HOURS_START <=? hour dt) with false
          by (symmetry; apply Z.leb_gt; lia).
        cbn [andb]. apply andb_false_r.
      * replace (hour dt <? WORKING_HOURS_END) with false
          by (symmetry; apply Z.ltb_ge; lia).
        rewrite andb_false_r. cbn [andb]. apply andb_false_r.
    + intros H. f_equal.
      replace (weekday dt <? 5) with false by (symmetry; apply Z.ltb_ge; lia).
      rewrite !andb_false_r. reflexivity.
    + intros H1 H2 H3. f_equal.
      replace (dt <? limit) with false by (symmetry; apply Z.ltb_ge; lia).
      replace (WORKING_HOURS_START <=? hour dt) with true
        by (symmetry; apply Z.leb_le; lia).
      replace (hour dt <? WORKING_HOURS_END) with true
        by (symmetry; apply Z.ltb_lt; lia).
      replace (weekday dt <? 5) with true by (symmetry; apply Z.ltb_lt; lia).
      reflexivity.
Qed.

Lemma valid_datetime_spec_witness :
  _is_valid_datetime (instant "2025-01-03 12:00") "2025-01-06" "09:00" = Ok true
  /\ _is_valid_datetime (instant "2025-01-03 12:00") "2025-01-06" "9 am"
     = Ok false.
Proof.
  split.
  - apply (proj2 (proj2 (proj2 (valid_datetime_spec
                                  (instant "2025-01-03 12:00")
                                  "2025-01-06" "09:00")
                           (instant "2025-01-06 09:00")
                           (instant "2025-01-03 13:00") eq_refl eq_refl)));
      vm_compute;
      first [discriminate | split; first [discriminate | reflexivity]].
  - apply (proj1 (valid_datetime_spec (instant "2025-01-03 12:00")
                    "2025-01-06" "9 am")).
    intros dt. vm_compute. discriminate.
Defined.

Lemma is_available_true (now : datetime) (db : table) (date time : string) :
  is_available now db date time = true <->
  _is_valid_datetime now date time = Ok true
  /\ DatabaseManager.check_availability db date time = true.
Proof.
  unfold is_available.
  destruct (_is_valid_datetime now date time) as [[|]| |]; cbn [negb];
    split; try discriminate; try tauto;
    intros [H _]; discriminate.
Qed.

(** ** The forward scan *)

Lemma first_available_app (clk : clock) (db : table) (l1 l2 : list slot) :
  forall tick,
  first_available clk tick db (l1 ++ l2)%list
  = match first_available clk tick db l1 with
    | Some s => Some s
    | None => first_available clk (List.length l1 + tick) db l2
    end.
Proof.
  induction l1 as [|[d t] l1 IH]; intros tick; cbn [first_available app List.length].
  - reflexivity.
  - destruct (is_available (clk tick) db d t); [reflexivity|].
    rewrite IH. rewrite Nat.add_succ_r. reflexivity.
Qed.

Lemma first_available_Some (clk : clock) (db : table) (l : list slot) :
  forall tick s,
  first_available clk tick db l = Some s ->
  In s l /\ exists k, is_available (clk k) db (fst s) (snd s) = true.
Proof.
  induction l as [|[d t] l IH]; intros tick s; cbn [first_available].
  - discriminate.
  - destruct (is_available (clk tick) db d t) eqn:E.
    + intros H. injection H as <-. split; [left; reflexivity|].
      exists tick. exact E.
    + intros H. destruct (IH _ _ H) as [Hin Hk]. split; [right; exact Hin|exact Hk].
Qed.

Lemma first_available_None (clk : clock) (db : table) (l : list slot) :
  forall tick,
  first_available clk tick db l = None <->
  forall k d t, nth_error l k = Some (d, t) ->
                is_available (clk (k + tick)%nat) db d t = false.
Proof.
  induction l as [|[d t] l IH]; intros tick; cbn [first_available].
  - split; [|reflexivity]. intros _ [|k] d t; discriminate.
  - destruct (is_available (clk tick) db d t) eqn:E.
    + split; [discriminate|]. intros H.
      specialize (H 0%nat d t eq_refl). cbn in H. congruence.
    + rewrite IH. split.
      * intros H [|k] d' t'; cbn [nth_error].
        -- intros Hn. injection Hn as <- <-. exact E.
        -- intros Hn. replace (S k + tick)%nat with (k + S tick)%nat by lia.
           apply H. exact Hn.
      * intros H k d' t' Hn. replace (k + S tick)%nat with (S k + tick)%nat by lia.
        apply (H (S k)). exact Hn.
Qed.

(** A slot that is found is the first one, in the order of [l], that
    [is_available] accepted. *)
Lemma first_available_first (clk : clock) (db : table) (l : list slot) :
  forall tick s,
  first_available clk tick db l = Some s ->
  exists k,
    nth_error l k = Some s
    /\ is_available (clk (k + tick)%nat) db (fst s) (snd s) = true
    /\ forall j d t, (j < k)%nat -> nth_error l j = Some (d, t) ->
                     is_available (clk (j + tick)%nat) db d t = false.
Proof.
  induction l as [|[d t] l IH]; intros tick s; cbn [first_available].
  - discriminate.
  - destruct (is_available (clk tick) db d t) eqn:E.
    + intros H. apply (f_equal (fun o => match o with Some x => x | None => s end)) in H.
      subst s. exists 0%nat. repeat split; [exact E|]. intros j d' t' Hj. lia.
    + intros H. destruct (IH _ _ H) as (k & Hk & Ha & Hmin). exists (S k).
      replace (S k + tick)%nat with (k + S tick)%nat by lia.
      repeat split; [exact Hk | exact Ha|].
      intros [|j] d' t' Hj; cbn [nth_error].
      * intros Hn. apply (f_equal (fun o => match o with Some x => x | None => (d, t) end)) in Hn.
        cbn in Hn. assert (d' = d /\ t' = t) as [-> ->] by (split; congruence).
        exact E.
      * intros Hn. replace (S j + tick)%nat with (j + S tick)%nat by lia.
        apply (Hmin j); [lia | exact Hn].
Qed.

(** The sixteen times of a day. *)
Example day_times_listed :
  day_times
  = ["09:00"; "09:30"; "10:00"; "10:30"; "11:00"; "11:30"; "12:00"; "12:30";
     "13:00"; "13:30"; "14:00"; "14:30"; "15:00"; "15:30"; "16:00"; "16:30"].
Proof. reflexivity. Qed.

Lemma opening_time :
  strptime_HM (str WORKING_HOURS_START ++ ":00") = Ok 59926640400000000.
Proof. reflexivity. Qed.

Lemma closing_time :
  strptime_HM (str WORKING_HOURS_END ++ ":00") = Ok 59926669200000000.
Proof. reflexivity. Qed.

(** One day of the sweep: the fuel is enough, the slots are those of
    [day_times] in order, and a fruitless sweep reads the clock once per slot. *)
Lemma sweep_day_fuel (clk : clock) (tick : nat) (db : table) (date_str : string) :
  let r := sweep_day SWEEP_FUEL clk tick db date_str
             59926640400000000 59926669200000000 in
  let l := map (fun t => (date_str, t)) day_times in
  fst r = Ok (first_available clk tick db l)
  /\ (first_available clk tick db l = None ->
      snd r = (List.length l + tick)%nat).
Proof.
  cbv -[is_available].
  repeat (destruct (is_available _ _ _ _); [split; [reflexivity|discriminate]|]).
  split; reflexivity.
Qed.

Lemma Ok_inj {A : Type} (a b : A) : Ok a = Ok b -> a = b.
Proof. intros H. exact (f_equal (fun o => match o with Ok x => x | _ => a end) H). Qed.

Lemma add_in_range (dt : datetime) (delta : timedelta) :
  0 <= dt + delta < MAX_US -> add dt delta = Ok (dt + delta).
Proof.
  intros H. unfold add.
  replace (0 <? toordinal (dt + delta)) with true.
  - replace (toordinal (dt + delta) <=? MAXORDINAL) with true; [reflexivity|].
    symmetry. apply Z.leb_le.
    unfold toordinal, MAX_US, US_PER_DAY, MAXORDINAL in *.
    Z.div_mod_to_equations. lia.
  - symmetry. apply Z.ltb_lt.
    unfold toordinal, MAX_US, US_PER_DAY, MAXORDINAL in *.
    Z.div_mod_to_equations. lia.
Qed.

Lemma add_cases (dt : datetime) (delta : timedelta) :
  (add dt delta = Ok (dt + delta) /\ 0 <= dt + delta < MAX_US)
  \/ (add dt delta = Raise OverflowError /\ ~ 0 <= dt + delta < MAX_US).
Proof.
  unfold add.
  destruct (0 <? toordinal (dt + delta)) eqn:E1;
    destruct (toordinal (dt + delta) <=? MAXORDINAL) eqn:E2; cbn [andb];
    [left|right|right|right]; (split; [reflexivity|]);
    try apply Z.ltb_lt in E1; try apply Z.ltb_ge in E1;
    try apply Z.leb_le in E2; try apply Z.leb_gt in E2;
    unfold toordinal, MAX_US, US_PER_DAY, MAXORDINAL in *;
    Z.div_mod_to_equations; lia.
Qed.

Lemma scan_days_spec (clk : clock) (db : table) (n : nat) :
  forall tick d, 0 <= d ->
  except_Exception (fst (scan_days n clk tick db d)) None
  = Ok (first_available clk tick db (scan_order n d)).
Proof.
  induction n as [|n IH]; intros tick d Hd.
  - reflexivity.
  - cbn [scan_days]. rewrite opening_time, closing_time.
    pose proof (sweep_day_fuel clk tick db (strftime_Ymd d)) as Hs.
    cbv zeta in Hs. destruct Hs as [Hfst Hsnd].
    unfold scan_order. cbn [calendar_days flat_map].
    rewrite first_available_app.
    destruct (sweep_day _ _ _ _ _ _ _) as [o tick'].
    cbn [fst snd] in Hfst, Hsnd. subst o.
    destruct (first_available clk tick db _) as [s|] eqn:Ef.
    + reflexivity.
    + specialize (Hsnd eq_refl). subst tick'.
      destruct (add_cases d (days 1)) as [[-> Hr]|[-> Hr]].
      * replace (d + days 1 <? MAX_US) with true
          by (symmetry; apply Z.ltb_lt; lia).
        apply IH. lia.
      * replace (d + days 1 <? MAX_US) with false
          by (symmetry; apply Z.ltb_ge; unfold days, US_PER_DAY in *; lia).
        reflexivity.
Qed.

Lemma strptime_Ymd_strftime_Ymd (now : datetime) :
  0 <= now < MAX_US -> strptime_Ymd (strftime_Ymd now) = Ok (midnight now).
Proof.
  intros Hn. unfold strftime_Ymd.
  assert (Ho : 1 <= toordinal now <= MAXORDINAL).
  { unfold toordinal, MAX_US, US_PER_DAY, MAXORDINAL in *.
    Z.div_mod_to_equations. lia. }
  pose proof (ord2ymd_spec _ Ho) as Hs. unfold ymd_ok in Hs.
  destruct (ord2ymd (toordinal now)) as [[y m] dd]. destruct Hs as [Hv He].
  pose proof (valid_ymd_bounds _ _ _ Hv) as (By & Bm & Bd).
  rewrite strptime_Ymd_pad by assumption.
  unfold make_datetime. rewrite Hv, He. reflexivity.
Qed.

Lemma strftime_Ymd_nonempty (d : datetime) : strftime_Ymd d <> "".
Proof.
  unfold strftime_Ymd. destruct (ord2ymd (toordinal d)) as [[y m] dd].
  discriminate.
Qed.

Lemma strptime_Ymd_Ok (s : string) (dt : datetime) :
  strptime_Ymd s = Ok dt -> 0 <= dt < MAX_US /\ dt mod US_PER_MINUTE = 0.
Proof. apply run_format_Ok. Qed.

Lemma get_next_available_slot_from (clk : clock) (db : table)
    (date : string) (tick : nat) (d0 : datetime) :
  strptime_Ymd date = Ok d0 ->
  (let (r, tick') := scan_days 30 clk tick db d0 in
   (except_Exception r (@None slot), tick'))
  = (Ok (first_available clk tick db (scan_order 30 d0)),
     snd (scan_days 30 clk tick db d0)).
Proof.
  intros Hp. apply strptime_Ymd_Ok in Hp.
  pose proof (scan_days_spec clk db 30 tick d0 ltac:(lia)) as H.
  destruct (scan_days 30 clk tick db d0) as [r tick']. cbn [fst snd] in *.
  rewrite H. reflexivity.
Qed.

Lemma get_next_available_slot_start (clk : clock) (db : table) (date : option string) :
  exists date' tick,
    get_next_available_slot clk db date
    = match strptime_Ymd date' with
      | Ok current_date =>
          let (r, tick') := scan_days 30 clk tick db current_date in
          (except_Exception r None, tick')
      | Raise _ => (Ok None, tick)
      | OutOfFuel => (OutOfFuel, tick)
      end.
Proof.
  destruct date as [[|c s]|].
  - exists (strftime_Ymd (clk 0%nat)), 1%nat. reflexivity.
  - exists (String c s), 0%nat. reflexivity.
  - exists (strftime_Ymd (clk 0%nat)), 1%nat. reflexivity.
Qed.

Lemma get_next_available_slot_cases (clk : clock) (db : table) (date : option string) :
  fst (get_next_available_slot clk db date) = Ok None
  \/ exists tick d0,
       fst (get_next_available_slot clk db date)
       = Ok (first_available clk tick db (scan_order 30 d0)).
Proof.
  destruct (get_next_available_slot_start clk db date) as (date' & tick & ->).
  destruct (strptime_Ymd date') as [d0|e|] eqn:Hp.
  - right. exists tick, d0.
    rewrite (get_next_available_slot_from _ _ _ _ _ Hp). reflexivity.
  - left. reflexivity.
  - unfold strptime_Ymd in Hp.
    destruct (run_format_returns _ _ Hp).
Qed.

(** Claim C7: from a starting date that parses to [d0], the value returned is the
    first slot of the scan order (30 calendar days from [d0], every day swept
    from the opening hour in steps of the appointment duration, closing hour
    excluded) that [is_available] accepts, and none when there is no such
    slot; without a starting date the scan starts at today's date; a slot
    that is returned passed the validity test when it was examined. *)
Theorem get_next_available_slot_spec (clk : clock) (db : table) :
  (forall date d0,
      date <> "" -> strptime_Ymd date = Ok d0 ->
      fst (get_next_available_slot clk db (Some date))
      = Ok (first_available clk 0 db (scan_order 30 d0)))
  /\ (0 <= clk 0%nat < MAX_US ->
      fst (get_next_available_slot clk db None)
      = Ok (first_available clk 1 db (scan_order 30 (midnight (clk 0%nat)))))
  /\ (forall date d t,
      fst (get_next_available_slot clk db date) = Ok (Some (d, t)) ->
      exists k, _is_valid_datetime (clk k) d t = Ok true
                /\ is_available (clk k) db d t = true).
Proof.
  split; [|split].
  - intros date d0 Hne Hp. unfold get_next_available_slot.
    destruct date as [|c s]; [contradiction|]. rewrite Hp.
    rewrite (get_next_available_slot_from _ _ _ _ _ Hp). reflexivity.
  - intros Hnow. unfold get_next_available_slot.
    pose proof (strptime_Ymd_strftime_Ymd _ Hnow) as Hp. rewrite Hp.
    rewrite (get_next_available_slot_from _ _ _ _ _ Hp). reflexivity.
  - intros date d t H.
    destruct (get_next_available_slot_cases clk db date)
      as [E|(tick & d0 & E)]; rewrite E in H; [discriminate|].
    apply Ok_inj in H. apply first_available_Some in H.
    destruct H as [_ [k Hk]]. exists k. cbn [fst snd] in Hk.
    split; [|exact Hk]. apply is_available_true in Hk. tauto.
Qed.

Lemma get_next_available_slot_spec_witness :
  strptime_Ymd "2025-01-04" = Ok 63871545600000000
  /\ fst (get_next_available_slot friday_noon [monday_9am] (Some "2025-01-04"))
     = Ok (first_available friday_noon 0 [monday_9am]
             (scan_order 30 63871545600000000)).
Proof.
  split; [reflexivity|].
  apply (proj1 (get_next_available_slot_spec friday_noon [monday_9am]));
    [discriminate | reflexivity].
Defined.

(** The scan never runs out of fuel and no exception leaves the function. *)
Lemma get_next_available_slot_total (clk : clock) (db : table) (date : option string) :
  exists r, fst (get_next_available_slot clk db date) = Ok r.
Proof.
  destruct (get_next_available_slot_cases clk db date)
    as [E|(tick & d0 & E)]; rewrite E; eexists; reflexivity.
Qed.

(** ** The search for alternatives *)

Lemma opening_time_of_day : time_of 59926640400000000 = hours WORKING_HOURS_START.
Proof. reflexivity. Qed.

Lemma weekday_range (dt : datetime) : 0 <= weekday dt < 7.
Proof. unfold weekday. apply Z.mod_pos_bound. lia. Qed.

Lemma skip_weekend_spec (fuel : nat) :
  forall cur,
  0 <= cur < MAX_US ->
  (5 <= weekday cur -> 7 - weekday cur <= Z.of_nat fuel) ->
  (exists r, skip_weekend fuel cur = Ok r /\ cur <= r /\ 0 <= r < MAX_US
             /\ (cur mod US_PER_MINUTE = 0 -> r mod US_PER_MINUTE = 0))
  \/ skip_weekend fuel cur = Raise OverflowError.
Proof.
  induction fuel as [|fuel IH]; intros cur Hr Hf.
  - cbn [skip_weekend]. pose proof (weekday_range cur).
    destruct (Z.leb_spec 5 (weekday cur)); [lia|].
    left. exists cur. repeat split; first [lia | tauto].
  - cbn [skip_weekend].
    destruct (Z.leb_spec 5 (weekday cur)) as [Hw|Hw].
    + destruct (add_cases cur (days 1)) as [[-> Hr1]|[-> Hr1]];
        [|right; reflexivity].
      cbn [bind]. rewrite opening_time. cbn [bind].
      rewrite opening_time_of_day.
      set (cur2 := combine (date_of (cur + days 1)) (hours WORKING_HOURS_START)).
      assert (H2 : cur < cur2 /\ 0 <= cur2 < MAX_US
                   /\ toordinal cur2 = toordinal cur + 1
                   /\ (cur mod US_PER_MINUTE = 0 -> cur2 mod US_PER_MINUTE = 0)).
      { unfold cur2, combine, date_of, toordinal, hours, days, MAX_US,
          WORKING_HOURS_START, US_PER_DAY, US_PER_HOUR, US_PER_MINUTE, MAXORDINAL in *.
        repeat split; Z.div_mod_to_equations; lia. }
      destruct H2 as (Hlt & Hr2 & Hord & Hmin).
      destruct (IH cur2 Hr2) as [(r & -> & Hle & Hrr & Hm)| -> ].
      * specialize (Hf Hw). pose proof (weekday_range cur).
        unfold weekday in *. rewrite Hord. Z.div_mod_to_equations. lia.
      * left. exists r. repeat split; first [lia | tauto].
      * right. reflexivity.
    + left. exists cur. repeat split; first [lia | tauto].
Qed.

Lemma next_candidate_spec (cur : datetime) :
  (exists r, next_candidate cur = Ok r
             /\ cur + minutes APPOINTMENT_DURATION <= r /\ 0 <= r < MAX_US
             /\ (cur mod US_PER_MINUTE = 0 -> r mod US_PER_MINUTE = 0))
  \/ next_candidate cur = Raise OverflowError.
Proof.
  unfold next_candidate.
  destruct (add_cases cur (minutes APPOINTMENT_DURATION)) as [[-> Hr1]|[-> Hr1]];
    [|right; reflexivity].
  cbn [bind]. set (cur1 := cur + minutes APPOINTMENT_DURATION) in *.
  assert (Hm1 : cur mod US_PER_MINUTE = 0 -> cur1 mod US_PER_MINUTE = 0).
  { unfold cur1, minutes, APPOINTMENT_DURATION, US_PER_MINUTE.
    intros H. Z.div_mod_to_equations. lia. }
  assert (Hskip : forall cur2, cur1 <= cur2 -> 0 <= cur2 < MAX_US ->
            (cur1 mod US_PER_MINUTE = 0 -> cur2 mod US_PER_MINUTE = 0) ->
            (exists r, skip_weekend WEEKEND_FUEL cur2 = Ok r
                       /\ cur1 <= r /\ 0 <= r < MAX_US
                       /\ (cur mod US_PER_MINUTE = 0 -> r mod US_PER_MINUTE = 0))
            \/ skip_weekend WEEKEND_FUEL cur2 = Raise OverflowError).
  { intros cur2 Hle Hr2 Hm2.
    destruct (skip_weekend_spec WEEKEND_FUEL cur2 Hr2) as [(r & -> & H1 & H2 & H3)| -> ].
    - pose proof (weekday_range cur2). unfold WEEKEND_FUEL. lia.
    - left. exists r. repeat split; first [lia | tauto].
    - right. reflexivity. }
  destruct (WORKING_HOURS_END <=? hour cur1).
  - unfold date_add_days.
    destruct ((0 <? date_of cur1 + 1) && (date_of cur1 + 1 <=? MAXORDINAL)) eqn:E;
      [|right; reflexivity].
    cbn [bind]. rewrite opening_time. cbn [bind]. rewrite opening_time_of_day.
    apply andb_true_iff in E. destruct E as [E1 E2].
    apply Z.ltb_lt in E1. apply Z.leb_le in E2.
    set (cur2 := combine (date_of cur1 + 1) (hours WORKING_HOURS_START)).
    assert (H2 : cur1 <= cur2 /\ 0 <= cur2 < MAX_US
                 /\ cur2 mod US_PER_MINUTE = 0).
    { unfold cur2, combine, date_of, toordinal, hours, MAX_US,
        WORKING_HOURS_START, US_PER_DAY, US_PER_HOUR, US_PER_MINUTE, MAXORDINAL in *.
      repeat split; Z.div_mod_to_equations; lia. }
    destruct H2 as (Hle & Hr2 & Hm2).
    destruct (Hskip cur2 Hle Hr2 ltac:(tauto)) as [(r & -> & H1 & H2 & H3)| -> ].
    + left. exists r. repeat split; first [lia | exact H3].
    + right. reflexivity.
  - cbn [bind].
    destruct (Hskip cur1 ltac:(lia) Hr1 ltac:(tauto)) as [(r & -> & H1 & H2 & H3)| -> ].
    + left. exists r. repeat split; first [lia | exact H3].
    + right. reflexivity.
Qed.

Lemma increasing_after_weaken (l : list slot) (lo lo' : datetime) :
  lo' <= lo -> increasing_after lo l -> increasing_after lo' l.
Proof.
  destruct l as [|s l]; cbn [increasing_after]; [tauto|].
  intros Hle (dt & H1 & H2 & H3 & H4). exists dt. repeat split; try assumption. lia.
Qed.

Lemma len_app_one {A : Type} (l : list A) (a : A) : len (l ++ [a])%list = len l + 1.
Proof. unfold len. rewrite length_app. cbn [List.length]. lia. Qed.

(** What the loop returns: the suggestions it started with, followed by
    bookable slots later than [current_dt], in increasing order. *)
Lemma suggest_loop_spec (clk : clock) (db : table) (num : Z) (fuel : nat) :
  forall tick cur suggestions l tick',
  cur mod US_PER_MINUTE = 0 ->
  suggest_loop fuel clk tick db num cur suggestions = (Ok l, tick') ->
  exists extra,
    l = (suggestions ++ extra)%list
    /\ increasing_after cur extra
    /\ Z.min num 10 <= len l
    /\ len l <= Z.max (len suggestions) (Z.min num 10)
    /\ (tick + List.length extra <= tick')%nat.
Proof.
  induction fuel as [|fuel IH]; intros tick cur sugg l tick' Hm H;
    cbn [suggest_loop] in H;
    destruct (Z.ltb_spec (len sugg) num) as [C1|C1];
    destruct (Z.ltb_spec (len sugg) 10) as [C2|C2]; cbn [andb] in H;
    try discriminate;
    try (injection H as <- <-; exists []; rewrite app_nil_r;
         cbn [increasing_after List.length]; repeat split; lia).
  destruct (next_candidate_spec cur) as [(r & Hn & Hlt & Hr & Hmr)|Hn];
    rewrite Hn in H; [|discriminate].
  specialize (Hmr Hm).
  assert (Hstep : cur < r) by (unfold minutes, APPOINTMENT_DURATION, US_PER_MINUTE in Hlt; lia).
  destruct (is_available (clk tick) db (strftime_Ymd r) (strftime_HM r)) eqn:Ha.
  - destruct (IH _ _ _ _ _ Hmr H) as (extra & -> & Hinc & Hlo & Hhi & Ht).
    exists ((strftime_Ymd r, strftime_HM r) :: extra).
    rewrite <- app_assoc in *. cbn [app] in *.
    rewrite len_app_one in Hhi.
    repeat split; try lia; [|cbn [List.length]; lia].
    cbn [increasing_after]. exists r.
    apply is_available_true in Ha. destruct Ha as [Hv _].
    apply valid_datetime_true in Hv.
    destruct Hv as (dt & limit & Hp & _ & _ & Hb).
    assert (Hrt : slot_instant (strftime_Ymd r, strftime_HM r) = Ok r)
      by (apply strptime_strftime; assumption).
    unfold slot_instant in Hrt. cbn [fst snd] in Hrt.
    rewrite Hrt in Hp. apply Ok_inj in Hp. subst dt.
    repeat split; assumption.
  - destruct (IH _ _ _ _ _ Hmr H) as (extra & -> & Hinc & Hlo & Hhi & Ht).
    exists extra. repeat split; try lia.
    apply (increasing_after_weaken _ r); [lia | exact Hinc].
Qed.

(** Enough fuel: one unit for every step of the appointment duration that
    fits between [current_dt] and the end of the calendar. *)
Lemma suggest_loop_fuel (clk : clock) (db : table) (num : Z) (fuel : nat) :
  forall tick cur suggestions,
  cur < MAX_US ->
  MAX_US - cur < Z.of_nat fuel * minutes APPOINTMENT_DURATION ->
  fst (suggest_loop fuel clk tick db num cur suggestions) <> OutOfFuel.
Proof.
  induction fuel as [|fuel IH]; intros tick cur sugg Hc Hf.
  - unfold minutes, APPOINTMENT_DURATION, US_PER_MINUTE in Hf. lia.
  - cbn [suggest_loop].
    destruct ((len sugg <? num) && (len sugg <? 10)); [|discriminate].
    destruct (next_candidate_spec cur) as [(r & -> & Hlt & Hr & _)| -> ];
      [|discriminate].
    assert (Hf' : MAX_US - r < Z.of_nat fuel * minutes APPOINTMENT_DURATION).
    { unfold minutes, APPOINTMENT_DURATION, US_PER_MINUTE in *. lia. }
    destruct (is_available _ _ _ _); apply IH; lia.
Qed.

(** More fuel does not change a result. *)
Lemma suggest_loop_more_fuel (clk : clock) (db : table) (num : Z) (fuel : nat) :
  forall extra tick cur suggestions,
  fst (suggest_loop fuel clk tick db num cur suggestions) <> OutOfFuel ->
  suggest_loop (fuel + extra) clk tick db num cur suggestions
  = suggest_loop fuel clk tick db num cur suggestions.
Proof.
  induction fuel as [|fuel IH]; intros extra tick cur sugg H.
  - cbn [suggest_loop] in H. cbn [Nat.add].
    destruct extra as [|extra]; [reflexivity|]. cbn [suggest_loop].
    destruct ((len sugg <? num) && (len sugg <? 10)); [|reflexivity].
    cbn [fst] in H. contradiction.
  - cbn [Nat.add suggest_loop] in *.
    destruct ((len sugg <? num) && (len sugg <? 10)); [|reflexivity].
    destruct (next_candidate cur); try reflexivity.
    destruct (is_available _ _ _ _); apply IH; exact H.
Qed.

Lemma suggest_alternative_slots_parsed (fuel : nat) (clk : clock) (db : table)
    (date time : string) (num : Z) (preferred_dt : datetime) :
  strptime_Ymd_HM (date ++ " " ++ time) = Ok preferred_dt ->
  suggest_alternative_slots fuel clk db date time num
  = (except_Exception
       (fst (suggest_loop fuel clk 0 db num preferred_dt [])) [],
     snd (suggest_loop fuel clk 0 db num preferred_dt [])).
Proof.
  intros Hp. unfold suggest_alternative_slots. rewrite Hp.
  destruct (suggest_loop fuel clk 0 db num preferred_dt []). reflexivity.
Qed.

Lemma suggest_alternative_slots_unparsed (fuel : nat) (clk : clock) (db : table)
    (date time : string) (num : Z) :
  (forall dt, strptime_Ymd_HM (date ++ " " ++ time) <> Ok dt) ->
  suggest_alternative_slots fuel clk db date time num = (Ok [], 0%nat).
Proof.
  intros Hp. unfold suggest_alternative_slots.
  destruct (strptime_Ymd_HM_cases (date ++ " " ++ time)) as [[dt H]|H].
  - destruct (Hp dt H).
  - rewrite H. reflexivity.
Qed.

(** What a returned list looks like. *)
Lemma suggest_alternative_slots_Ok (fuel : nat) (clk : clock) (db : table)
    (date time : string) (num : Z) (l : list slot) (k : nat) :
  suggest_alternative_slots fuel clk db date time num = (Ok l, k) ->
  l = []
  \/ exists preferred_dt,
       strptime_Ymd_HM (date ++ " " ++ time) = Ok preferred_dt
       /\ increasing_after preferred_dt l
       /\ len l = Z.min num 10
       /\ (List.length l <= k)%nat.
Proof.
  intros H.
  destruct (strptime_Ymd_HM_cases (date ++ " " ++ time)) as [[p Hp]|Hp].
  - rewrite (suggest_alternative_slots_parsed _ _ _ _ _ _ _ Hp) in H.
    destruct (suggest_loop fuel clk 0 db num p []) as [o k'] eqn:E.
    cbn [fst snd] in H.
    destruct o as [l'|e|]; cbn [except_Exception] in H.
    + assert (l' = l /\ k' = k) as [-> ->] by (split; congruence).
      apply suggest_loop_spec in E;
        [|apply strptime_Ymd_HM_Ok in Hp; tauto].
      destruct E as (extra & -> & Hinc & Hlo & Hhi & Ht). cbn [app] in *.
      destruct (Z.leb_spec 0 (Z.min num 10)).
      * right. exists p. unfold len in *. cbn [List.length] in Hhi.
        repeat split; first [assumption | lia].
      * left. unfold len in *. cbn [List.length] in Hhi.
        destruct extra; [reflexivity | cbn [List.length] in Hhi; lia].
    + left. congruence.
    + discriminate.
  - unfold suggest_alternative_slots in H. rewrite Hp in H. left. congruence.
Qed.

Lemma increasing_after_Forall (l : list slot) :
  forall lo, increasing_after lo l ->
  Forall (fun s => exists dt, slot_instant s = Ok dt
                              /\ lo + minutes APPOINTMENT_DURATION <= dt
                              /\ bookable dt = true) l.
Proof.
  induction l as [|s l IH]; intros lo H; constructor.
  - destruct H as (dt & H1 & H2 & H3 & _). exists dt. auto.
  - destruct H as (dt & H1 & H2 & H3 & H4).
    apply IH. apply (increasing_after_weaken _ dt); [|exact H4].
    unfold minutes, APPOINTMENT_DURATION, US_PER_MINUTE in H2. lia.
Qed.

Lemma increasing_after_sorted (l : list slot) :
  forall lo, increasing_after lo l -> StronglySorted chrono_lt l.
Proof.
  induction l as [|s l IH]; intros lo H; constructor.
  - destruct H as (dt & _ & _ & _ & H4). exact (IH dt H4).
  - destruct H as (dt & H1 & _ & _ & H4).
    apply increasing_after_Forall in H4.
    apply (Forall_impl _ (P := fun s' => exists dt', slot_instant s' = Ok dt'
                                 /\ dt + minutes APPOINTMENT_DURATION <= dt'
                                 /\ bookable dt' = true));
      [|exact H4].
    intros s' (dt' & E & Hlt & _). exists dt, dt'. repeat split; try assumption.
    unfold minutes, APPOINTMENT_DURATION, US_PER_MINUTE in Hlt. lia.
Qed.

Lemma chrono_lt_irrefl (s : slot) : ~ chrono_lt s s.
Proof.
  intros (x & y & Hx & Hy & Hlt). rewrite Hx in Hy. apply Ok_inj in Hy. lia.
Qed.

Lemma sorted_NoDup (l : list slot) : StronglySorted chrono_lt l -> NoDup l.
Proof.
  induction 1 as [|s l Hs IH Hall]; constructor; [|exact IH].
  intros Hin. rewrite Forall_forall in Hall.
  exact (chrono_lt_irrefl s (Hall s Hin)).
Qed.

Lemma bookable_true (dt : datetime) :
  bookable dt = true ->
  WORKING_HOURS_START <= hour dt < WORKING_HOURS_END /\ 0 <= weekday dt <= 4.
Proof.
  unfold bookable. intros H.
  repeat (apply andb_true_iff in H; destruct H as [H ?]).
  apply Z.leb_le in H. pose proof (weekday_range dt). lia.
Qed.

(** Claim C4, as stated, fails: with the eleven slots after 09:00 taken on
    Monday 2025-01-06, the search for one alternative to 09:00 examines
    twelve candidates and returns the twelfth, 15:00. *)
Lemma suggest_examines_twelve_candidates :
  suggest_alternative_slots 12 friday_noon busy_monday "2025-01-06" "09:00" 1
  = (Ok [("2025-01-06", "15:00")], 12%nat).
Proof. vm_compute. reflexivity. Qed.

(** Claim C4, amended: the search ends: with the fuel [suggest_fuel] counts, or
    more, it returns a list, the same whatever the fuel; the list is empty
    or holds exactly min(num_suggestions, 10) slots, none of them unexamined.
    The constant 10 bounds the suggestions collected, not the candidates
    examined. *)
Theorem suggest_alternative_slots_terminates (fuel : nat) (clk : clock)
    (db : table) (date time : string) (num_suggestions : Z) :
  (suggest_fuel date time <= fuel)%nat ->
  exists l k,
    suggest_alternative_slots fuel clk db date time num_suggestions = (Ok l, k)
    /\ suggest_alternative_slots (suggest_fuel date time) clk db date time
         num_suggestions = (Ok l, k)
    /\ (l = [] \/ len l = Z.min num_suggestions 10)
    /\ (List.length l <= k)%nat.
Proof.
  intros Hfuel.
  assert (Hsame : suggest_alternative_slots fuel clk db date time num_suggestions
                  = suggest_alternative_slots (suggest_fuel date time) clk db
                      date time num_suggestions
                  /\ fst (suggest_alternative_slots (suggest_fuel date time) clk
                            db date time num_suggestions) <> OutOfFuel).
  { destruct (strptime_Ymd_HM_cases (date ++ " " ++ time)) as [[p Hp]|Hp].
    - rewrite !(suggest_alternative_slots_parsed _ _ _ _ _ _ _ Hp).
      assert (Hnf : fst (suggest_loop (suggest_fuel date time) clk 0 db
                           num_suggestions p []) <> OutOfFuel).
      { apply suggest_loop_fuel.
        - pose proof (strptime_Ymd_HM_Ok _ _ Hp) as Hb. lia.
        - pose proof (strptime_Ymd_HM_Ok _ _ Hp) as Hb.
          unfold suggest_fuel. rewrite Hp.
          unfold minutes, APPOINTMENT_DURATION, US_PER_MINUTE, MAX_US,
            MAXORDINAL, US_PER_DAY in *.
          rewrite Nat2Z.inj_succ, Z2Nat.id
            by (apply Z.div_pos; lia).
          Z.div_mod_to_equations. lia. }
      split.
      + replace fuel with (suggest_fuel date time
                           + (fuel - suggest_fuel date time))%nat by lia.
        rewrite suggest_loop_more_fuel by exact Hnf. reflexivity.
      + cbn [fst]. destruct (fst (suggest_loop _ _ _ _ _ _ _));
          cbn [except_Exception]; [discriminate|discriminate|contradiction].
    - assert (Hno : forall dt, strptime_Ymd_HM (date ++ " " ++ time) <> Ok dt)
        by (intros dt; rewrite Hp; discriminate).
      rewrite !(suggest_alternative_slots_unparsed _ _ _ _ _ _ Hno).
      split; [reflexivity | discriminate]. }
  destruct Hsame as [Hsame Hnf]. rewrite Hsame.
  destruct (suggest_alternative_slots (suggest_fuel date time) clk db date time
              num_suggestions) as [o k] eqn:E.
  assert (Hok : exists l, o = Ok l).
  { cbn [fst] in Hnf. destruct o as [l|e|]; [exists l; reflexivity | | contradiction].
    exfalso. unfold suggest_alternative_slots in E.
    destruct (strptime_Ymd_HM (date ++ " " ++ time)); try discriminate.
    destruct (suggest_loop _ _ _ _ _ _ _) as [[| |] ?]; discriminate. }
  destruct Hok as [l ->]. exists l, k.
  destruct (suggest_alternative_slots_Ok _ _ _ _ _ _ _ _ E)
    as [->|(p & _ & _ & Hlen & Hk)].
  - repeat split; [left; reflexivity | cbn [List.length]; lia].
  - repeat split; [right; exact Hlen | exact Hk].
Qed.

Lemma suggest_alternative_slots_terminates_witness :
  (suggest_fuel "9999-12-30" "09:00" <= 100)%nat
  /\ exists l k,
       suggest_alternative_slots 100 friday_noon [] "9999-12-30" "09:00" 2
       = (Ok l, k)
       /\ suggest_alternative_slots (suggest_fuel "9999-12-30" "09:00")
            friday_noon [] "9999-12-30" "09:00" 2 = (Ok l, k)
       /\ (l = [] \/ len l = Z.min 2 10)
       /\ (List.length l <= k)%nat.
Proof.
  assert (H : (suggest_fuel "9999-12-30" "09:00" <= 100)%nat)
    by (apply Nat.leb_le; vm_compute; reflexivity).
  split; [exact H|].
  exact (suggest_alternative_slots_terminates 100 friday_noon []
           "9999-12-30" "09:00" 2 H).
Defined.

(** Claim C6: a returned list has at most [num_suggestions] entries (a count, not
    negative) and at most 10; each entry denotes an instant whose hour lies
    in the working hours and whose day is not a Saturday or a Sunday; no
    entry occurs twice; the entries are in strictly increasing chronological
    order. *)
Theorem suggest_alternative_slots_sound (fuel : nat) (clk : clock)
    (db : table) (date time : string) (num_suggestions : Z)
    (l : list slot) (k : nat) :
  suggest_alternative_slots fuel clk db date time num_suggestions = (Ok l, k) ->
  (0 <= num_suggestions -> len l <= num_suggestions)
  /\ len l <= 10
  /\ Forall (fun s => exists dt, slot_instant s = Ok dt
               /\ WORKING_HOURS_START <= hour dt < WORKING_HOURS_END
               /\ 0 <= weekday dt <= 4) l
  /\ NoDup l
  /\ StronglySorted chrono_lt l.
Proof.
  intros H.
  destruct (suggest_alternative_slots_Ok _ _ _ _ _ _ _ _ H)
    as [->|(p & Hp & Hinc & Hlen & _)].
  - repeat split; try (unfold len; cbn [List.length]; lia); constructor.
  - pose proof (increasing_after_sorted _ _ Hinc) as Hs.
    repeat split; try lia.
    + apply increasing_after_Forall in Hinc.
      apply (Forall_impl _ (P := fun s => exists dt, slot_instant s = Ok dt
                                   /\ p + minutes APPOINTMENT_DURATION <= dt
                                   /\ bookable dt = true));
        [|exact Hinc].
      intros s (dt & E & _ & Hb). exists dt. split; [exact E|].
      apply bookable_true. exact Hb.
    + apply sorted_NoDup. exact Hs.
    + exact Hs.
Qed.

Lemma suggest_alternative_slots_sound_witness :
  suggest_alternative_slots 5 friday_noon [monday_9am] "2025-01-03" "16:00" 3
  = (Ok [("2025-01-03", "16:30"); ("2025-01-06", "09:30");
         ("2025-01-06", "10:00")], 4%nat)
  /\ StronglySorted chrono_lt
       [("2025-01-03", "16:30"); ("2025-01-06", "09:30");
        ("2025-01-06", "10:00")].
Proof.
  assert (H : suggest_alternative_slots 5 friday_noon [monday_9am]
                "2025-01-03" "16:00" 3
              = (Ok [("2025-01-03", "16:30"); ("2025-01-06", "09:30");
                     ("2025-01-06", "10:00")], 4%nat))
    by (vm_compute; reflexivity).
  split; [exact H|].
  apply (suggest_alternative_slots_sound _ _ _ _ _ _ _ _ H).
Defined.

(** Claim C10: the requested pair is not in the list returned: every entry
    denotes an instant later than the requested one. *)
Theorem suggest_alternative_slots_skips_request (fuel : nat) (clk : clock)
    (db : table) (date time : string) (num_suggestions : Z)
    (l : list slot) (k : nat) :
  suggest_alternative_slots fuel clk db date time num_suggestions = (Ok l, k) ->
  ~ In (date, time) l
  /\ forall preferred_dt,
       strptime_Ymd_HM (date ++ " " ++ time) = Ok preferred_dt ->
       Forall (fun s => exists dt, slot_instant s = Ok dt
                 /\ preferred_dt + minutes APPOINTMENT_DURATION <= dt) l.
Proof.
  intros H.
  assert (Hall : forall preferred_dt,
            strptime_Ymd_HM (date ++ " " ++ time) = Ok preferred_dt ->
            Forall (fun s => exists dt, slot_instant s = Ok dt
                      /\ preferred_dt + minutes APPOINTMENT_DURATION <= dt) l).
  { intros p Hp.
    destruct (suggest_alternative_slots_Ok _ _ _ _ _ _ _ _ H)
      as [->|(p' & Hp' & Hinc & _)]; [constructor|].
    rewrite Hp in Hp'. apply Ok_inj in Hp'. subst p'.
    apply increasing_after_Forall in Hinc.
    apply (Forall_impl _ (P := fun s => exists dt, slot_instant s = Ok dt
                                 /\ p + minutes APPOINTMENT_DURATION <= dt
                                 /\ bookable dt = true));
      [|exact Hinc].
    intros s (dt & E & Hle & _). exists dt. auto. }
  split; [|exact Hall].
  intros Hin.
  destruct (suggest_alternative_slots_Ok _ _ _ _ _ _ _ _ H)
    as [->|(p & Hp & _)]; [destruct Hin|].
  specialize (Hall p Hp). rewrite Forall_forall in Hall.
  destruct (Hall _ Hin) as (dt & E & Hle).
  unfold slot_instant in E. cbn [fst snd] in E.
  rewrite Hp in E. apply Ok_inj in E. subst dt.
  unfold minutes, APPOINTMENT_DURATION, US_PER_MINUTE in Hle. lia.
Qed.

Lemma suggest_alternative_slots_skips_request_witness :
  suggest_alternative_slots 3 friday_noon [] "2025-01-06" "09:00" 2
  = (Ok [("2025-01-06", "09:30"); ("2025-01-06", "10:00")], 2%nat)
  /\ ~ In ("2025-01-06", "09:00")
          [("2025-01-06", "09:30"); ("2025-01-06", "10:00")].
Proof.
  assert (H : suggest_alternative_slots 3 friday_noon [] "2025-01-06" "09:00" 2
              = (Ok [("2025-01-06", "09:30"); ("2025-01-06", "10:00")], 2%nat))
    by (vm_compute; reflexivity).
  split; [exact H|].
  apply (suggest_alternative_slots_skips_request _ _ _ _ _ _ _ _ H).
Defined.

(** ** The scenarios of the specification

    Working hours 09:00 to 17:00, 30 minute steps, one hour of notice, the
    clock stopped on Friday 2025-01-03 at noon. *)

(** Booking a free slot succeeds; booking it again is refused. *)
Example scenario_book_twice :
  let r1 := schedule_appointment friday_noon [] "2025-01-03 12:00:00"
              "2025-01-06" "09:00" "Dr. Smith" "" in
  let r2 := schedule_appointment friday_noon (snd r1) "2025-01-03 12:00:05"
              "2025-01-06" "09:00" "Dr. Smith" "" in
  fst r1 = (true, "Appointment scheduled successfully")
  /\ r2 = ((false, "This time slot is not available"), snd r1)
  /\ is_available (friday_noon 0%nat) (snd r1) "2025-01-06" "09:00" = false.
Proof. vm_compute. repeat split. Qed.

(** Before opening, and on a Saturday. *)
Example scenario_invalid_requests :
  fst (schedule_appointment friday_noon [] "2025-01-03 12:00:00"
         "2025-01-06" "08:30" "Dr. Smith" "")
  = (false, "Invalid appointment date or time")
  /\ fst (schedule_appointment friday_noon [] "2025-01-03 12:00:00"
            "2025-01-04" "10:00" "Dr. Smith" "")
     = (false, "Invalid appointment date or time").
Proof. vm_compute. split; reflexivity. Qed.

(** Cancelling a slot that was never booked. *)
Example scenario_cancel_unbooked :
  cancel_appointment [] "2025-01-03 12:00:00" "2025-01-06" "11:00"
  = ((false, "No appointment found for the specified time"), []).
Proof. reflexivity. Qed.

(** Three alternatives to 09:00 when 09:00, 09:30 and 10:00 are taken. *)
Example scenario_three_alternatives :
  fst (suggest_alternative_slots 5 friday_noon
         [booked 1 "2025-01-06" "09:00"; booked 2 "2025-01-06" "09:30";
          booked 3 "2025-01-06" "10:00"] "2025-01-06" "09:00" 3)
  = Ok [("2025-01-06", "10:30"); ("2025-01-06", "11:00");
        ("2025-01-06", "11:30")].
Proof. vm_compute. reflexivity. Qed.

(** At the end of the calendar the search gives up: 16:30 on 9999-12-31 is
    free and is found, the next step leaves the calendar, and the list
    returned is empty. *)
Example suggest_at_calendar_end :
  is_available (friday_noon 0%nat) [] "9999-12-31" "16:30" = true
  /\ suggest_alternative_slots 5 friday_noon [] "9999-12-31" "16:00" 3
     = (Ok [], 1%nat).
Proof. vm_compute. split; reflexivity. Qed.

(** Without a starting date, on Friday 2025-01-03 at noon: 13:00 the same
    day, the tenth reading of the clock. *)
Example scenario_next_slot_today :
  get_next_available_slot friday_noon [] None
  = (Ok (Some ("2025-01-03", "13:00")), 10%nat).
Proof. vm_compute. reflexivity. Qed.

(** In the last hour of the calendar [now + notice] does not exist: the
    validator raises, and [is_available] answers false. *)
Example validator_at_calendar_end :
  _is_valid_datetime (instant "9999-12-31 23:30") "2025-01-06" "09:00"
  = Raise OverflowError
  /\ is_available (instant "9999-12-31 23:30") [] "2025-01-06" "09:00" = false.
Proof. vm_compute. split; reflexivity. Qed.

(** * Further properties *)

(** ** Further properties of the store *)

Lemma rowcount_count (db : DatabaseManager.table) (date time : string) :
  DatabaseManager.rowcount db date time = Z.of_nat (count_scheduled db date time).
Proof. reflexivity. Qed.

Lemma update_appointment_notes_rows
    (db : DatabaseManager.table) (ts date time notes : string) :
  Forall2 (noted_row ts date time notes) db
    (snd (DatabaseManager.update_appointment_notes db ts date time notes)).
Proof.
  unfold DatabaseManager.update_appointment_notes. cbn [snd].
  induction db as [|r db IH]; cbn [map]; constructor; [|exact IH].
  unfold noted_row. destruct (DatabaseManager.scheduled_at date time r).
  - repeat split.
  - reflexivity.
Qed.

Lemma update_appointment_notes_no_match
    (db : DatabaseManager.table) (ts date time notes : string) :
  count_scheduled db date time = 0%nat ->
  snd (DatabaseManager.update_appointment_notes db ts date time notes) = db.
Proof.
  unfold DatabaseManager.update_appointment_notes, count_scheduled. cbn [snd].
  induction db as [|r db IH]; [reflexivity|]. cbn [map filter].
  destruct (DatabaseManager.scheduled_at date time r) eqn:E.
  - cbn [List.length]. discriminate.
  - intros H. rewrite (IH H). reflexivity.
Qed.

Lemma count_scheduled_map_eq (f : Row.t -> Row.t) (db : DatabaseManager.table)
    (d t : string) :
  (forall r, DatabaseManager.scheduled_at d t (f r)
             = DatabaseManager.scheduled_at d t r) ->
  count_scheduled (map f db) d t = count_scheduled db d t.
Proof.
  intros Hf. unfold count_scheduled.
  induction db as [|r db IH]; [reflexivity|]. cbn [map filter].
  rewrite Hf. destruct (DatabaseManager.scheduled_at d t r);
    cbn [List.length]; rewrite IH; reflexivity.
Qed.

(** Property X1: update_appointment_notes at a key with a scheduled appointment
    succeeds, writes the notes and the time stamp of the update on the
    scheduled rows of the key and leaves every other row, and every other
    column, as it was; at a key with no scheduled appointment (never booked
    or cancelled) it fails with the not-found message and leaves the store
    as it was. *)
Theorem update_appointment_notes_spec
    (db : AppointmentManager.table) (ts date time notes : string) :
  let r := AppointmentManager.update_appointment_notes db ts date time notes in
  (has_scheduled db date time ->
     fst r = (true, "Appointment notes updated successfully")
     /\ Forall2 (noted_row ts date time notes) db (snd r)
     /\ (forall d t, count_scheduled (snd r) d t = count_scheduled db d t))
  /\ (~ has_scheduled db date time ->
     r = ((false, "No appointment found for the specified time"), db)).
Proof.
  cbv zeta. unfold AppointmentManager.update_appointment_notes. split.
  - intros Hs. apply has_scheduled_count in Hs.
    pose proof (update_appointment_notes_rows db ts date time notes) as Hrows.
    unfold DatabaseManager.update_appointment_notes in *. cbn [snd] in Hrows.
    rewrite rowcount_count.
    replace (0 <? Z.of_nat (count_scheduled db date time)) with true
      by (symmetry; apply Z.ltb_lt; lia).
    cbn [fst snd]. repeat split; [exact Hrows|].
    intros d t. apply count_scheduled_map_eq. intros r.
    destruct (DatabaseManager.scheduled_at date time r); reflexivity.
  - intros Hs. rewrite has_scheduled_count in Hs.
    assert (H0 : count_scheduled db date time = 0%nat) by lia.
    pose proof (update_appointment_notes_no_match db ts date time notes H0) as E.
    unfold DatabaseManager.update_appointment_notes in *. cbn [snd] in E.
    rewrite E, rowcount_count, H0. reflexivity.
Qed.

Lemma update_appointment_notes_spec_witness :
  has_scheduled [monday_9am] "2025-01-06" "09:00"
  /\ fst (AppointmentManager.update_appointment_notes [monday_9am]
            "2025-01-05 08:00:00" "2025-01-06" "09:00" "fasting")
     = (true, "Appointment notes updated successfully").
Proof.
  assert (H : has_scheduled [monday_9am] "2025-01-06" "09:00").
  { exists monday_9am. split; [left; reflexivity | reflexivity]. }
  split; [exact H|].
  exact (proj1 (proj1 (update_appointment_notes_spec [monday_9am]
                         "2025-01-05 08:00:00" "2025-01-06" "09:00" "fasting")
                  H)).
Defined.

(** *** Operations and keys *)

Lemma scheduled_at_other_key (date time d t : string) (r : Row.t) :
  (d, t) <> (date, time) ->
  DatabaseManager.scheduled_at date time r = true ->
  DatabaseManager.scheduled_at d t r = false.
Proof.
  intros Hne Hs. apply scheduled_at_iff in Hs. destruct Hs as (Hd & Ht & _).
  destruct (DatabaseManager.scheduled_at d t r) eqn:E; [|reflexivity].
  apply scheduled_at_iff in E. destruct E as (Hd' & Ht' & _).
  exfalso. apply Hne. congruence.
Qed.

Lemma cancel_appointment_other_key
    (db : DatabaseManager.table) (ts date time d t : string) :
  (d, t) <> (date, time) ->
  count_scheduled (snd (DatabaseManager.cancel_appointment db ts date time)) d t
  = count_scheduled db d t.
Proof.
  intros Hne. unfold DatabaseManager.cancel_appointment. cbn [snd].
  apply count_scheduled_map_eq. intros r.
  destruct (DatabaseManager.scheduled_at date time r) eqn:E; [|reflexivity].
  rewrite (scheduled_at_other_key _ _ _ _ _ Hne E).
  unfold DatabaseManager.scheduled_at, DatabaseManager.set_cancelled.
  cbn [Row.date Row.time Row.status].
  replace ("cancelled" =? "scheduled")%string with false by reflexivity.
  apply andb_false_r.
Qed.

Lemma add_appointment_other_key
    (db : DatabaseManager.table) (ts date time doctor notes d t : string) :
  (d, t) <> (date, time) ->
  count_scheduled (snd (DatabaseManager.add_appointment db ts date time
                          doctor notes)) d t
  = count_scheduled db d t.
Proof.
  intros Hne. rewrite add_appointment_count.
  destruct ((date =? d)%string && (time =? t)%string) eqn:E; [|lia].
  apply andb_true_iff in E. destruct E as [E1 E2].
  apply String.eqb_eq in E1, E2. exfalso. apply Hne. congruence.
Qed.

(** Property X2: an operation of the engine touches its own key only: at every other
    pair of strings the number of scheduled appointments, and so the answer
    of the occupancy check, is what it was.  Keys are compared as strings:
    this holds also for another spelling of the same instant. *)
Theorem operations_touch_own_key
    (db : AppointmentManager.table) (date time d t : string) :
  (d, t) <> (date, time) ->
  (forall clk ts doctor notes,
      count_scheduled (snd (schedule_appointment clk db ts date time doctor notes))
        d t = count_scheduled db d t)
  /\ (forall ts,
      count_scheduled (snd (cancel_appointment db ts date time)) d t
      = count_scheduled db d t)
  /\ (forall ts notes,
      count_scheduled (snd (update_appointment_notes db ts date time notes)) d t
      = count_scheduled db d t).
Proof.
  intros Hne. split; [|split].
  - intros clk ts doctor notes.
    destruct (schedule_appointment_cases clk db ts date time doctor notes)
      as [->|(_ & _ & _ & ->)]; [reflexivity|].
    cbn [snd]. apply add_appointment_other_key. exact Hne.
  - intros ts. unfold cancel_appointment.
    pose proof (cancel_appointment_other_key db ts date time d t Hne) as H.
    destruct (DatabaseManager.cancel_appointment db ts date time) as [[|] db'];
      exact H.
  - intros ts notes. unfold update_appointment_notes.
    assert (H : count_scheduled
                  (snd (DatabaseManager.update_appointment_notes db ts date
                          time notes)) d t = count_scheduled db d t).
    { unfold DatabaseManager.update_appointment_notes. cbn [snd].
      apply count_scheduled_map_eq. intros r.
      destruct (DatabaseManager.scheduled_at date time r); reflexivity. }
    destruct (DatabaseManager.update_appointment_notes db ts date time notes)
      as [[|] db']; exact H.
Qed.

Lemma operations_touch_own_key_witness :
  ("2025-1-6", "9:00") <> ("2025-01-06", "09:00")
  /\ count_scheduled
       (snd (schedule_appointment friday_noon [] "2025-01-03 12:00:00"
               "2025-01-06" "09:00" "Dr. Smith" "")) "2025-1-6" "9:00"
     = count_scheduled [] "2025-1-6" "9:00".
Proof.
  assert (H : ("2025-1-6", "9:00") <> ("2025-01-06", "09:00")) by discriminate.
  split; [exact H|].
  exact (proj1 (operations_touch_own_key [] "2025-01-06" "09:00"
                  "2025-1-6" "9:00" H)
           friday_noon "2025-01-03 12:00:00" "Dr. Smith" "").
Defined.

(** *** Primary keys *)





(** ** Booking *)

(** Property X4: schedule_appointment succeeds exactly when the pair is valid at both
    readings of the clock and the store holds no scheduled appointment at the
    key; it then appends one scheduled row carrying the arguments and leaves
    the rows already there untouched.  Whenever it fails, the store is the
    one it was given. *)
Theorem schedule_appointment_outcome (clk : clock) (db : table)
    (ts date time doctor notes : string) :
  let r := schedule_appointment clk db ts date time doctor notes in
  (fst (fst r) = true <->
     _is_valid_datetime (clk 0%nat) date time = Ok true
     /\ _is_valid_datetime (clk 1%nat) date time = Ok true
     /\ DatabaseManager.check_availability db date time = true)
  /\ (fst (fst r) = true ->
      r = ((true, "Appointment scheduled successfully"),
           (db ++ [new_row db ts date time doctor notes])%list))
  /\ (fst (fst r) = false -> snd r = db).
Proof.
  cbv zeta. unfold schedule_appointment, is_available.
  destruct (_is_valid_datetime (clk 0%nat) date time) as [[|]|e|];
    cbn [negb fst snd];
    try (split; [split; [discriminate | intros (H & _); discriminate]
                |split; [discriminate | reflexivity]]).
  destruct (_is_valid_datetime (clk 1%nat) date time) as [[|]|e|];
    cbn [negb fst snd];
    try (split; [split; [discriminate | intros (_ & H & _); discriminate]
                |split; [discriminate | reflexivity]]).
  destruct (DatabaseManager.check_availability db date time);
    cbn [negb fst snd DatabaseManager.add_appointment].
  - split; [split; [intros _; repeat split | reflexivity]|].
    split; [reflexivity | discriminate].
  - split; [split; [discriminate | intros (_ & _ & H); discriminate]|].
    split; [discriminate | reflexivity].
Qed.

Lemma schedule_appointment_outcome_witness :
  fst (fst (schedule_appointment friday_noon [] "2025-01-03 12:00:00"
              "2025-01-06" "09:00" "Dr. Smith" "")) = true
  /\ schedule_appointment friday_noon [] "2025-01-03 12:00:00"
       "2025-01-06" "09:00" "Dr. Smith" ""
     = ((true, "Appointment scheduled successfully"),
        ([] ++ [new_row [] "2025-01-03 12:00:00" "2025-01-06" "09:00"
                  "Dr. Smith" ""])%list).
Proof.
  assert (H : fst (fst (schedule_appointment friday_noon []
                          "2025-01-03 12:00:00" "2025-01-06" "09:00"
                          "Dr. Smith" "")) = true)
    by (vm_compute; reflexivity).
  split; [exact H|].
  exact (proj1 (proj2 (schedule_appointment_outcome friday_noon []
                         "2025-01-03 12:00:00" "2025-01-06" "09:00"
                         "Dr. Smith" "")) H).
Defined.

Lemma schedule_appointment_success (clk : clock) (db : table)
    (ts date time doctor notes : string) :
  fst (fst (schedule_appointment clk db ts date time doctor notes)) = true ->
  snd (schedule_appointment clk db ts date time doctor notes)
  = snd (DatabaseManager.add_appointment db ts date time doctor notes)
  /\ _is_valid_datetime (clk 0%nat) date time = Ok true.
Proof.
  intros H.
  destruct (schedule_appointment_cases clk db ts date time doctor notes)
    as [E|(_ & Hv & _ & E)].
  - exfalso. revert H E. unfold schedule_appointment.
    destruct (_is_valid_datetime (clk 0%nat) date time) as [[|]|e|];
      cbn [negb fst snd]; try discriminate.
    destruct (is_available (clk 1%nat) db date time);
      cbn [negb fst snd DatabaseManager.add_appointment]; try discriminate.
    intros _ E. apply (f_equal (@List.length Row.t)) in E.
    rewrite length_app in E. cbn [List.length] in E. lia.
  - rewrite E. split; [reflexivity | exact Hv].
Qed.

Lemma count_scheduled_zero_cases (db : DatabaseManager.table) (date time : string) :
  DatabaseManager.check_availability db date time = false <->
  (0 < count_scheduled db date time)%nat.
Proof.
  unfold DatabaseManager.check_availability, count_scheduled.
  rewrite Z.eqb_neq. lia.
Qed.

Lemma is_available_occupied (now : datetime) (db : table) (date time : string) :
  DatabaseManager.check_availability db date time = false ->
  is_available now db date time = false.
Proof.
  intros H. destruct (is_available now db date time) eqn:E; [|reflexivity].
  apply is_available_true in E. destruct E as [_ E]. congruence.
Qed.

Lemma schedule_appointment_occupied (clk : clock) (db : table)
    (ts date time doctor notes : string) :
  DatabaseManager.check_availability db date time = false ->
  fst (fst (schedule_appointment clk db ts date time doctor notes)) = false
  /\ snd (schedule_appointment clk db ts date time doctor notes) = db.
Proof.
  intros H. unfold schedule_appointment.
  rewrite (is_available_occupied _ _ _ _ H).
  destruct (_is_valid_datetime (clk 0%nat) date time) as [[|]|e|];
    cbn [negb fst snd]; split; reflexivity.
Qed.

(** Property X5: once schedule_appointment has succeeded for a slot, is_available
    answers false for that slot at every later reading of the clock, and a
    second schedule_appointment for it fails, whatever the clock, and leaves
    the store as it is. *)
Theorem schedule_appointment_occupies (clk : clock) (db : table)
    (ts date time doctor notes : string) :
  fst (fst (schedule_appointment clk db ts date time doctor notes)) = true ->
  let db' := snd (schedule_appointment clk db ts date time doctor notes) in
  (forall now, is_available now db' date time = false)
  /\ (forall clk' ts' doctor' notes',
        fst (fst (schedule_appointment clk' db' ts' date time doctor' notes'))
        = false
        /\ snd (schedule_appointment clk' db' ts' date time doctor' notes')
           = db').
Proof.
  intros H. cbv zeta.
  destruct (schedule_appointment_success _ _ _ _ _ _ _ H) as [E _]. rewrite E.
  assert (Hocc : DatabaseManager.check_availability
                   (snd (DatabaseManager.add_appointment db ts date time
                           doctor notes)) date time = false).
  { apply count_scheduled_zero_cases. rewrite add_appointment_count.
    rewrite !String.eqb_refl. cbn [andb]. lia. }
  split.
  - intros now. apply is_available_occupied. exact Hocc.
  - intros clk' ts' doctor' notes'. apply schedule_appointment_occupied.
    exact Hocc.
Qed.

Lemma schedule_appointment_occupies_witness :
  fst (fst (schedule_appointment friday_noon [] "2025-01-03 12:00:00"
              "2025-01-06" "09:00" "Dr. Smith" "")) = true
  /\ forall now,
       is_available now
         (snd (schedule_appointment friday_noon [] "2025-01-03 12:00:00"
                 "2025-01-06" "09:00" "Dr. Smith" ""))
         "2025-01-06" "09:00" = false.
Proof.
  assert (H : fst (fst (schedule_appointment friday_noon []
                          "2025-01-03 12:00:00" "2025-01-06" "09:00"
                          "Dr. Smith" "")) = true)
    by (vm_compute; reflexivity).
  split; [exact H|].
  exact (proj1 (schedule_appointment_occupies friday_noon []
                  "2025-01-03 12:00:00" "2025-01-06" "09:00" "Dr. Smith" "" H)).
Defined.

(** Property X6: after cancel_appointment, successful or not, the slot is free in the
    store; a schedule_appointment for it then succeeds as soon as the pair
    is valid at the two readings of the clock, and the new row is appended
    after the rows kept, the cancelled ones among them. *)
Theorem cancel_then_schedule (db : table) (ts date time : string) :
  let db' := snd (cancel_appointment db ts date time) in
  DatabaseManager.check_availability db' date time = true
  /\ List.length db' = List.length db
  /\ forall clk ts' doctor notes,
       _is_valid_datetime (clk 0%nat) date time = Ok true ->
       _is_valid_datetime (clk 1%nat) date time = Ok true ->
       schedule_appointment clk db' ts' date time doctor notes
       = ((true, "Appointment scheduled successfully"),
          (db' ++ [new_row db' ts' date time doctor notes])%list).
Proof.
  cbv zeta.
  assert (E : snd (cancel_appointment db ts date time)
              = snd (DatabaseManager.cancel_appointment db ts date time)).
  { unfold cancel_appointment.
    destruct (DatabaseManager.cancel_appointment db ts date time) as [[|] db'];
      reflexivity. }
  rewrite E.
  assert (Hfree : DatabaseManager.check_availability
                    (snd (DatabaseManager.cancel_appointment db ts date time))
                    date time = true).
  { apply check_availability_count. apply count_scheduled_cancelled. }
  split; [exact Hfree|]. split.
  - unfold DatabaseManager.cancel_appointment. cbn [snd]. apply length_map.
  - intros clk ts' doctor notes H0 H1.
    unfold schedule_appointment, is_available. rewrite H0, H1, Hfree.
    reflexivity.
Qed.

Lemma cancel_then_schedule_witness :
  _is_valid_datetime (friday_noon 0%nat) "2025-01-06" "09:00" = Ok true
  /\ fst (schedule_appointment friday_noon
            (snd (cancel_appointment [monday_9am] "2025-01-03 11:00:00"
                    "2025-01-06" "09:00"))
            "2025-01-03 12:00:00" "2025-01-06" "09:00" "Dr. Jones" "")
     = (true, "Appointment scheduled successfully").
Proof.
  assert (H : _is_valid_datetime (friday_noon 0%nat) "2025-01-06" "09:00"
              = Ok true) by (vm_compute; reflexivity).
  split; [exact H|].
  rewrite (proj2 (proj2 (cancel_then_schedule [monday_9am]
                           "2025-01-03 11:00:00" "2025-01-06" "09:00"))
             friday_noon "2025-01-03 12:00:00" "Dr. Jones" "" H H).
  reflexivity.
Defined.

(** ** The validator over time *)

(** Property X7: validity only decays with time: a pair that is valid at a reading of
    the clock was valid at every earlier reading, so a pair that is not
    valid now (its notice is too short, or it lies outside working hours or
    on a weekend) is not valid at any later reading either. *)
Theorem validity_decays (now later : datetime) (date time : string) :
  0 <= now <= later ->
  _is_valid_datetime later date time = Ok true ->
  _is_valid_datetime now date time = Ok true.
Proof.
  intros Hle Hv. apply valid_datetime_true in Hv.
  destruct Hv as (dt & limit & Hp & Hl & Hlim & Hb).
  destruct (add_cases later (hours MIN_SCHEDULE_NOTICE)) as [[E Hr]|[E _]];
    rewrite E in Hl; [|discriminate].
  apply Ok_inj in Hl. subst limit.
  assert (Hn : add now (hours MIN_SCHEDULE_NOTICE)
               = Ok (now + hours MIN_SCHEDULE_NOTICE)).
  { apply add_in_range. unfold hours, MIN_SCHEDULE_NOTICE, US_PER_HOUR in *. lia. }
  rewrite (valid_datetime_parsed _ _ _ _ _ Hp Hn), Hb.
  replace (dt <? now + hours MIN_SCHEDULE_NOTICE) with false
    by (symmetry; apply Z.ltb_ge; lia).
  reflexivity.
Qed.

Lemma validity_decays_witness :
  0 <= instant "2025-01-02 08:00" <= instant "2025-01-03 12:00"
  /\ _is_valid_datetime (instant "2025-01-02 08:00") "2025-01-06" "09:00"
     = Ok true.
Proof.
  assert (H : 0 <= instant "2025-01-02 08:00" <= instant "2025-01-03 12:00")
    by (vm_compute; split; discriminate).
  split; [exact H|].
  apply (validity_decays _ (instant "2025-01-03 12:00") _ _ H).
  vm_compute. reflexivity.
Defined.

(** ** Listings *)

Lemma by_date_time_total (a b : Row.t) :
  DatabaseManager.by_date_time a b = true
  \/ DatabaseManager.by_date_time b a = true.
Proof.
  unfold DatabaseManager.by_date_time, String.ltb.
  rewrite (String.compare_antisym (Row.date b) (Row.date a)).
  destruct (String.compare (Row.date a) (Row.date b)) eqn:E; cbn [CompOpp orb].
  - apply String.compare_eq_iff in E. rewrite E, String.eqb_refl. cbn [andb].
    apply String.leb_total.
  - left. reflexivity.
  - right. reflexivity.
Qed.

Lemma by_date_time_le (a b : Row.t) :
  DatabaseManager.by_date_time a b = true -> date_time_le a b.
Proof.
  unfold DatabaseManager.by_date_time, date_time_le. intros H.
  apply orb_true_iff in H. destruct H as [H|H]; [left; exact H|].
  apply andb_true_iff in H. destruct H as [H1 H2].
  apply String.eqb_eq in H1. right. split; assumption.
Qed.

Lemma Sorted_impl {A : Type} (R S : A -> A -> Prop) (l : list A) :
  (forall a b, R a b -> S a b) -> Sorted R l -> Sorted S l.
Proof.
  intros HRS. induction 1 as [|a l Hs IH Hhd]; constructor; [exact IH|].
  destruct Hhd; constructor. apply HRS. assumption.
Qed.

(** Property X8: without a date (or with the empty string for a date) the listing is
    a rearrangement of the rows with status 'scheduled' whose date is not
    before today, as strings, in ascending order of date and, within a
    date, of time; no cancelled row and no row of an earlier date is in it. *)
Theorem get_appointments_upcoming (db : AppointmentManager.table) (today : string) :
  let l := AppointmentManager.get_appointments db today None in
  AppointmentManager.get_appointments db today (Some "") = l
  /\ Permutation l
       (filter (fun r => String.leb today (Row.date r)
                         && (Row.status r =? "scheduled")%string) db)
  /\ Sorted date_time_le l
  /\ Forall (fun r => String.leb today (Row.date r) = true
                      /\ Row.status r = "scheduled"
                      /\ Row.status r <> "cancelled" /\ In r db) l.
Proof.
  cbv zeta.
  unfold AppointmentManager.get_appointments, DatabaseManager.get_appointments.
  set (keep := fun r : Row.t => _).
  split; [reflexivity|]. split; [|split].
  - symmetry. apply order_by_perm.
  - apply (Sorted_impl (fun a b => DatabaseManager.by_date_time a b = true));
      [exact by_date_time_le|].
    apply order_by_sorted. exact by_date_time_total.
  - apply Forall_forall. intros r Hin.
    apply (Permutation_in r (Permutation_sym (order_by_perm _ _))) in Hin.
    apply filter_In in Hin. destruct Hin as [Hin Hk]. unfold keep in Hk.
    apply andb_true_iff in Hk. destruct Hk as [Hd Hs].
    apply String.eqb_eq in Hs. repeat split; try assumption.
    rewrite Hs. discriminate.
Qed.

Lemma strptime_needs_date (time : string) :
  strptime_Ymd_HM ("" ++ " " ++ time) = Raise ValueError.
Proof. destruct time as [|a [|b [|c t]]]; reflexivity. Qed.

Lemma valid_date_nonempty (now : datetime) (date time : string) :
  _is_valid_datetime now date time = Ok true -> date <> "".
Proof.
  intros H ->. apply valid_datetime_true in H.
  destruct H as (dt & _ & Hp & _). rewrite strptime_needs_date in Hp.
  discriminate.
Qed.

Lemma get_daily_schedule_In (db : table) (today date : string) (r : Row.t) :
  date <> "" ->
  (In r (get_daily_schedule db today date) <->
   In r db /\ Row.date r = date /\ Row.status r = "scheduled").
Proof.
  intros Hne. unfold get_daily_schedule, DatabaseManager.get_appointments.
  destruct date as [|c s]; [contradiction|].
  split.
  - intros Hin.
    apply (Permutation_in r (Permutation_sym (order_by_perm _ _))) in Hin.
    apply filter_In in Hin. destruct Hin as [Hin Hk].
    apply andb_true_iff in Hk. destruct Hk as [Hd Hs].
    apply String.eqb_eq in Hd, Hs. auto.
  - intros (Hin & Hd & Hs).
    apply (Permutation_in r (order_by_perm _ _)).
    apply filter_In. split; [exact Hin|].
    rewrite Hd, Hs, String.eqb_refl. reflexivity.
Qed.

(** Property X9: a booking shows in the schedule of its day and a cancellation takes
    it out: after a successful schedule_appointment the daily schedule of
    the date holds the new row, with the time, the doctor and the notes
    given; after cancel_appointment no row of the daily schedule has the
    cancelled time. *)
Theorem daily_schedule_follows (clk : clock) (db : table)
    (today ts ts' date time doctor notes : string) :
  fst (fst (schedule_appointment clk db ts date time doctor notes)) = true ->
  let db1 := snd (schedule_appointment clk db ts date time doctor notes) in
  let db2 := snd (cancel_appointment db1 ts' date time) in
  In (new_row db ts date time doctor notes) (get_daily_schedule db1 today date)
  /\ (forall r, In r (get_daily_schedule db2 today date) -> Row.time r <> time).
Proof.
  intros H. cbv zeta.
  destruct (schedule_appointment_success _ _ _ _ _ _ _ H) as [E Hv].
  pose proof (valid_date_nonempty _ _ _ Hv) as Hne.
  rewrite E. split.
  - apply get_daily_schedule_In; [exact Hne|]. split; [|split; reflexivity].
    unfold DatabaseManager.add_appointment. cbn [snd].
    apply in_or_app. right. left. reflexivity.
  - intros r Hin Ht.
    apply get_daily_schedule_In in Hin; [|exact Hne].
    destruct Hin as (Hin & Hd & Hs).
    assert (Hc : has_scheduled
                   (snd (cancel_appointment
                           (snd (DatabaseManager.add_appointment db ts date
                                   time doctor notes)) ts' date time))
                   date time).
    { exists r. split; [exact Hin|]. apply scheduled_at_iff. auto. }
    apply has_scheduled_count in Hc.
    assert (Ec : forall d0, snd (cancel_appointment d0 ts' date time)
                 = snd (DatabaseManager.cancel_appointment d0 ts' date time)).
    { intros d0. unfold cancel_appointment.
      destruct (DatabaseManager.cancel_appointment d0 ts' date time)
        as [[|] ?]; reflexivity. }
    rewrite Ec, count_scheduled_cancelled in Hc. lia.
Qed.

Lemma daily_schedule_follows_witness :
  fst (fst (schedule_appointment friday_noon [] "2025-01-03 12:00:00"
              "2025-01-06" "09:00" "Dr. Smith" "checkup")) = true
  /\ In (new_row [] "2025-01-03 12:00:00" "2025-01-06" "09:00" "Dr. Smith"
           "checkup")
        (get_daily_schedule
           (snd (schedule_appointment friday_noon [] "2025-01-03 12:00:00"
                   "2025-01-06" "09:00" "Dr. Smith" "checkup"))
           "2025-01-03" "2025-01-06").
Proof.
  assert (H : fst (fst (schedule_appointment friday_noon []
                          "2025-01-03 12:00:00" "2025-01-06" "09:00"
                          "Dr. Smith" "checkup")) = true)
    by (vm_compute; reflexivity).
  split; [exact H|].
  exact (proj1 (daily_schedule_follows friday_noon [] "2025-01-03"
                  "2025-01-03 12:00:00" "2025-01-03 13:00:00"
                  "2025-01-06" "09:00" "Dr. Smith" "checkup" H)).
Defined.

(** ** What the searches return can be booked *)

Lemma is_available_schedule (now : datetime) (db : table)
    (ts date time doctor notes : string) :
  is_available now db date time = true ->
  schedule_appointment (fun _ => now) db ts date time doctor notes
  = ((true, "Appointment scheduled successfully"),
     (db ++ [new_row db ts date time doctor notes])%list).
Proof.
  intros H. unfold schedule_appointment. rewrite H.
  apply is_available_true in H. destruct H as [Hv _]. rewrite Hv. reflexivity.
Qed.

(** Property X10: a slot returned by get_next_available_slot has one of the sixteen
    times of a day for its time and is free in the store; when the clock
    stands still, schedule_appointment for it succeeds. *)
Theorem next_available_slot_can_be_booked (clk : clock) (db : table)
    (date : option string) (d t : string) :
  fst (get_next_available_slot clk db date) = Ok (Some (d, t)) ->
  In t day_times
  /\ DatabaseManager.check_availability db d t = true
  /\ forall now ts doctor notes,
       (forall k, clk k = now) ->
       schedule_appointment clk db ts d t doctor notes
       = ((true, "Appointment scheduled successfully"),
          (db ++ [new_row db ts d t doctor notes])%list).
Proof.
  intros H.
  destruct (get_next_available_slot_cases clk db date)
    as [E|(tick & d0 & E)]; rewrite E in H; [discriminate|].
  apply Ok_inj in H. apply first_available_Some in H.
  destruct H as [Hin [k Hk]]. cbn [fst snd] in Hk.
  split; [|split].
  - unfold scan_order in Hin. apply in_flat_map in Hin.
    destruct Hin as (day & _ & Hin). apply in_map_iff in Hin.
    destruct Hin as (t' & E' & Ht). congruence.
  - apply is_available_true in Hk. tauto.
  - intros now ts doctor notes Hclk. rewrite Hclk in Hk.
    unfold schedule_appointment. rewrite !Hclk.
    exact (is_available_schedule now db ts d t doctor notes Hk).
Qed.

Lemma next_available_slot_can_be_booked_witness :
  fst (get_next_available_slot friday_noon [monday_9am] (Some "2025-01-04"))
  = Ok (Some ("2025-01-06", "09:30"))
  /\ DatabaseManager.check_availability [monday_9am] "2025-01-06" "09:30" = true.
Proof.
  assert (H : fst (get_next_available_slot friday_noon [monday_9am]
                     (Some "2025-01-04")) = Ok (Some ("2025-01-06", "09:30")))
    by (vm_compute; reflexivity).
  split; [exact H|].
  exact (proj1 (proj2 (next_available_slot_can_be_booked friday_noon
                         [monday_9am] (Some "2025-01-04")
                         "2025-01-06" "09:30" H))).
Defined.

Lemma suggest_loop_exact (clk : clock) (db : table) (num : Z) (fuel : nat) :
  forall tick cur suggestions l tick',
  suggest_loop fuel clk tick db num cur suggestions = (Ok l, tick') ->
  exists n,
    tick' = (tick + n)%nat
    /\ List.length (candidates n cur) = n
    /\ l = (suggestions ++ available_among clk tick db (candidates n cur))%list.
Proof.
  induction fuel as [|fuel IH]; intros tick cur sugg l tick' H;
    cbn [suggest_loop] in H;
    destruct ((len sugg <? num) && (len sugg <? 10));
    try discriminate;
    try (exists 0%nat; cbn [candidates available_among List.length];
         rewrite app_nil_r, Nat.add_0_r;
         repeat split; congruence).
  destruct (next_candidate cur) as [r|e|] eqn:Hn; try discriminate.
  destruct (is_available (clk tick) db (strftime_Ymd r) (strftime_HM r)) eqn:Ha;
    destruct (IH _ _ _ _ _ H) as (n & -> & Hlen & ->);
    exists (S n); cbn [candidates]; rewrite Hn;
    cbn [available_among List.length]; rewrite Ha, Hlen;
    repeat split; try lia.
  rewrite <- app_assoc. reflexivity.
Qed.

Lemma suggest_alternative_slots_exact (fuel : nat) (clk : clock) (db : table)
    (date time : string) (num : Z) (l : list slot) (k : nat) :
  suggest_alternative_slots fuel clk db date time num = (Ok l, k) ->
  l = []
  \/ exists preferred_dt,
       strptime_Ymd_HM (date ++ " " ++ time) = Ok preferred_dt
       /\ List.length (candidates k preferred_dt) = k
       /\ l = available_among clk 0 db (candidates k preferred_dt).
Proof.
  intros H.
  destruct (strptime_Ymd_HM_cases (date ++ " " ++ time)) as [[p Hp]|Hp].
  - rewrite (suggest_alternative_slots_parsed _ _ _ _ _ _ _ Hp) in H.
    destruct (suggest_loop fuel clk 0 db num p []) as [o k'] eqn:E.
    cbn [fst snd] in H.
    destruct o as [l'|e|]; cbn [except_Exception] in H.
    + assert (l' = l /\ k' = k) as [-> ->] by (split; congruence).
      apply suggest_loop_exact in E. destruct E as (n & -> & Hlen & ->).
      right. exists p. cbn [app Nat.add]. auto.
    + left. congruence.
    + discriminate.
  - unfold suggest_alternative_slots in H. rewrite Hp in H. left. congruence.
Qed.

Lemma available_among_In (clk : clock) (db : table) (cs : list datetime) :
  forall tick s,
  In s (available_among clk tick db cs) ->
  exists i, is_available (clk i) db (fst s) (snd s) = true.
Proof.
  induction cs as [|c cs IH]; intros tick s; cbn [available_among].
  - intros [].
  - destruct (is_available (clk tick) db (strftime_Ymd c) (strftime_HM c)) eqn:E.
    + intros [<-|Hin]; [exists tick; exact E | exact (IH _ _ Hin)].
    + apply IH.
Qed.

(** Property X11: a non-empty answer of suggest_alternative_slots is exact: with k
    candidates examined, it consists of the candidates, among the first k
    after the requested instant, that is_available accepted, in their
    order; no available candidate that was examined is left out, and the
    answer holds min(num_suggestions, 10) of them. *)
Theorem suggest_alternative_slots_complete (fuel : nat) (clk : clock)
    (db : table) (date time : string) (num_suggestions : Z)
    (l : list slot) (k : nat) :
  suggest_alternative_slots fuel clk db date time num_suggestions = (Ok l, k) ->
  l <> [] ->
  exists preferred_dt,
    strptime_Ymd_HM (date ++ " " ++ time) = Ok preferred_dt
    /\ List.length (candidates k preferred_dt) = k
    /\ l = available_among clk 0 db (candidates k preferred_dt)
    /\ len l = Z.min num_suggestions 10.
Proof.
  intros H Hne.
  destruct (suggest_alternative_slots_exact _ _ _ _ _ _ _ _ H)
    as [->|(p & Hp & Hlen & Hl)]; [contradiction|].
  exists p. repeat split; try assumption.
  destruct (suggest_alternative_slots_Ok _ _ _ _ _ _ _ _ H)
    as [->|(p' & _ & _ & Hmin & _)]; [contradiction | exact Hmin].
Qed.

Lemma suggest_alternative_slots_complete_witness :
  suggest_alternative_slots 5 friday_noon [monday_9am] "2025-01-03" "16:00" 3
  = (Ok [("2025-01-03", "16:30"); ("2025-01-06", "09:30");
         ("2025-01-06", "10:00")], 4%nat)
  /\ exists preferred_dt,
       strptime_Ymd_HM ("2025-01-03" ++ " " ++ "16:00") = Ok preferred_dt
       /\ List.length (candidates 4 preferred_dt) = 4%nat
       /\ [("2025-01-03", "16:30"); ("2025-01-06", "09:30");
           ("2025-01-06", "10:00")]
          = available_among friday_noon 0 [monday_9am]
              (candidates 4 preferred_dt)
       /\ len [("2025-01-03", "16:30"); ("2025-01-06", "09:30");
               ("2025-01-06", "10:00")] = Z.min 3 10.
Proof.
  assert (H : suggest_alternative_slots 5 friday_noon [monday_9am]
                "2025-01-03" "16:00" 3
              = (Ok [("2025-01-03", "16:30"); ("2025-01-06", "09:30");
                     ("2025-01-06", "10:00")], 4%nat))
    by (vm_compute; reflexivity).
  split; [exact H|].
  apply (suggest_alternative_slots_complete _ _ _ _ _ _ _ _ H). discriminate.
Defined.

(** Property X12: every slot suggest_alternative_slots returns is free in the store
    and passed the validity test at some reading of the clock; when the
    clock stands still, schedule_appointment succeeds for each of them. *)
Theorem suggested_slots_can_be_booked (fuel : nat) (clk : clock)
    (db : table) (date time : string) (num_suggestions : Z)
    (l : list slot) (k : nat) :
  suggest_alternative_slots fuel clk db date time num_suggestions = (Ok l, k) ->
  Forall (fun s =>
            DatabaseManager.check_availability db (fst s) (snd s) = true
            /\ (exists i, _is_valid_datetime (clk i) (fst s) (snd s) = Ok true)
            /\ forall now ts doctor notes,
                 (forall i, clk i = now) ->
                 schedule_appointment clk db ts (fst s) (snd s) doctor notes
                 = ((true, "Appointment scheduled successfully"),
                    (db ++ [new_row db ts (fst s) (snd s) doctor notes])%list))
    l.
Proof.
  intros H. apply Forall_forall. intros s Hin.
  destruct (suggest_alternative_slots_exact _ _ _ _ _ _ _ _ H)
    as [->|(p & _ & _ & ->)]; [destruct Hin|].
  apply available_among_In in Hin. destruct Hin as [i Hi].
  pose proof Hi as Hi'. apply is_available_true in Hi'. destruct Hi' as [Hv Hf].
  split; [exact Hf|]. split; [exists i; exact Hv|].
  intros now ts doctor notes Hclk. rewrite Hclk in Hi.
  unfold schedule_appointment. rewrite !Hclk.
  exact (is_available_schedule now db ts (fst s) (snd s) doctor notes Hi).
Qed.

Lemma suggested_slots_can_be_booked_witness :
  suggest_alternative_slots 3 friday_noon [] "2025-01-06" "09:00" 2
  = (Ok [("2025-01-06", "09:30"); ("2025-01-06", "10:00")], 2%nat)
  /\ Forall (fun s =>
       DatabaseManager.check_availability [] (fst s) (snd s) = true
       /\ (exists i, _is_valid_datetime (friday_noon i) (fst s) (snd s)
                     = Ok true)
       /\ forall now ts doctor notes,
            (forall i, friday_noon i = now) ->
            schedule_appointment friday_noon [] ts (fst s) (snd s) doctor notes
            = ((true, "Appointment scheduled successfully"),
               ([] ++ [new_row [] ts (fst s) (snd s) doctor notes])%list))
     [("2025-01-06", "09:30"); ("2025-01-06", "10:00")].
Proof.
  assert (H : suggest_alternative_slots 3 friday_noon [] "2025-01-06" "09:00" 2
              = (Ok [("2025-01-06", "09:30"); ("2025-01-06", "10:00")], 2%nat))
    by (vm_compute; reflexivity).
  split; [exact H|].
  exact (suggested_slots_can_be_booked _ _ _ _ _ _ _ _ H).
Defined.

(** ** The sample data script *)

Lemma count_scheduled_app_le (db extra : DatabaseManager.table) (d t : string) :
  (count_scheduled db d t <= count_scheduled (db ++ extra)%list d t)%nat.
Proof. rewrite count_scheduled_app. lia. Qed.

Lemma add_day_spec (date_str : string) (l : list (string * string * string)) :
  forall db ts j,
  exists extra,
    InitDb.add_day db ts j date_str l = (db ++ extra)%list
    /\ (slot_unique db -> slot_unique (db ++ extra)%list)
    /\ (forall time, In time (map (fun a => fst (fst a)) l) ->
          has_scheduled (db ++ extra)%list date_str time)
    /\ ((forall time, In time (map (fun a => fst (fst a)) l) ->
           has_scheduled db date_str time) -> extra = []).
Proof.
  induction l as [|[[time doctor] notes] l IH]; intros db ts j.
  - exists []. rewrite app_nil_r. cbn [InitDb.add_day map].
    repeat split; try tauto. intros time [].
  - cbn [InitDb.add_day map fst].
    destruct (DatabaseManager.check_availability db date_str time) eqn:Ha.
    + destruct (IH (snd (DatabaseManager.add_appointment db (ts j) date_str
                           time doctor notes)) ts (S j))
        as (extra & E & Hu & Hhas & _).
      unfold DatabaseManager.add_appointment in *. cbn [snd] in *.
      set (row := Row.make _ _ _ _ _ _ _ _) in *.
      exists (row :: extra).
      replace (db ++ row :: extra)%list with ((db ++ [row]) ++ extra)%list
        by (rewrite <- app_assoc; reflexivity).
      split; [exact E|]. split; [|split].
      * intros Hdb. apply Hu.
        exact (add_appointment_unique db (ts j) date_str time doctor notes
                 Hdb Ha).
      * intros time' [<-|Hin]; [|exact (Hhas time' Hin)].
        apply has_scheduled_count.
        pose proof (count_scheduled_app_le (db ++ [row])%list extra
                      date_str time) as Hle.
        pose proof (add_appointment_count db (ts j) date_str time doctor notes
                      date_str time) as Hc.
        unfold DatabaseManager.add_appointment in Hc. cbn [snd] in Hc.
        fold row in Hc. rewrite !String.eqb_refl in Hc. cbn [andb] in Hc. lia.
      * intros Hall. exfalso.
        specialize (Hall time (or_introl eq_refl)).
        apply has_scheduled_count in Hall.
        apply check_availability_count in Ha. lia.
    + destruct (IH db ts (S j)) as (extra & E & Hu & Hhas & Hnone).
      exists extra. split; [exact E|]. split; [exact Hu|]. split.
      * intros time' [<-|Hin]; [|exact (Hhas time' Hin)].
        apply has_scheduled_count.
        pose proof (count_scheduled_app_le db extra date_str time) as Hle.
        apply count_scheduled_zero_cases in Ha. lia.
      * intros Hall. apply Hnone. intros time' Hin. apply Hall. right. exact Hin.
Qed.

Lemma has_scheduled_app (db extra : DatabaseManager.table) (d t : string) :
  has_scheduled db d t -> has_scheduled (db ++ extra)%list d t.
Proof.
  intros (r & Hin & Hs). exists r. split; [|exact Hs].
  apply in_or_app. left. exact Hin.
Qed.

Lemma add_days_spec (today : datetime) (l : list nat) :
  forall db ts,
  exists extra,
    snd (InitDb.add_days db ts today l) = (db ++ extra)%list
    /\ (slot_unique db -> slot_unique (db ++ extra)%list)
    /\ (fst (InitDb.add_days db ts today l) = Ok tt ->
        forall i time, In i l -> In time sample_times ->
          has_scheduled (db ++ extra)%list
            (strftime_Ymd (today + days (Z.of_nat i))) time)
    /\ (fst (InitDb.add_days db ts today l) = Ok tt ->
        (forall i time, In i l -> In time sample_times ->
           has_scheduled db (strftime_Ymd (today + days (Z.of_nat i))) time) ->
        extra = []).
Proof.
  induction l as [|i l IH]; intros db ts.
  - exists []. rewrite app_nil_r. cbn [InitDb.add_days snd fst].
    repeat split; try tauto. intros _ i time [].
  - cbn [InitDb.add_days].
    destruct (add_cases today (days (Z.of_nat i))) as [[E _]|[E _]]; rewrite E.
    + destruct (add_day_spec (strftime_Ymd (today + days (Z.of_nat i)))
                  InitDb.appointments db (ts i) 0%nat)
        as (extra1 & E1 & Hu1 & Hhas1 & Hnone1).
      rewrite E1.
      destruct (IH (db ++ extra1)%list ts) as (extra2 & E2 & Hu2 & Hhas2 & Hnone2).
      exists (extra1 ++ extra2)%list. rewrite app_assoc.
      split; [exact E2|]. split; [tauto|]. split.
      * intros Hok i' time [<-|Hin] Ht.
        -- apply has_scheduled_app. apply Hhas1. exact Ht.
        -- exact (Hhas2 Hok i' time Hin Ht).
      * intros Hok Hall.
        assert (X1 : extra1 = []).
        { apply Hnone1. intros time Ht.
          apply (Hall i time (or_introl eq_refl)). exact Ht. }
        subst extra1. rewrite app_nil_r in *. cbn [app].
        apply (Hnone2 Hok). intros i' time Hin Ht.
        apply (Hall i' time (or_intror Hin) Ht).
    + exists []. rewrite app_nil_r. cbn [fst snd].
      repeat split; try tauto; discriminate.
Qed.

(** Property X13: the sample data script only appends rows: the store it leaves
    starts with the store it found, also when it is interrupted because
    today plus six days leaves the calendar; and a store with at most one
    scheduled appointment per (date, time) is left with that property. *)
Theorem initialize_database_safe (db : InitDb.table) (ts : nat -> nat -> string)
    (today : datetime) :
  exists extra,
    snd (InitDb.initialize_database db ts today) = (db ++ extra)%list
    /\ (slot_unique db ->
        slot_unique (snd (InitDb.initialize_database db ts today))).
Proof.
  unfold InitDb.initialize_database.
  destruct (add_days_spec today (seq 0 7) db ts) as (extra & E & Hu & _).
  exists extra. rewrite E. split; [reflexivity | exact Hu].
Qed.

Lemma initialize_database_safe_witness :
  slot_unique [monday_9am]
  /\ exists extra,
       snd (InitDb.initialize_database [monday_9am]
              (fun _ _ => "2025-01-03 12:00:00") (instant "2025-01-03 12:00"))
       = ([monday_9am] ++ extra)%list
       /\ (slot_unique [monday_9am] ->
           slot_unique
             (snd (InitDb.initialize_database [monday_9am]
                     (fun _ _ => "2025-01-03 12:00:00")
                     (instant "2025-01-03 12:00")))).
Proof.
  assert (H : slot_unique [monday_9am]).
  { intros d t. unfold count_scheduled. cbn [filter].
    destruct (DatabaseManager.scheduled_at d t monday_9am);
      cbn [List.length]; lia. }
  split; [exact H|].
  exact (initialize_database_safe [monday_9am]
           (fun _ _ => "2025-01-03 12:00:00") (instant "2025-01-03 12:00")).
Defined.

Lemma toordinal_add_days (x : datetime) (i : Z) :
  toordinal (x + days i) = toordinal x + i.
Proof.
  unfold toordinal, days, US_PER_DAY. rewrite Z.div_add by lia. lia.
Qed.

Lemma strftime_Ymd_same_day (a b : datetime) :
  toordinal a = toordinal b -> strftime_Ymd a = strftime_Ymd b.
Proof. intros H. unfold strftime_Ymd. rewrite H. reflexivity. Qed.

Lemma add_days_same_day (today today' : datetime) (i : Z) :
  date_of today' = date_of today ->
  match add today (days i) with
  | Ok a => exists b, add today' (days i) = Ok b
                      /\ strftime_Ymd b = strftime_Ymd a
  | _ => True
  end.
Proof.
  unfold date_of. intros Hd. unfold add.
  rewrite !toordinal_add_days, Hd.
  destruct ((0 <? toordinal today + i) && (toordinal today + i <=? MAXORDINAL));
    [|exact I].
  eexists. split; [reflexivity|].
  apply strftime_Ymd_same_day. rewrite !toordinal_add_days. lia.
Qed.

Lemma add_days_same_day_run (today today' : datetime) (l : list nat) :
  date_of today' = date_of today ->
  forall db db' ts ts',
  fst (InitDb.add_days db ts today l) = Ok tt ->
  (forall i time, In i l -> In time sample_times ->
     has_scheduled db' (strftime_Ymd (today + days (Z.of_nat i))) time) ->
  InitDb.add_days db' ts' today' l = (Ok tt, db').
Proof.
  intros Hd. induction l as [|i l IH]; intros db db' ts ts' Hok Hall;
    cbn [InitDb.add_days] in *; [reflexivity|].
  pose proof (add_days_same_day today today' (Z.of_nat i) Hd) as Hs.
  destruct (add_cases today (days (Z.of_nat i))) as [[E _]|[E _]];
    rewrite E in Hok, Hs; [|discriminate].
  destruct Hs as (b & Eb & Hb). rewrite Eb, Hb.
  destruct (add_day_spec (strftime_Ymd (today + days (Z.of_nat i)))
              InitDb.appointments db' (ts' i) 0%nat)
    as (extra & E1 & _ & _ & Hnone).
  rewrite (Hnone (fun time Ht => Hall i time (or_introl eq_refl) Ht)) in E1.
  rewrite app_nil_r in E1. rewrite E1.
  apply (IH _ db' ts ts' Hok). intros i' time Hin Ht.
  apply (Hall i' time (or_intror Hin) Ht).
Qed.

(** Property X14: when the sample data script runs to its end, each of the four
    sample times of each of the seven dates holds a scheduled appointment,
    and running the script again on the same day, at whatever time of the
    day and with whatever time stamps, adds nothing: the store is left as
    it is. *)
Theorem initialize_database_idempotent (db : InitDb.table)
    (ts ts' : nat -> nat -> string) (today today' : datetime) :
  fst (InitDb.initialize_database db ts today) = Ok tt ->
  date_of today' = date_of today ->
  let db' := snd (InitDb.initialize_database db ts today) in
  (forall date time, In date (sample_dates today) -> In time sample_times ->
     has_scheduled db' date time)
  /\ InitDb.initialize_database db' ts' today' = (Ok tt, db').
Proof.
  intros Hok Hd. cbv zeta. unfold InitDb.initialize_database in *.
  destruct (add_days_spec today (seq 0 7) db ts) as (extra & E & _ & Hhas & _).
  specialize (Hhas Hok). rewrite E. split.
  - intros date time Hdt Ht. unfold sample_dates in Hdt.
    apply in_map_iff in Hdt. destruct Hdt as (i & <- & Hi).
    exact (Hhas i time Hi Ht).
  - exact (add_days_same_day_run today today' (seq 0 7) Hd db _ ts ts' Hok Hhas).
Qed.

Lemma initialize_database_idempotent_witness :
  fst (InitDb.initialize_database [] (fun _ _ => "2025-01-03 12:00:00")
         (instant "2025-01-03 12:00")) = Ok tt
  /\ forall ts',
       InitDb.initialize_database
         (snd (InitDb.initialize_database []
                 (fun _ _ => "2025-01-03 12:00:00")
                 (instant "2025-01-03 12:00")))
         ts' (instant "2025-01-03 18:45")
       = (Ok tt,
          snd (InitDb.initialize_database []
                 (fun _ _ => "2025-01-03 12:00:00")
                 (instant "2025-01-03 12:00"))).
Proof.
  assert (H : fst (InitDb.initialize_database []
                     (fun _ _ => "2025-01-03 12:00:00")
                     (instant "2025-01-03 12:00")) = Ok tt)
    by (vm_compute; reflexivity).
  split; [exact H|]. intros ts'.
  exact (proj2 (initialize_database_idempotent []
                  (fun _ _ => "2025-01-03 12:00:00") ts'
                  (instant "2025-01-03 12:00") (instant "2025-01-03 18:45")
                  H eq_refl)).
Defined.

(** ** The database test script *)

(** Property X15: whatever the store holds, the database test script computes the
    same five answers: the insert succeeds, the slot then reads as taken,
    the listing of today is not empty, the cancel succeeds, and the update
    of the notes fails, the appointment having just been cancelled.  The
    script leaves one row more than it found and no scheduled appointment
    at 11:00 today: one that was booked there before is cancelled too. *)
Theorem test_database_operations_spec (db : DatabaseManager.table)
    (now : datetime) (sql_today ts1 ts2 ts3 : string) :
  let r := TestDb.test_database_operations db now sql_today ts1 ts2 ts3 in
  exists n,
    fst r = (true, false, S n, true, false)
    /\ List.length (snd r) = S (List.length db)
    /\ count_scheduled (snd r) (strftime_Ymd now) "11:00" = 0%nat.
Proof.
  cbv zeta. unfold TestDb.test_database_operations.
  set (today := strftime_Ymd now).
  set (db1 := snd (DatabaseManager.add_appointment db ts1 today "11:00"
                     "Dr. Test" "Test appointment")).
  assert (Hc1 : count_scheduled db1 today "11:00"
                = S (count_scheduled db today "11:00")).
  { unfold db1. rewrite add_appointment_count, !String.eqb_refl.
    cbn [andb]. lia. }
  assert (Hocc : DatabaseManager.check_availability db1 today "11:00" = false)
    by (apply count_scheduled_zero_cases; lia).
  set (db2 := snd (DatabaseManager.cancel_appointment db1 ts2 today "11:00")).
  assert (Hc2 : count_scheduled db2 today "11:00" = 0%nat)
    by apply count_scheduled_cancelled.
  assert (E3 : snd (DatabaseManager.update_appointment_notes db2 ts3 today
                      "11:00" "Updated test notes") = db2)
    by (apply update_appointment_notes_no_match; exact Hc2).
  assert (Hlist : exists n,
            List.length (DatabaseManager.get_appointments db1 sql_today
                           (Some today)) = S n).
  { assert (Hin : In (new_row db ts1 today "11:00" "Dr. Test"
                        "Test appointment")
                     (get_daily_schedule db1 sql_today today)).
    { apply get_daily_schedule_In; [apply strftime_Ymd_nonempty|].
      split; [|split; reflexivity].
      unfold db1, DatabaseManager.add_appointment. cbn [snd].
      apply in_or_app. right. left. reflexivity. }
    unfold get_daily_schedule in Hin.
    destruct (DatabaseManager.get_appointments db1 sql_today (Some today))
      as [|x l]; [destruct Hin|]. exists (List.length l). reflexivity. }
  destruct Hlist as [n Hn]. exists n.
  change (DatabaseManager.add_appointment db ts1 today "11:00" "Dr. Test"
            "Test appointment") with (true, db1).
  cbv iota beta. rewrite Hocc, Hn.
  change (DatabaseManager.cancel_appointment db1 ts2 today "11:00")
    with (0 <? DatabaseManager.rowcount db1 today "11:00", db2).
  cbv iota beta.
  change (DatabaseManager.update_appointment_notes db2 ts3 today "11:00"
            "Updated test notes")
    with (0 <? DatabaseManager.rowcount db2 today "11:00",
          snd (DatabaseManager.update_appointment_notes db2 ts3 today "11:00"
                 "Updated test notes")).
  cbv iota beta. cbn [fst snd]. rewrite !rowcount_count, Hc1, Hc2, E3.
  replace (0 <? Z.of_nat (S (count_scheduled db today "11:00"))) with true
    by (symmetry; apply Z.ltb_lt; lia).
  cbn [Z.of_nat Z.ltb Z.compare]. split; [reflexivity|]. split; [|exact Hc2].
  unfold db2, DatabaseManager.cancel_appointment. cbn [snd].
  rewrite length_map. unfold db1, DatabaseManager.add_appointment. cbn [snd].
  rewrite length_app. cbn [List.length]. lia.
Qed.

(** ** Speaking the suggestions *)

Lemma strptime_HM_pad (hh mm : Z) :
  0 <= hh <= 23 -> 0 <= mm <= 59 ->
  strptime_HM (pad2 hh ++ ":" ++ pad2 mm) = make_datetime 1900 1 1 hh mm.
Proof.
  intros Hhh Hmm. unfold strptime_HM, run_format, pad2. cbn [append].
  unfold pbind at 1. rewrite parse_H_pad2 by assumption.
  unfold pbind at 1. cbn [literal Ascii.eqb Bool.eqb].
  unfold pbind at 1. rewrite parse_M_pad2 by assumption.
  reflexivity.
Qed.

Lemma format_time_strftime (c : datetime) :
  0 <= c ->
  App._format_time (strftime_HM c) = Ok (App.strftime_I_M_p c).
Proof.
  intros Hc. unfold App._format_time, strftime_HM.
  assert (Bh : 0 <= hour c <= 23).
  { unfold hour, time_of, US_PER_DAY, US_PER_HOUR. Z.div_mod_to_equations. lia. }
  assert (Bm : 0 <= minute c <= 59).
  { unfold minute, time_of, US_PER_DAY, US_PER_HOUR, US_PER_MINUTE.
    Z.div_mod_to_equations. lia. }
  rewrite strptime_HM_pad by assumption.
  destruct (make_datetime 1900 1 1 (hour c) (minute c)) as [t| |] eqn:E.
  - apply make_datetime_Ok in E. destruct E as (_ & _ & Eh & Em & _).
    cbn [bind]. unfold App.strftime_I_M_p. rewrite Eh, Em. reflexivity.
  - exfalso. revert E. unfold make_datetime.
    replace (valid_ymd 1900 1 1) with true by reflexivity.
    replace (0 <=? hour c) with true by (symmetry; apply Z.leb_le; lia).
    replace (hour c <=? 23) with true by (symmetry; apply Z.leb_le; lia).
    replace (0 <=? minute c) with true by (symmetry; apply Z.leb_le; lia).
    replace (minute c <=? 59) with true by (symmetry; apply Z.leb_le; lia).
    discriminate.
  - exfalso. revert E. unfold make_datetime. destruct (_ && _); discriminate.
Qed.

Lemma toordinal_midnight (c : datetime) : toordinal (midnight c) = toordinal c.
Proof.
  unfold midnight, combine, date_of, toordinal, US_PER_DAY.
  Z.div_mod_to_equations. lia.
Qed.

Lemma format_date_strftime (c : datetime) :
  0 <= c < MAX_US ->
  App._format_date (strftime_Ymd c) = Ok (App.strftime_A_B_d c).
Proof.
  intros Hc. unfold App._format_date.
  rewrite (strptime_Ymd_strftime_Ymd c Hc). cbn [bind].
  unfold App.strftime_A_B_d, weekday. rewrite toordinal_midnight. reflexivity.
Qed.

Lemma candidates_range (n : nat) :
  forall cur, cur mod US_PER_MINUTE = 0 ->
  Forall (fun c => 0 <= c < MAX_US /\ c mod US_PER_MINUTE = 0) (candidates n cur).
Proof.
  induction n as [|n IH]; intros cur Hm; cbn [candidates]; [constructor|].
  destruct (next_candidate_spec cur) as [(r & -> & _ & Hr & Hmr)| -> ];
    [|constructor].
  constructor; [split; [exact Hr | exact (Hmr Hm)]|].
  apply IH. exact (Hmr Hm).
Qed.

Lemma available_among_slot_of (clk : clock) (db : table) (cs : list datetime) :
  forall tick s,
  In s (available_among clk tick db cs) -> exists c, In c cs /\ s = slot_of c.
Proof.
  induction cs as [|c cs IH]; intros tick s; cbn [available_among].
  - intros [].
  - destruct (is_available (clk tick) db (strftime_Ymd c) (strftime_HM c)).
    + intros [<-|Hin].
      * exists c. split; [left|]; reflexivity.
      * destruct (IH _ _ Hin) as (c' & Hc & E). exists c'. split; [right|]; assumption.
    + intros Hin. destruct (IH _ _ Hin) as (c' & Hc & E).
      exists c'. split; [right|]; assumption.
Qed.

Lemma format_slots_Ok (l : list slot) :
  Forall (fun s => exists d t, App._format_date (fst s) = Ok d
                               /\ App._format_time (snd s) = Ok t) l ->
  forall formatted, exists text, App.format_slots formatted l = Ok text.
Proof.
  induction 1 as [|s l (d & t & Hd & Ht) _ IH]; intros formatted;
    cbn [App.format_slots].
  - eexists. reflexivity.
  - rewrite Hd, Ht. cbn [bind]. apply IH.
Qed.

(** Property X16: the suggestions can always be spoken: for every slot that
    suggest_alternative_slots returns, _format_date and _format_time
    succeed and render the weekday, month and day, and the time on the
    12-hour clock, of the very instant the slot denotes; hence
    _format_alternative_slots raises no exception on the list. *)
Theorem suggestions_can_be_spoken (fuel : nat) (clk : clock)
    (db : table) (date time : string) (num_suggestions : Z)
    (l : list slot) (k : nat) :
  suggest_alternative_slots fuel clk db date time num_suggestions = (Ok l, k) ->
  Forall (fun s => exists dt,
            slot_instant s = Ok dt
            /\ App._format_date (fst s) = Ok (App.strftime_A_B_d dt)
            /\ App._format_time (snd s) = Ok (App.strftime_I_M_p dt)) l
  /\ exists text, App._format_alternative_slots l = Ok text.
Proof.
  intros H.
  assert (Hall : Forall (fun s => exists dt,
            slot_instant s = Ok dt
            /\ App._format_date (fst s) = Ok (App.strftime_A_B_d dt)
            /\ App._format_time (snd s) = Ok (App.strftime_I_M_p dt)) l).
  { apply Forall_forall. intros s Hin.
    destruct (suggest_alternative_slots_exact _ _ _ _ _ _ _ _ H)
      as [->|(p & Hp & _ & ->)]; [destruct Hin|].
    apply available_among_slot_of in Hin. destruct Hin as (c & Hc & ->).
    pose proof (candidates_range k p
                  (proj2 (strptime_Ymd_HM_Ok _ _ Hp))) as Hr.
    rewrite Forall_forall in Hr. destruct (Hr c Hc) as [Hrange Hmin].
    exists c. unfold slot_of. cbn [fst snd]. split; [|split].
    - apply strptime_strftime; assumption.
    - apply format_date_strftime. exact Hrange.
    - apply format_time_strftime. lia. }
  split; [exact Hall|].
  unfold App._format_alternative_slots.
  destruct (format_slots_Ok l) with (formatted := "") as [text ->].
  - apply (Forall_impl _ (P := fun s => exists dt,
            slot_instant s = Ok dt
            /\ App._format_date (fst s) = Ok (App.strftime_A_B_d dt)
            /\ App._format_time (snd s) = Ok (App.strftime_I_M_p dt)));
      [|exact Hall].
    intros s (dt & _ & Hd & Ht). eauto.
  - eexists. reflexivity.
Qed.

Lemma suggestions_can_be_spoken_witness :
  suggest_alternative_slots 5 friday_noon [monday_9am] "2025-01-03" "16:00" 3
  = (Ok [("2025-01-03", "16:30"); ("2025-01-06", "09:30");
         ("2025-01-06", "10:00")], 4%nat)
  /\ exists text,
       App._format_alternative_slots
         [("2025-01-03", "16:30"); ("2025-01-06", "09:30");
          ("2025-01-06", "10:00")] = Ok text.
Proof.
  assert (H : suggest_alternative_slots 5 friday_noon [monday_9am]
                "2025-01-03" "16:00" 3
              = (Ok [("2025-01-03", "16:30"); ("2025-01-06", "09:30");
                     ("2025-01-06", "10:00")], 4%nat))
    by (vm_compute; reflexivity).
  split; [exact H|].
  exact (proj2 (suggestions_can_be_spoken _ _ _ _ _ _ _ _ H)).
Defined.

(** What is spoken for the three suggestions of the witness. *)
Example spoken_suggestions :
  App._format_alternative_slots
    [("2025-01-03", "16:30"); ("2025-01-06", "09:30"); ("2025-01-06", "10:00")]
  = Ok "Friday, January 03 at 04:30 PM, Monday, January 06 at 09:30 AM, Monday, January 06 at 10:00 AM".
Proof. vm_compute. reflexivity. Qed.
